(** * SmartWeld agent: query classification, SQL tool guard and the
      telemetry anomaly pipeline

    A shallow embedding of the decision logic of the repository:

    - [JsString]: the [String.prototype] methods the code relies on
      ([trim], [toLowerCase], [includes], [startsWith], [split], and the two
      global [replace] calls that strip markdown fences);
    - [Enhanced], [Hybrid] and [SchemaFirst]: the keyword classifier and the
      two hybrid classifiers, all called [classifyQuery];
    - [GuardedToolkit] and [DataSourceToolkit]: the two [SmartWeldSQLTool]
      classes;
    - [Json]: the platform's [JSON.parse];
    - [JsonAgent]: the fence cleaning of the JSON-oriented agent;
    - [AgentAI]: [analyzeHighCurrent] of [services/agentAI.ts];
    - [App]: the [POST /api/telemetry] handler of [app.ts];
    - [Legacy]: the earlier [analyzeHighCurrent] and the earlier handler;
    - [Patterns] and [DevicePatterns]: the regular expressions of the chat
      agents;
    - [AdvancedToolkit] and [DataSourceTools]: the tools of the two
      versions of [getSQLToolkit], on the state of one chat request;
    - [TableTools] and [Langchain]: the tools of [tools/] and the SQL
      analysis tool built on [langchainTool];
    - [HybridAgent], [LaterHybridAgent] and [EnhancedAgent]: the handlers
      behind the classifiers and [getConversationalResponse];
    - [ChatEndpoint]: the [POST /api/chat] handler;
    - [MockAgent]: the function-calling agent and its mock tool.

    Strings are sequences of code units below 256 (Latin-1), the range in
    which Rocq's [ascii] and a JavaScript code unit coincide.  Telemetry
    readings are exact rationals extended with [NaN] and the two infinities:
    the rounding of binary64 arithmetic is not modelled. *)

From Stdlib Require Import String Ascii List ZArith QArith Bool Lia Lqa.
Import ListNotations.

Set Warnings "-register-all".

Local Close Scope Q_scope.
Local Open Scope string_scope.
Local Open Scope bool_scope.

(* ================================================================== *)
(** ** Outcomes of fallible code *)

(** A thrown value as far as the code inspects it: whether it is an
    [instanceof Error], its text ([error.message], or [String(error)] for a
    value that is no [Error]), and [error.response.status] when it carries
    an HTTP response. *)
Record JsError : Type := mkJsError {
  isErrorInstance : bool;
  message : string;
  responseStatus : option Z
}.

(** An [async] function either resolves with a value or rejects. *)
Inductive Outcome (A : Type) : Type :=
| Returned (a : A)
| Thrown (e : JsError).
Arguments Returned {A} a.
Arguments Thrown {A} e.

Definition returns {A : Type} (o : Outcome A) : bool :=
  match o with Returned _ => true | Thrown _ => false end.

(** The value an outcome resolves with, if it does. *)
Definition resolved {A : Type} (o : Outcome A) : option A :=
  match o with Returned a => Some a | Thrown _ => None end.

(** [error instanceof Error ? error.message : String(error)]: [message]
    holds the text in either case. *)
Definition errorText (e : JsError) : string := message e.

(* ================================================================== *)
(** ** String methods *)

Module JsString.

(** WhiteSpace and LineTerminator code units below 256: TAB, LF, VT, FF, CR,
    SP and NBSP.  This is the set [trim] removes and the class [\s]. *)
Definition isWhiteSpace (c : ascii) : bool :=
  match c with
  | "009"%char | "010"%char | "011"%char | "012"%char | "013"%char
  | " "%char | "160"%char => true
  | _ => false
  end.

Fixpoint trimStart (s : string) : string :=
  match s with
  | EmptyString => EmptyString
  | String c s' => if isWhiteSpace c then trimStart s' else s
  end.

Fixpoint trimEnd (s : string) : string :=
  match s with
  | EmptyString => EmptyString
  | String c s' =>
      match trimEnd s' with
      | EmptyString => if isWhiteSpace c then EmptyString else String c EmptyString
      | r => String c r
      end
  end.

Definition trim (s : string) : string := trimEnd (trimStart s).

(** Lower-casing of one Latin-1 code unit: A-Z and the accented capitals
    0xC0-0xDE except the multiplication sign 0xD7 move up by 32. *)
Definition lowerChar (c : ascii) : ascii :=
  let n := nat_of_ascii c in
  if ((65 <=? n) && (n <=? 90))%nat then ascii_of_nat (n + 32)
  else if ((192 <=? n) && (n <=? 222) && negb (n =? 215))%nat
       then ascii_of_nat (n + 32)
       else c.

Fixpoint toLowerCase (s : string) : string :=
  match s with
  | EmptyString => EmptyString
  | String c s' => String (lowerChar c) (toLowerCase s')
  end.

(** [s.startsWith(p)] *)
Definition startsWith (s p : string) : bool := prefix p s.

(** [s.includes(sub)] *)
Fixpoint includes (s sub : string) : bool :=
  prefix sub s ||
  match s with
  | EmptyString => false
  | String _ s' => includes s' sub
  end.

(** [s.split(sep)] for a one-character separator; [cur] is the piece being
    read. *)
Fixpoint splitAux (sep : ascii) (cur : string) (s : string) : list string :=
  match s with
  | EmptyString => [cur]
  | String c s' =>
      if Ascii.eqb c sep then cur :: splitAux sep EmptyString s'
      else splitAux sep (cur ++ String c EmptyString) s'
  end.

Definition split (s : string) (sep : ascii) : list string :=
  splitAux sep EmptyString s.

(** [s.replace(/<marker>\s*/g, '')] for a literal, non-empty marker.  The
    scanner walks the string once: [k] counts the code units of a matched
    marker still to be dropped, and [sp] says that a match has just ended
    and its greedy [\s*] is still consuming. *)
Fixpoint stripAll (marker : string) (k : nat) (sp : bool) (s : string) : string :=
  match s with
  | EmptyString => EmptyString
  | String c s' =>
      match k with
      | S k' => stripAll marker k' true s'
      | O =>
          if sp && isWhiteSpace c then stripAll marker 0 true s'
          else if prefix marker s
               then stripAll marker (String.length marker - 1) true s'
               else String c (stripAll marker 0 false s')
      end
  end.

Definition backtick : ascii := "096"%char.
Definition fence : string :=
  String backtick (String backtick (String backtick EmptyString)).
Definition fenceJson : string := fence ++ "json".

(** [.replace(/```json\s*/g, '')] *)
Definition replaceJsonFence (s : string) : string := stripAll fenceJson 0 false s.
(** [.replace(/```\s*/g, '')] *)
Definition replaceFence (s : string) : string := stripAll fence 0 false s.

End JsString.

(* ================================================================== *)
(** ** The reasoning oracle *)

(** What one call of the language model gives back: the text of its answer,
    or a rejection. *)
Inductive OracleOutcome : Type :=
| Responds (text : string)
| Fails (e : JsError).

(* ================================================================== *)
(** ** The enhanced classifier (keyword rules only) *)

Module Enhanced.
Import JsString.

(** [{ type: 'simple' | 'complex' | 'tool_specific', action?, tool? }] *)
Inductive Classification : Type :=
| tool_specific (tool : string)
| simple (action : string)
| complex.

Definition classifyQuery (input : string) : Classification :=
  let lowerInput := toLowerCase input in
  if includes lowerInput "list tables" || includes lowerInput "show tables"
     || includes lowerInput "what tables"
  then tool_specific "listTables"
  else if includes lowerInput "schema" || includes lowerInput "structure"
          || includes lowerInput "columns"
  then tool_specific "getSchema"
  else if includes lowerInput "sql" || includes lowerInput "query"
          || includes lowerInput "select" || includes lowerInput "analyze"
          || includes lowerInput "data" || includes lowerInput "find"
  then tool_specific "langchain"
  else if includes lowerInput "count" || includes lowerInput "how many"
          || includes lowerInput "latest"
  then simple "count_records"
  else complex.

End Enhanced.

(* ================================================================== *)
(** ** The hybrid classifiers (keyword rules, then the oracle) *)

(** The repository has two hybrid [classifyQuery] functions.  They differ
    in their keyword rules and share, word for word, what follows them: the
    call of the oracle and the reading of its answer. *)
Module HybridCore.
Import JsString.

(** [{ type: 'simple' | 'complex', action? }] *)
Inductive Classification : Type :=
| simple (action : string)
| complex.

(** The branch of [classifyQuery] that decides. *)
Inductive Rule : Type :=
| TelemetryAnalysisRule
| SchemaRule
| DeviceRule
| SqlRule
| MultiStepRule
| OracleRule.

(** The answer of [model.invoke] is trimmed and lower-cased, and an answer
    that starts with [simple:] names the action between the first and the
    second colon. *)
Definition parseClassifierResponse (content : string) : Classification :=
  let response := toLowerCase (trim content) in
  if startsWith response "simple:"
  then simple (nth 1 (split response ":"%char) EmptyString)
  else complex.

(** [classifyQuery] for given keyword rules, together with the number of
    oracle calls it made.  The oracle is opaque and its prompt a fixed
    template around [input], so the outcome of [model.invoke] is given as a
    function of [input].  There is no [try] around the call: a rejection
    leaves [classifyQuery]. *)
Definition classifyWith (rule : string -> Rule)
  (invoke : string -> OracleOutcome) (input : string)
  : Outcome Classification * nat :=
  match rule input with
  | OracleRule =>
      match invoke input with
      | Responds content => (Returned (parseClassifierResponse content), 1%nat)
      | Fails e => (Thrown e, 1%nat)
      end
  | _ => (Returned complex, 0%nat)
  end.

(** [getConversationalResponse]: the handlers behind it are outside this
    model; what matters here is its [try]/[catch] around [classifyQuery]. *)
Definition respondWith (rule : string -> Rule)
  (invoke : string -> OracleOutcome)
  (handleSimpleQuery : string -> string -> Outcome string)
  (handleComplexQuery : string -> Outcome string)
  (input : string) : string :=
  let rescue (e : JsError) :=
    "I encountered an error while processing your request: " ++ errorText e
    ++ ". Please try rephrasing your question." in
  match fst (classifyWith rule invoke input) with
  | Thrown e => rescue e
  | Returned classification =>
      let handled :=
        match classification with
        | simple action =>
            if String.eqb action EmptyString then handleComplexQuery input
            else handleSimpleQuery input action
        | complex => handleComplexQuery input
        end in
      match handled with
      | Returned result => result
      | Thrown e => rescue e
      end
  end.

End HybridCore.

(** The hybrid classifier whose first rule is the telemetry-analysis one. *)
Module Hybrid.
Import JsString.
Export HybridCore.

Definition matchedRule (input : string) : Rule :=
  let lowerInput := toLowerCase input in
  if includes lowerInput "maximum" || includes lowerInput "max"
     || includes lowerInput "average" || includes lowerInput "avg"
     || includes lowerInput "range" || includes lowerInput "performance"
     || includes lowerInput "current" || includes lowerInput "temperature"
     || includes lowerInput "voltage"
  then TelemetryAnalysisRule
  else if includes lowerInput "table" || includes lowerInput "schema"
          || includes lowerInput "structure" || includes lowerInput "column"
          || includes lowerInput "database structure"
          || includes lowerInput "how many tables"
          || includes lowerInput "what tables"
  then SchemaRule
  else if (includes lowerInput "device" || includes lowerInput "devices")
          && negb (includes lowerInput "current")
          && negb (includes lowerInput "temperature")
          && negb (includes lowerInput "voltage")
  then DeviceRule
  else if includes lowerInput "sql" || includes lowerInput "query"
          || includes lowerInput "select"
  then SqlRule
  else if includes lowerInput "compare" || includes lowerInput "analyze"
          || includes lowerInput "relationship" || includes lowerInput "between"
          || includes lowerInput "and" || includes lowerInput "then"
  then MultiStepRule
  else OracleRule.

Definition classifyQuery : (string -> OracleOutcome) -> string
                           -> Outcome Classification * nat :=
  classifyWith matchedRule.

Definition getConversationalResponse :=
  respondWith matchedRule.

End Hybrid.

(** The hybrid classifier whose first rule is the schema one. *)
Module SchemaFirst.
Import JsString.
Export HybridCore.

Definition matchedRule (input : string) : Rule :=
  let lowerInput := toLowerCase input in
  if includes lowerInput "table" || includes lowerInput "schema"
     || includes lowerInput "structure" || includes lowerInput "column"
     || includes lowerInput "database structure"
     || includes lowerInput "how many tables"
     || includes lowerInput "what tables"
  then SchemaRule
  else if includes lowerInput "sql" || includes lowerInput "query"
          || includes lowerInput "select"
  then SqlRule
  else if includes lowerInput "compare" || includes lowerInput "analyze"
          || includes lowerInput "relationship" || includes lowerInput "between"
          || includes lowerInput "and" || includes lowerInput "then"
  then MultiStepRule
  else OracleRule.

Definition classifyQuery : (string -> OracleOutcome) -> string
                           -> Outcome Classification * nat :=
  classifyWith matchedRule.

Definition getConversationalResponse :=
  respondWith matchedRule.

End SchemaFirst.

(* ================================================================== *)
(** ** The SQL tools *)

(** The relational store as the tools see it: the statements that reached
    [sequelize.query], in order. *)
Record Store : Type := mkStore { executed : list string }.

(** [sequelize.query(sql, ...)]: the statement is sent to the store, which
    answers with rows (already rendered by [JSON.stringify]) or rejects. *)
Definition sequelize_query (run : string -> Outcome string) (sql : string)
  (st : Store) : Outcome string * Store :=
  (run sql, mkStore (executed st ++ [sql])%list).

(** [SmartWeldSQLTool] of the toolkit with the quick-query tool. *)
Module GuardedToolkit.
Import JsString.

Definition securityError : string :=
  "Error: Only SELECT queries are allowed for security reasons.".

Definition _call (run : string -> Outcome string) (input : string) (st : Store)
  : string * Store :=
  let trimmedQuery := trim input in
  if negb (startsWith (toLowerCase trimmedQuery) "select")
  then (securityError, st)
  else
    match sequelize_query run trimmedQuery st with
    | (Returned result, st') =>
        ("Query executed successfully. Results:" ++ String "010"%char result, st')
    | (Thrown e, st') => ("SQL Error: " ++ errorText e, st')
    end.

End GuardedToolkit.

(** [SmartWeldSQLTool] of [services/sql-toolkit.ts]. *)
Module DataSourceToolkit.

Definition _call (run : string -> Outcome string) (input : string) (st : Store)
  : string * Store :=
  match sequelize_query run input st with
  | (Returned result, st') => (result, st')
  | (Thrown e, st') => ("Error executing query: " ++ errorText e, st')
  end.

End DataSourceToolkit.

(* ================================================================== *)
(** ** [JSON.parse] *)

Module Json.

(** A parsed value.  A string value is a list of UTF-16 code units, since a
    [\uXXXX] escape may denote a unit above 255; a number is kept as the
    exact decimal [mantissa * 10 ^ exponent] of its literal; the members of
    an object are in insertion order, one entry per key. *)
Inductive json : Type :=
| JNull
| JBool (b : bool)
| JNumber (mantissa : Z) (exponent : Z)
| JString (units : list N)
| JArray (elements : list json)
| JObject (members : list (list N * json)).

Fixpoint unitsOf (s : string) : list N :=
  match s with
  | EmptyString => []
  | String c s' => N_of_ascii c :: unitsOf s'
  end.

(** The string value with the given Latin-1 text. *)
Definition str (s : string) : json := JString (unitsOf s).

Definition unitsEqb (a b : list N) : bool :=
  if list_eq_dec N.eq_dec a b then true else false.

(** [CreateDataProperty]: a repeated key overwrites the earlier value and
    keeps its place. *)
Fixpoint setProp (k : list N) (v : json) (ms : list (list N * json))
  : list (list N * json) :=
  match ms with
  | [] => [(k, v)]
  | (k', v') :: ms' =>
      if unitsEqb k k' then (k', v) :: ms' else (k', v') :: setProp k v ms'
  end.

Fixpoint lookup (k : list N) (ms : list (list N * json)) : option json :=
  match ms with
  | [] => None
  | (k', v) :: ms' => if unitsEqb k k' then Some v else lookup k ms'
  end.

(** JSON whitespace: TAB, LF, CR and SP. *)
Definition isJsonWs (c : ascii) : bool :=
  match c with
  | "009"%char | "010"%char | "013"%char | " "%char => true
  | _ => false
  end.

Fixpoint skipWs (s : string) : string :=
  match s with
  | EmptyString => EmptyString
  | String c s' => if isJsonWs c then skipWs s' else s
  end.

Fixpoint dropWsEnd (s : string) : string :=
  match s with
  | EmptyString => EmptyString
  | String c s' =>
      match dropWsEnd s' with
      | EmptyString => if isJsonWs c then EmptyString else String c EmptyString
      | r => String c r
      end
  end.

Definition digitOf (c : ascii) : option N :=
  let n := N_of_ascii c in
  if ((48 <=? n) && (n <=? 57))%N then Some (n - 48)%N else None.

Definition hexOf (c : ascii) : option N :=
  let n := N_of_ascii c in
  if ((48 <=? n) && (n <=? 57))%N then Some (n - 48)%N
  else if ((65 <=? n) && (n <=? 70))%N then Some (n - 55)%N
  else if ((97 <=? n) && (n <=? 102))%N then Some (n - 87)%N
  else None.

(** The longest run of decimal digits at the head of [s]. *)
Fixpoint spanDigits (s : string) : list N * string :=
  match s with
  | EmptyString => ([], EmptyString)
  | String c s' =>
      match digitOf c with
      | Some d => let (ds, r) := spanDigits s' in (d :: ds, r)
      | None => ([], s)
      end
  end.

Definition digitsValue (ds : list N) : N :=
  fold_left (fun acc d => (10 * acc + d)%N) ds 0%N.

Definition quote : ascii := "034"%char.
Definition backslash : ascii := "\"%char.

(** The code unit a one-letter escape stands for. *)
Definition escapeUnit (e : ascii) : option N :=
  if Ascii.eqb e quote then Some 34%N
  else if Ascii.eqb e backslash then Some 92%N
  else if Ascii.eqb e "/"%char then Some 47%N
  else if Ascii.eqb e "b"%char then Some 8%N
  else if Ascii.eqb e "f"%char then Some 12%N
  else if Ascii.eqb e "n"%char then Some 10%N
  else if Ascii.eqb e "r"%char then Some 13%N
  else if Ascii.eqb e "t"%char then Some 9%N
  else None.

Definition consUnit (u : N) (rest : option (list N * string))
  : option (list N * string) :=
  match rest with
  | Some (us, r) => Some (u :: us, r)
  | None => None
  end.

(** The code units of a string literal, after its opening quote. *)
Fixpoint parseChars (s : string) : option (list N * string) :=
  match s with
  | EmptyString => None
  | String c r =>
      if Ascii.eqb c quote then Some ([], r)
      else if Ascii.eqb c backslash then
        match r with
        | EmptyString => None
        | String e r1 =>
            if Ascii.eqb e "u"%char then
              match r1 with
              | String h1 (String h2 (String h3 (String h4 r2))) =>
                  match hexOf h1, hexOf h2, hexOf h3, hexOf h4 with
                  | Some a, Some b, Some c, Some d =>
                      consUnit (((a * 16 + b) * 16 + c) * 16 + d)%N (parseChars r2)
                  | _, _, _, _ => None
                  end
              | _ => None
              end
            else
              match escapeUnit e with
              | Some u => consUnit u (parseChars r1)
              | None => None
              end
        end
      else if (N_of_ascii c <? 32)%N then None
      else consUnit (N_of_ascii c) (parseChars r)
  end.

(** [s] without the prefix [p], when it has it. *)
Fixpoint dropPrefix (p s : string) : option string :=
  match p with
  | EmptyString => Some s
  | String a p' =>
      match s with
      | EmptyString => None
      | String b s' => if Ascii.eqb a b then dropPrefix p' s' else None
      end
  end.

(** At least one digit. *)
Definition parseDigits (s : string) : option (list N * string) :=
  match spanDigits s with
  | ([], _) => None
  | (ds, r) => Some (ds, r)
  end.

(** The integer part: a single 0, or digits that do not begin with 0. *)
Definition parseInt (s : string) : option (list N * string) :=
  match dropPrefix "0" s with
  | Some r => Some ([0%N], r)
  | None => parseDigits s
  end.

(** The optional fraction: a point and at least one digit. *)
Definition parseFrac (s : string) : option (list N * string) :=
  match dropPrefix "." s with
  | Some r => parseDigits r
  | None => Some ([], s)
  end.

(** The optional exponent: e or E, an optional sign, at least one digit. *)
Definition parseExp (s : string) : option (Z * string) :=
  let afterE :=
    match dropPrefix "e" s with
    | Some r => Some r
    | None => dropPrefix "E" s
    end in
  match afterE with
  | None => Some (0%Z, s)
  | Some r =>
      let (expNegative, r1) :=
        match dropPrefix "-" r with
        | Some r' => (true, r')
        | None => match dropPrefix "+" r with
                  | Some r' => (false, r')
                  | None => (false, r)
                  end
        end in
      match parseDigits r1 with
      | Some (eds, r2) =>
          let e := Z.of_N (digitsValue eds) in
          Some (if expNegative then (- e)%Z else e, r2)
      | None => None
      end
  end.

(** A number literal: an optional minus sign, the integer part, the
    optional fraction and the optional exponent. *)
Definition parseNumber (s : string) : option (json * string) :=
  let (negative, s1) :=
    match dropPrefix "-" s with
    | Some r => (true, r)
    | None => (false, s)
    end in
  match parseInt s1 with
  | None => None
  | Some (ids, s2) =>
      match parseFrac s2 with
      | None => None
      | Some (fds, s3) =>
          match parseExp s3 with
          | None => None
          | Some (e, s4) =>
              let m := Z.of_N (digitsValue (ids ++ fds)) in
              Some (JNumber (if negative then (- m)%Z else m)
                            (e - Z.of_nat (List.length fds))%Z, s4)
          end
      end
  end.

(** A literal name at the head of [s]. *)
Definition parseLiteral (name : string) (v : json) (s : string)
  : option (json * string) :=
  match dropPrefix name s with
  | Some r => Some (v, r)
  | None => None
  end.

(** What follows a value inside brackets: a comma, the closing bracket, or
    anything else. *)
Inductive Separator : Type :=
| Comma (rest : string)
| Close (rest : string)
| Neither.

Definition separator (close : ascii) (s : string) : Separator :=
  match skipWs s with
  | EmptyString => Neither
  | String c r =>
      if Ascii.eqb c ","%char then Comma r
      else if Ascii.eqb c close then Close r
      else Neither
  end.

(** Recursive descent over the grammar of values.  [fuel] bounds the depth
    of the calls; [parse] below gives two units of it per code unit and two
    more, and no larger amount changes the result ([parse_fuel_is_enough]). *)
Fixpoint parseValue (fuel : nat) (s : string) : option (json * string) :=
  match fuel with
  | O => None
  | S fuel' =>
      match s with
      | EmptyString => None
      | String c r =>
          if Ascii.eqb c "{"%char then
            match dropPrefix "}" (skipWs r) with
            | Some r' => Some (JObject [], r')
            | None => parseMembers fuel' [] (skipWs r)
            end
          else if Ascii.eqb c "["%char then
            match dropPrefix "]" (skipWs r) with
            | Some r' => Some (JArray [], r')
            | None => parseElements fuel' [] (skipWs r)
            end
          else if Ascii.eqb c quote then
            match parseChars r with
            | Some (us, r') => Some (JString us, r')
            | None => None
            end
          else if Ascii.eqb c "t"%char then parseLiteral "true" (JBool true) s
          else if Ascii.eqb c "f"%char then parseLiteral "false" (JBool false) s
          else if Ascii.eqb c "n"%char then parseLiteral "null" JNull s
          else parseNumber s
      end
  end
with parseElements (fuel : nat) (acc : list json) (s : string)
  : option (json * string) :=
  match fuel with
  | O => None
  | S fuel' =>
      match parseValue fuel' s with
      | Some (v, r) =>
          match separator "]" r with
          | Comma r' => parseElements fuel' (acc ++ [v]) (skipWs r')
          | Close r' => Some (JArray (acc ++ [v]), r')
          | Neither => None
          end
      | None => None
      end
  end
with parseMembers (fuel : nat) (acc : list (list N * json)) (s : string)
  : option (json * string) :=
  match fuel with
  | O => None
  | S fuel' =>
      match dropPrefix (String quote EmptyString) s with
      | None => None
      | Some r =>
          match parseChars r with
          | None => None
          | Some (k, r1) =>
              match dropPrefix ":" (skipWs r1) with
              | None => None
              | Some r2 =>
                  match parseValue fuel' (skipWs r2) with
                  | None => None
                  | Some (v, r3) =>
                      match separator "}" r3 with
                      | Comma r4 => parseMembers fuel' (setProp k v acc) (skipWs r4)
                      | Close r4 => Some (JObject (setProp k v acc), r4)
                      | Neither => None
                      end
                  end
              end
          end
      end
  end.

(** [JSON.parse(text)]: whitespace, one value, whitespace.  [None] stands
    for the [SyntaxError] it throws. *)
Definition parse (text : string) : option json :=
  let core := dropWsEnd (skipWs text) in
  match parseValue (2 * String.length core + 2) core with
  | Some (v, EmptyString) => Some v
  | _ => None
  end.

(** [ToBoolean] *)
Definition truthy (v : json) : bool :=
  match v with
  | JNull => false
  | JBool b => b
  | JNumber m _ => negb (m =? 0)%Z
  | JString us => match us with [] => false | _ => true end
  | JArray _ | JObject _ => true
  end.

(** Whether the conversion of [v] to a string, as a template literal or
    [String(v)] performs it, throws a [TypeError].  An object is converted
    by its [toString]: a parsed object that has a member of that name holds
    a value there and no function, and [valueOf], which is tried next, is
    either such a member too or the inherited method, which returns the
    object itself.  An array converts each of its elements other than
    [null] and joins the texts. *)
Fixpoint toStringThrows (v : json) : bool :=
  match v with
  | JObject ms =>
      match lookup (unitsOf "toString") ms with
      | Some _ => true
      | None => false
      end
  | JArray es => existsb toStringThrows es
  | _ => false
  end.

(** [v.key] for a key that no prototype defines: [None] is [undefined],
    and reading a property of [null] throws a [TypeError]. *)
Definition getProp (v : json) (key : string) : Outcome (option json) :=
  match v with
  | JNull =>
      Thrown (mkJsError true "Cannot read properties of null" None)
  | JObject ms => Returned (lookup (unitsOf key) ms)
  | _ => Returned None
  end.

(** [x || d] *)
Definition orElse (x : option json) (d : json) : json :=
  match x with
  | Some v => if truthy v then v else d
  | None => d
  end.

(** [r] is what is left of [s] after some prefix. *)
Definition suffixOf (r s : string) : Prop := exists p, s = p ++ r.

(** What the descent guarantees about an object it returns from [s] with
    [r] left over: [s] begins with the opening brace, and the part consumed
    ends with the closing brace. *)
Definition objectShape (s : string) (v : json) (r : string) : Prop :=
  match v with
  | JObject _ => (exists s', s = String "{" s') /\ exists p, s = p ++ String "}" r
  | _ => True
  end.

End Json.

(* ================================================================== *)
(** ** Numbers *)

Module JsNumber.

(** A JavaScript number: [NaN], an infinity or a finite value.  Finite
    values are exact rationals, zero carries no sign, and finite arithmetic
    neither rounds nor overflows.  A reading that is missing from a record
    ([undefined]) behaves in every comparison of the code as [NaN] does. *)
Inductive number : Type :=
| NaN
| NegInfinity
| Finite (q : Q)
| Infinity.

Definition Qgtb (a b : Q) : bool := negb (Qle_bool a b).
Definition Qltb (a b : Q) : bool := negb (Qle_bool b a).

(** [a > b] *)
Definition gt (a b : number) : bool :=
  match a, b with
  | NaN, _ | _, NaN => false
  | NegInfinity, _ => false
  | Finite _, NegInfinity => true
  | Finite x, Finite y => Qgtb x y
  | Finite _, Infinity => false
  | Infinity, Infinity => false
  | Infinity, _ => true
  end.

(** [a - b] *)
Definition sub (a b : number) : number :=
  match a, b with
  | NaN, _ | _, NaN => NaN
  | Infinity, Infinity | NegInfinity, NegInfinity => NaN
  | Infinity, _ => Infinity
  | NegInfinity, _ => NegInfinity
  | Finite _, Infinity => NegInfinity
  | Finite _, NegInfinity => Infinity
  | Finite x, Finite y => Finite (x - y)
  end.

(** [a / b] *)
Definition div (a b : number) : number :=
  match a, b with
  | NaN, _ | _, NaN => NaN
  | Infinity, Finite y => if Qltb y 0 then NegInfinity else Infinity
  | NegInfinity, Finite y => if Qltb y 0 then Infinity else NegInfinity
  | Finite _, Infinity | Finite _, NegInfinity => Finite 0
  | Finite x, Finite y =>
      if Qeq_bool y 0 then
        if Qeq_bool x 0 then NaN
        else if Qltb x 0 then NegInfinity else Infinity
      else Finite (x / y)
  | _, _ => NaN
  end.

End JsNumber.

(* ================================================================== *)
(** ** State and exceptions *)

(** A computation over a state [S] that resolves or rejects. *)
Definition M (S A : Type) : Type := S -> Outcome A * S.

Definition ret {S A : Type} (a : A) : M S A := fun s => (Returned a, s).

Definition bind {S A B : Type} (c : M S A) (k : A -> M S B) : M S B :=
  fun s =>
    match c s with
    | (Returned a, s') => k a s'
    | (Thrown e, s') => (Thrown e, s')
    end.

Definition throw {S A : Type} (e : JsError) : M S A := fun s => (Thrown e, s).

(** [try { body } catch (error) { handler }] *)
Definition tryCatch {S A : Type} (body : M S A) (handler : JsError -> M S A)
  : M S A :=
  fun s =>
    match body s with
    | (Returned a, s') => (Returned a, s')
    | (Thrown e, s') => handler e s'
    end.

Definition modify {S : Type} (f : S -> S) : M S unit := fun s => (Returned tt, f s).

Notation "x <- c ;; k" := (bind c (fun x => k))
  (at level 61, c at next level, right associativity).
Notation "c ;;; k" := (bind c (fun _ => k))
  (at level 61, right associativity).

(** [for (const x of xs) { body }] *)
Fixpoint forEach {S A : Type} (xs : list A) (body : A -> M S unit) : M S unit :=
  match xs with
  | [] => ret tt
  | x :: xs' => body x ;;; forEach xs' body
  end.

(* ================================================================== *)
(** ** The process and its collaborators *)

Import JsNumber.

(** [TelemetryData] *)
Record TelemetryData : Type := mkTelemetryData {
  deviceId : string;
  timestamp : string;
  temperature : number;
  voltage : number;
  current : number;
  gas : number;
  CURRENT_THRESHOLD : number
}.

(** [AnalysisResult].  The three text fields hold whatever value the code
    puts there; [analysisTimestamp] is the clock reading that
    [new Date().toISOString()] renders. *)
Record AnalysisResult : Type := mkAnalysisResult {
  severity : Json.json;
  possibleCause : Json.json;
  recommendation : Json.json;
  isCurrentExceeded : bool;
  analysisTimestamp : Z
}.

(** The four severities that the type of [AnalysisResult] lists. *)
Definition listed : list Json.json :=
  [Json.str "CRITICAL"; Json.str "WARNING"; Json.str "NORMAL"; Json.str "UNKNOWN"].

(** A row of [DeviceTelemetries]: the readings and the analysis columns. *)
Record Row : Type := mkRow {
  rowId : nat;
  rowDeviceId : string;
  rowTimestamp : string;
  rowTemperature : number;
  rowGas : number;
  rowCurrent : number;
  rowVoltage : number;
  rowSeverity : option Json.json;
  rowPossibleCause : option Json.json;
  rowRecommendation : option Json.json;
  rowIsCurrentExceeded : option bool;
  rowAnalysisTimestamp : option Z
}.

(** The key and the six readings of a row: what [bulkCreate] stores. *)
Definition readings (r : Row)
  : nat * string * string * number * number * number * number :=
  (rowId r, rowDeviceId r, rowTimestamp r, rowTemperature r, rowGas r,
   rowCurrent r, rowVoltage r).

(** The four analysis columns that the route writes. *)
Definition analysisColumns (r : Row)
  : option Json.json * option Json.json * option Json.json * option Z :=
  (rowSeverity r, rowPossibleCause r, rowRecommendation r, rowAnalysisTimestamp r).

(** What these columns hold once the result [a] has been written to them. *)
Definition written (a : AnalysisResult)
  : option Json.json * option Json.json * option Json.json * option Z :=
  (Some (severity a), Some (possibleCause a), Some (recommendation a),
   Some (analysisTimestamp a)).

(** What the process does to the outside, in order. *)
Inductive Event : Type :=
| RowsInserted (ids : list nat)
| OracleCalled (data : TelemetryData)
| RowCreated (id : nat)
| RowUpdated (id : nat)
| RowsRead.

(** The world of one process: the clock, the number of oracle calls and of
    database operations made so far, the table and the trace. *)
Record World : Type := mkWorld {
  now : Z;
  oracleCalls : nat;
  dbOps : nat;
  nextId : nat;
  table : list Row;
  trace : list Event
}.

(** The keys named by the update events of a trace. *)
Definition updatedIds (events : list Event) : list nat :=
  flat_map (fun ev => match ev with RowUpdated id => [id] | _ => [] end) events.

(** Every row of [w] is still in [w'] with its key and readings, and with
    its analysis columns too unless its key is among [ids]. *)
Definition kept (ids : list nat) (w w' : World) : Prop :=
  forall r, In r (table w) ->
    exists r', In r' (table w') /\ readings r' = readings r /\
               (~ In (rowId r) ids -> analysisColumns r' = analysisColumns r).

(** From [w] to [w'] the process did [events]; it lost no row, and rewrote
    analysis columns only where an update event says so. *)
Definition effect (w w' : World) (events : list Event) : Prop :=
  trace w' = (trace w ++ events)%list /\ kept (updatedIds events) w w'.

(** The behaviour of the collaborators: the outcome of the n-th call of the
    oracle, and whether the n-th database operation rejects. *)
Record Env : Type := mkEnv {
  oracle : nat -> OracleOutcome;
  dbFault : nat -> option JsError
}.

Definition passTime (t : Z) (w : World) : World :=
  mkWorld t (oracleCalls w) (dbOps w) (nextId w) (table w) (trace w).

(** [model.generateContent(prompt)] followed by [result.response.text()] *)
Definition generateContent (env : Env) (data : TelemetryData) : M World string :=
  fun w =>
    let w' := mkWorld (now w) (S (oracleCalls w)) (dbOps w) (nextId w) (table w)
                      (trace w ++ [OracleCalled data])%list in
    match oracle env (oracleCalls w) with
    | Responds text => (Returned text, w')
    | Fails e => (Thrown e, w')
    end.

(** One database operation: it rejects when the environment says so and
    otherwise changes the table and the trace. *)
Definition dbOp {A : Type} (env : Env) (run : World -> A * nat * list Row * list Event)
  : M World A :=
  fun w =>
    match dbFault env (dbOps w) with
    | Some e =>
        (Thrown e, mkWorld (now w) (oracleCalls w) (S (dbOps w)) (nextId w)
                           (table w) (trace w))
    | None =>
        let '(a, next, rows, events) := run w in
        (Returned a, mkWorld (now w) (oracleCalls w) (S (dbOps w)) next rows
                             (trace w ++ events)%list)
    end.

(** [DeviceTelemetry.create(record)] *)
Definition create (env : Env) (record : nat -> Row) : M World Row :=
  dbOp env (fun w =>
    let row := record (nextId w) in
    (row, S (nextId w), (table w ++ [row])%list, [RowCreated (nextId w)])).

Definition setAnalysis (sev cause rec : Json.json) (ts : Z) (r : Row) : Row :=
  mkRow (rowId r) (rowDeviceId r) (rowTimestamp r) (rowTemperature r) (rowGas r)
        (rowCurrent r) (rowVoltage r) (Some sev) (Some cause) (Some rec)
        (rowIsCurrentExceeded r) (Some ts).

(** [row.update({ severity, possibleCause, recommendation, analysisTimestamp })] *)
Definition update (env : Env) (id : nat) (a : AnalysisResult) : M World unit :=
  dbOp env (fun w =>
    (tt, nextId w,
     map (fun r => if Nat.eqb (rowId r) id
                   then setAnalysis (severity a) (possibleCause a)
                                    (recommendation a) (analysisTimestamp a) r
                   else r) (table w),
     [RowUpdated id])).

(** [DeviceTelemetry.findAll({ order, limit: 50 })]; the rows are only
    printed. *)
Definition findAll (env : Env) : M World unit :=
  dbOp env (fun w => (tt, nextId w, table w, [RowsRead])).

(* ================================================================== *)
(** ** The cleaning of the JSON-oriented agent *)

(** The agent that answers in JSON strips fences from the final message of
    the oracle with two other patterns before it parses it. *)
Module JsonAgent.
Import JsString.

(** [s.replace(/<marker>\n?/g, '')]: as [stripAll], but a match takes at
    most one line feed after the marker; [nl] says that a match has just
    ended. *)
Fixpoint stripAllNl (marker : string) (k : nat) (nl : bool) (s : string) : string :=
  match s with
  | EmptyString => EmptyString
  | String c s' =>
      match k with
      | S k' => stripAllNl marker k' true s'
      | O =>
          if nl && Ascii.eqb c "010"%char then stripAllNl marker 0 false s'
          else if prefix marker s
               then stripAllNl marker (String.length marker - 1) true s'
               else String c (stripAllNl marker 0 false s')
      end
  end.

(** [s.replace(/```\n?$/g, '')]: the first position from which the rest of
    the string is a fence marker, with or without a final line feed, is
    where the string is cut. *)
Fixpoint dropFinalFence (s : string) : string :=
  match s with
  | EmptyString => EmptyString
  | String c s' =>
      if String.eqb s fence || String.eqb s (fence ++ String "010"%char EmptyString)
      then EmptyString
      else String c (dropFinalFence s')
  end.

(** [content.replace(/```json\n?/g, '').replace(/```\n?$/g, '').trim()] *)
Definition cleanContent (content : string) : string :=
  trim (dropFinalFence (stripAllNl fenceJson 0 false content)).

End JsonAgent.

(* ================================================================== *)
(** ** [analyzeHighCurrent] *)

Module AgentAI.
Import JsString.

(** [process.env.LLM_MODEL || 'gemini-1.5-flash'] with the variable unset. *)
Definition LLM_Model : string := "gemini-1.5-flash".

(** The two variables of the circuit breaker. *)
Record Breaker : Type := mkBreaker {
  isApiBlocked : bool;
  blockUntil : Z
}.

(** The state a call runs in: its breaker variables and the world. *)
Definition Frame : Type := (Breaker * World)%type.

Definition inWorld {A : Type} (c : M World A) : M Frame A :=
  fun f =>
    let (r, w') := c (snd f) in (r, (fst f, w')).

(** [Date.now()] *)
Definition dateNow : M Frame Z := fun f => (Returned (now (snd f)), f).

Definition setIsApiBlocked (b : bool) : M Frame unit :=
  modify (fun f => (mkBreaker b (blockUntil (fst f)), snd f)).

Definition setBlockUntil (t : Z) : M Frame unit :=
  modify (fun f => (mkBreaker (isApiBlocked (fst f)) t, snd f)).

(** [data.current > data.CURRENT_THRESHOLD] *)
Definition currentExceeded (data : TelemetryData) : bool :=
  gt (current data) (CURRENT_THRESHOLD data).

(** The result returned while the breaker is open. *)
Definition blockedResult (data : TelemetryData) (t : Z) : AnalysisResult :=
  mkAnalysisResult
    (Json.str "UNKNOWN")
    (Json.str ("API blocked due to rate limits of using model " ++ LLM_Model))
    (Json.str "Wait until API is available")
    (currentExceeded data)
    t.

(** [responseText.replace(/```json\s*/g, '').replace(/```\s*/g, '').trim()]
    applied to [text.trim()] *)
Definition cleanResponse (text : string) : string :=
  let responseText := trim text in
  trim (replaceFence (replaceJsonFence responseText)).

Definition syntaxError : JsError :=
  mkJsError true "Unexpected token in JSON" None.

Definition JSON_parse {S : Type} (text : string) : M S Json.json :=
  match Json.parse text with
  | Some v => ret v
  | None => throw syntaxError
  end.

Definition prop {S : Type} (v : Json.json) (key : string) : M S (option Json.json) :=
  fun s => (Json.getProp v key, s).

Definition typeError : JsError :=
  mkJsError true "Cannot convert object to primitive value" None.

(** The evaluation of a template literal that holds [v]. *)
Definition interpolate {S : Type} (v : Json.json) : M S unit :=
  if Json.toStringThrows v then throw typeError else ret tt.

(** The body of the [try] block. *)
Definition analyse (env : Env) (data : TelemetryData) : M Frame AnalysisResult :=
  let isCurrentExceeded := currentExceeded data in
  text <- inWorld (generateContent env data) ;;
  let cleanedResponse := cleanResponse text in
  parsedResult <- JSON_parse cleanedResponse ;;
  sev <- prop parsedResult "severity" ;;
  cause <- prop parsedResult "possibleCause" ;;
  rec <- prop parsedResult "recommendation" ;;
  t <- dateNow ;;
  let finalResult :=
    mkAnalysisResult
      (Json.orElse sev (Json.str "UNKNOWN"))
      (Json.orElse cause (Json.str "Analysis incomplete"))
      (Json.orElse rec (Json.str "Manual inspection required"))
      isCurrentExceeded
      t in
  let recordToSave (id : nat) :=
    mkRow id (deviceId data) (timestamp data) (temperature data) (gas data)
          (current data) (voltage data)
          (Some (severity finalResult)) (Some (possibleCause finalResult))
          (Some (recommendation finalResult)) (Some isCurrentExceeded)
          (Some (analysisTimestamp finalResult)) in
  inWorld (create env recordToSave) ;;;
  setIsApiBlocked false ;;;
  interpolate (severity finalResult) ;;;
  ret finalResult.

(** The severity of the threshold-based fallback. *)
Definition fallbackSeverity (data : TelemetryData) : string :=
  if currentExceeded data then
    let exceedanceRatio :=
      div (sub (current data) (CURRENT_THRESHOLD data)) (CURRENT_THRESHOLD data) in
    if gt exceedanceRatio (Finite (1 # 2)) then "CRITICAL" else "WARNING"
  else "NORMAL".

(** The result the [catch] block returns. *)
Definition fallbackResult (data : TelemetryData) (t : Z) : AnalysisResult :=
  let isCurrentExceeded := currentExceeded data in
  mkAnalysisResult
    (Json.str (fallbackSeverity data))
    (Json.str "AI analysis failed - using threshold-based fallback")
    (Json.str (if isCurrentExceeded
               then "Current exceeds threshold. Check equipment immediately."
               else "All parameters appear normal."))
    isCurrentExceeded
    t.

(** [error instanceof Error] and [error.response.status === 429] *)
Definition isRateLimit (error : JsError) : bool :=
  isErrorInstance error
  && match responseStatus error with
     | Some status => (status =? 429)%Z
     | None => false
     end.

(** The body of the [catch] block. *)
Definition fallback (data : TelemetryData) (error : JsError)
  : M Frame AnalysisResult :=
  (if isRateLimit error
   then t <- dateNow ;;
        setIsApiBlocked true ;;;
        setBlockUntil (t + 5 * 60 * 1000)%Z
   else ret tt) ;;;
  t <- dateNow ;;
  ret (fallbackResult data t).

(** The function from the breaker check on, for given values of the two
    breaker variables. *)
Definition analyzeHighCurrentFrom (env : Env) (data : TelemetryData)
  : M Frame AnalysisResult :=
  fun f =>
    if isApiBlocked (fst f) && (now (snd f) <? blockUntil (fst f))%Z
    then (Returned (blockedResult data (now (snd f))), f)
    else tryCatch (analyse env data) (fallback data) f.

(** [analyzeHighCurrent]: the two breaker variables are declared by the
    function itself, [let isApiBlocked = false; let blockUntil = 0], so every
    call starts from these values and its assignments to them end with it. *)
Definition analyzeHighCurrent (env : Env) (data : TelemetryData)
  : M World AnalysisResult :=
  fun w =>
    let (r, f) := analyzeHighCurrentFrom env data (mkBreaker false 0, w) in
    (r, snd f).

(** The values of the breaker variables when the call ends. *)
Definition breakerAtExit (env : Env) (data : TelemetryData) (w : World) : Breaker :=
  fst (snd (analyzeHighCurrentFrom env data (mkBreaker false 0, w))).

End AgentAI.

(* ================================================================== *)
(** ** The telemetry route *)

Module App.

Definition CURRENT_THRESHOLD : number := Finite 50.

(** One element of the request body. *)
Record TelemetryRecord : Type := mkTelemetryRecord {
  recDeviceId : string;
  recTimestamp : string;
  recTemperature : number;
  recGas : number;
  recCurrent : number;
  recVoltage : number
}.

Inductive Response : Type :=
| Status200 (message : string)
| Status500 (error : JsError).

Definition rawRow (id : nat) (d : TelemetryRecord) : Row :=
  mkRow id (recDeviceId d) (recTimestamp d) (recTemperature d) (recGas d)
        (recCurrent d) (recVoltage d) None None None None None.

Fixpoint numberRows (next : nat) (batch : list TelemetryRecord) : list Row :=
  match batch with
  | [] => []
  | d :: ds => rawRow next d :: numberRows (S next) ds
  end.

(** [DeviceTelemetry.bulkCreate(dataBatch, { returning: true })]: one
    insertion of all the rows, which come back with their keys. *)
Definition bulkCreate (env : Env) (dataBatch : list TelemetryRecord)
  : M World (list Row) :=
  dbOp env (fun w =>
    let rows := numberRows (nextId w) dataBatch in
    (rows, (nextId w + List.length dataBatch)%nat, (table w ++ rows)%list,
     [RowsInserted (map rowId rows)])).

Definition telemetryOf (row : Row) : TelemetryData :=
  mkTelemetryData (rowDeviceId row) (rowTimestamp row) (rowTemperature row)
                  (rowVoltage row) (rowCurrent row) (rowGas row)
                  CURRENT_THRESHOLD.

(** The body of the loop over [insertedRows]. *)
Definition analyseRow (env : Env) (data : Row) : M World unit :=
  if gt (rowCurrent data) CURRENT_THRESHOLD then
    aiAnalysis <- AgentAI.analyzeHighCurrent env (telemetryOf data) ;;
    update env (rowId data) aiAnalysis
  else ret tt.

(** What the loop body may do for [row]. *)
Definition allowed (row : Row) (ev : Event) : Prop :=
  (ev = OracleCalled (telemetryOf row) /\ gt (rowCurrent row) CURRENT_THRESHOLD = true)
  \/ (exists id, ev = RowCreated id)
  \/ ev = RowUpdated (rowId row).


(** From [w] to [w'] the loop has dealt with [row], which it came to in the
    world [called]: if [row] is above the threshold then the oracle was
    called for it, and the stored rows with its key hold, in their analysis
    columns, the result that the call of [analyzeHighCurrent] made for it
    in [called] returned. *)
Definition attached (env : Env) (row : Row) (called w w' : World)
  (events : list Event) : Prop :=
  gt (rowCurrent row) CURRENT_THRESHOLD = true ->
  In (OracleCalled (telemetryOf row)) events /\
  exists a,
    fst (AgentAI.analyzeHighCurrent env (telemetryOf row) called) = Returned a /\
    forall r, In r (table w) -> rowId r = rowId row ->
      exists r', In r' (table w') /\ readings r' = readings r /\
                 analysisColumns r' = written a.

(** The handler that [startServer] registers for [POST /api/telemetry]. *)
Definition postTelemetry (env : Env) (dataBatch : list TelemetryRecord)
  (w : World) : Response * World :=
  match (insertedRows <- bulkCreate env dataBatch ;;
         forEach insertedRows (analyseRow env) ;;;
         findAll env) w with
  | (Returned _, w') => (Status200 "Data stored successfully.", w')
  | (Thrown e, w') => (Status500 e, w')
  end.

End App.

(* ================================================================== *)
(** ** What [analyzeHighCurrent] saves, and the rows a batch analyses *)

(** [recordToSave] for the input [data] and the result [r], under the key
    that the insertion gives it. *)
Definition savedRow (data : TelemetryData) (id : nat) (r : AnalysisResult) : Row :=
  mkRow id (deviceId data) (timestamp data) (temperature data) (gas data)
        (current data) (voltage data)
        (Some (severity r)) (Some (possibleCause r)) (Some (recommendation r))
        (Some (isCurrentExceeded r)) (Some (analysisTimestamp r)).

(** [finalResult] as the [try] block builds it from the parsed answer [v]
    at clock reading [t]. *)
Definition builtFrom (data : TelemetryData) (v : Json.json) (t : Z)
  (r : AnalysisResult) : Prop :=
  exists sev cause rec,
    Json.getProp v "severity" = Returned sev /\
    Json.getProp v "possibleCause" = Returned cause /\
    Json.getProp v "recommendation" = Returned rec /\
    r = mkAnalysisResult (Json.orElse sev (Json.str "UNKNOWN"))
                         (Json.orElse cause (Json.str "Analysis incomplete"))
                         (Json.orElse rec (Json.str "Manual inspection required"))
                         (AgentAI.currentExceeded data) t.

(** The rows for which the loop of the route calls [analyzeHighCurrent]. *)
Definition exceeding (rows : list Row) : list Row :=
  filter (fun r => gt (rowCurrent r) App.CURRENT_THRESHOLD) rows.

(* ================================================================== *)
(** ** The earlier [analyzeHighCurrent] and the earlier route *)

(** The version of [services/agentAI.ts] that parses the answer of the
    oracle as it comes, and the version of the route that only reports. *)
Module Legacy.

(** The object of the [catch] block. *)
Definition parseErrorResult : Json.json :=
  Json.JObject [(Json.unitsOf "severity", Json.str "UNKNOWN");
                (Json.unitsOf "possibleCause", Json.str "Parse error");
                (Json.unitsOf "recommendation", Json.str "Check AI output")].

(** [analyzeHighCurrent]: the call of the oracle stands before the [try],
    which holds [JSON.parse] alone. *)
Definition analyzeHighCurrent (env : Env) (data : TelemetryData)
  : M World Json.json :=
  text <- generateContent env data ;;
  tryCatch (AgentAI.JSON_parse text) (fun _ => ret parseErrorResult).

Definition CURRENT_THRESHOLD : number := Finite 2.

Definition telemetryOf (d : App.TelemetryRecord) : TelemetryData :=
  mkTelemetryData (App.recDeviceId d) (App.recTimestamp d) (App.recTemperature d)
                  (App.recVoltage d) (App.recCurrent d) (App.recGas d)
                  CURRENT_THRESHOLD.

(** The request body as the handler meets it.  The handler takes [req.body]
    as it comes, and [express.json()] hands over arrays and objects only:
    the body is an array, whose elements are [null] ([None]) or hold
    readings, or it is no array (an object, or nothing at all) and cannot
    be iterated.  An element without a [current] is a record whose current
    is [NaN]. *)
Inductive Body : Type :=
| NoArray
| Batch (elements : list (option App.TelemetryRecord)).

(** The [TypeError] of [for (const data of dataBatch)], or of
    [dataBatch.length] before it, on a body that is no array. *)
Definition notIterable : JsError :=
  mkJsError true "dataBatch is not iterable" None.

(** The [TypeError] of [data.current] on a [null] element. *)
Definition nullElement : JsError :=
  mkJsError true "Cannot read properties of null" None.

(** The body of the loop over [dataBatch]. *)
Definition analyseRecord (env : Env) (data : option App.TelemetryRecord)
  : M World unit :=
  match data with
  | None => throw nullElement
  | Some d =>
      if gt (App.recCurrent d) CURRENT_THRESHOLD then
        analyzeHighCurrent env (telemetryOf d) ;;; ret tt
      else ret tt
  end.

(** The handler of [POST /api/telemetry]: everything stands in its [try]. *)
Definition postTelemetry (env : Env) (dataBatch : Body)
  (w : World) : App.Response * World :=
  match (match dataBatch with
         | NoArray => throw notIterable
         | Batch elements => forEach elements (analyseRecord env)
         end) w with
  | (Returned _, w') =>
      (App.Status200 "Data received and processed successfully.", w')
  | (Thrown e, w') => (App.Status500 e, w')
  end.

End Legacy.

(* ================================================================== *)
(** ** The two regular expressions of the chat agents *)

Module Patterns.
Import JsString.

(** Every code unit of [s] satisfies [p]. *)
Fixpoint allChars (p : ascii -> bool) (s : string) : bool :=
  match s with
  | EmptyString => true
  | String c r => p c && allChars p r
  end.

(** The class [\w]; the [i] flag does not widen it. *)
Definition isWordChar (c : ascii) : bool :=
  let n := nat_of_ascii c in
  ((48 <=? n) && (n <=? 57) || (65 <=? n) && (n <=? 90)
   || (97 <=? n) && (n <=? 122) || (n =? 95))%nat.

(** A literal of lower-case letters at the head of [s] under the [i] flag:
    what follows it.  A code unit matches the letter when it is that letter
    in either case. *)
Fixpoint matchCI (lit s : string) : option string :=
  match lit with
  | EmptyString => Some s
  | String a lit' =>
      match s with
      | EmptyString => None
      | String b s' => if Ascii.eqb (lowerChar b) a then matchCI lit' s' else None
      end
  end.

(** [\s+] at the head of [s]: what follows the whole run.  Giving back part
    of the run would leave whitespace where both patterns go on with
    something else. *)
Definition spaces (s : string) : option string :=
  match s with
  | EmptyString => None
  | String c _ => if isWhiteSpace c then Some (trimStart s) else None
  end.

(** The longest run of word characters at the head of [s], and the rest. *)
Fixpoint spanWord (s : string) : string * string :=
  match s with
  | EmptyString => (EmptyString, EmptyString)
  | String c r =>
      if isWordChar c then let (w, rest) := spanWord r in (String c w, rest)
      else (EmptyString, s)
  end.

(** [(\w+)] at the head of [s]: the captured word. *)
Definition word (s : string) : option string :=
  match fst (spanWord s) with
  | EmptyString => None
  | w => Some w
  end.

(** A quotation mark or an apostrophe. *)
Definition isQuote (c : ascii) : bool :=
  Ascii.eqb c "'"%char || Ascii.eqb c Json.quote.

(** The optional opening quote and the group [(\w+)]; the optional closing
    quote that follows always matches.  Without the quote the word would
    have to start at the quote itself. *)
Definition quotedWord (s : string) : option string :=
  match s with
  | String c r => if isQuote c then word r else word s
  | EmptyString => None
  end.

(** The first alternative of [table|schema|structure] that matches. *)
Definition keyword (s : string) : option string :=
  match matchCI "table" s with
  | Some r => Some r
  | None =>
      match matchCI "schema" s with
      | Some r => Some r
      | None => matchCI "structure" s
      end
  end.

(** The pattern [(?:table|schema|structure)\s+(?:of\s+)?['"]?(\w+)['"]?]
    under the [i] flag, tried at the head of [s]: the first group.  The
    optional group is tried first, and skipped when the rest fails after
    it. *)
Definition tableNameAt (s : string) : option string :=
  match keyword s with
  | None => None
  | Some r =>
      match spaces r with
      | None => None
      | Some r1 =>
          let withOf :=
            match matchCI "of" r1 with
            | Some r2 =>
                match spaces r2 with
                | Some r3 => quotedWord r3
                | None => None
                end
            | None => None
            end in
          match withOf with
          | Some w => Some w
          | None => quotedWord r1
          end
      end
  end.

(** [input.match(pattern)], then group 1 of the match: the pattern is tried
    at every position from the left. *)
Fixpoint extractTableName (s : string) : option string :=
  match tableNameAt s with
  | Some w => Some w
  | None =>
      match s with
      | EmptyString => None
      | String _ r => extractTableName r
      end
  end.

(** The line terminators below 256, which the dot does not match. *)
Definition isLineTerminator (c : ascii) : bool :=
  Ascii.eqb c "010"%char || Ascii.eqb c "013"%char.

(** What [.*?] passes over on its way to the semicolon. *)
Definition insideStatement (c : ascii) : bool :=
  negb (Ascii.eqb c ";"%char) && negb (isLineTerminator c).

(** [.*?;] at the head of [s]: the shortest text up to a semicolon, none
    when a line ends first. *)
Fixpoint lazyToSemicolon (s : string) : option string :=
  match s with
  | EmptyString => None
  | String c r =>
      if Ascii.eqb c ";"%char then Some (String c EmptyString)
      else if isLineTerminator c then None
      else option_map (String c) (lazyToSemicolon r)
  end.

(** [SELECT.*?;] under the [i] flag, tried at the head of [s]: the text it
    matches, as written. *)
Definition selectAt (s : string) : option string :=
  match matchCI "select" s with
  | Some r =>
      match lazyToSemicolon r with
      | Some m => Some (substring 0 6 s ++ m)
      | None => None
      end
  | None => None
  end.

(** [followUp.match(/SELECT.*?;/i)], then element 0 of the match. *)
Fixpoint extractSelect (s : string) : option string :=
  match selectAt s with
  | Some m => Some m
  | None =>
      match s with
      | EmptyString => None
      | String _ r => extractSelect r
      end
  end.

End Patterns.

(* ================================================================== *)
(** ** The chat side: its collaborators and the state of a request *)

(** Texts with line feeds and quotation marks. *)
Module Template.

Definition nl : string := String "010"%char EmptyString.

Definition quoted (s : string) : string :=
  String Json.quote (s ++ String Json.quote EmptyString).

(** [xs.join(sep)] *)
Fixpoint join (sep : string) (xs : list string) : string :=
  match xs with
  | [] => EmptyString
  | [x] => x
  | x :: rest => x ++ sep ++ join sep rest
  end.

End Template.

(** The calls that the tools make through the models rather than through
    [sequelize.query]. *)
Inductive OrmCall : Type :=
| TelemetryCount
| TelemetryLatest
| DevicesActive
| TelemetryHot
| TelemetryExceeded
| TelemetryFindOne
| DeviceFindOne
| TelemetrySamples
| DeviceSamples.

(** One column as [describeTable] reports it. *)
Record Column : Type := mkColumn {
  column : string;
  columnType : string;
  allowNull : bool
}.

(** The content of the last message of one event of the agent stream. *)
Inductive Part : Type :=
| PartString (s : string)
| PartObject (text : option string) (content : option string)
| PartOther.

Inductive Content : Type :=
| ContentString (s : string)
| ContentParts (parts : list Part)
| ContentOther.

(** One run of the SQL agent behind [langchainTool], step by step: whether
    [datasource.initialize()] rejects, whether anything between it and the
    stream does, whether [agentExecutor.stream] does, the events the stream
    yields, whether it breaks after them, and whether
    [datasource.destroy()] rejects; [errorString] is [String(error)]. *)
Record AgentRun : Type := mkAgentRun {
  initialize : option JsError;
  prepare : option JsError;
  stream : option JsError;
  events : list Content;
  interrupted : option JsError;
  destroy : option JsError;
  errorString : JsError -> string
}.

(** The collaborators of a chat request: the outcome of the n-th call of
    [model.invoke], of a statement given to [sequelize.query], of a model
    call (rendered as the template that uses it renders it), of
    [showAllTables] and of [describeTable], and the run of the SQL agent on
    a question. *)
Record ChatEnv : Type := mkChatEnv {
  model_invoke : nat -> OracleOutcome;
  query : string -> Outcome string;
  orm : OrmCall -> Outcome string;
  showAllTables : Outcome (list string);
  describeTable : string -> Outcome (list Column);
  sqlAgent : string -> AgentRun
}.

(** What a request has done so far: the statements it gave to
    [sequelize.query], its model calls, the tables it asked
    [describeTable] about, the number of times it called the oracle, and
    the number of data sources it has initialised and not destroyed. *)
Record Session : Type := mkSession {
  store : Store;
  ormCalls : list OrmCall;
  described : list string;
  invocations : nat;
  openSources : nat
}.

Definition sequelizeQuery (env : ChatEnv) (sql : string) : M Session string :=
  fun s =>
    let (o, st) := sequelize_query (query env) sql (store s) in
    (o, mkSession st (ormCalls s) (described s) (invocations s) (openSources s)).

Definition ormCall (env : ChatEnv) (op : OrmCall) : M Session string :=
  fun s =>
    (orm env op,
     mkSession (store s) (ormCalls s ++ [op])%list (described s) (invocations s)
               (openSources s)).

(** [model.invoke(prompt)] followed by [content.toString()]; the prompt is
    a fixed template around texts the request already has, and the oracle
    is opaque. *)
Definition modelInvoke (env : ChatEnv) : M Session string :=
  fun s =>
    (match model_invoke env (invocations s) with
     | Responds content => Returned content
     | Fails e => Thrown e
     end,
     mkSession (store s) (ormCalls s) (described s) (S (invocations s))
               (openSources s)).

(** A tool as the agents use it: its name and [_call]. *)
Record Tool : Type := mkTool {
  name : string;
  _call : string -> M Session string
}.

(** [tools.find(t => t.name === wanted)] *)
Definition findTool (wanted : string) (tools : list Tool) : option Tool :=
  find (fun t => String.eqb (name t) wanted) tools.

(* ================================================================== *)
(** ** The toolkit with the quick-query tool *)

Module AdvancedToolkit.
Import JsString Template.

Module SmartWeldCustomQueryTool.

(** The degree sign as the source spells it: the code units 0xC2 and
    0xB0. *)
Definition degrees : string :=
  String "194"%char (String "176"%char EmptyString).

Definition _call (env : ChatEnv) (input : string) : M Session string :=
  tryCatch
    (let query := trim (toLowerCase input) in
     if String.eqb query "count_records" then
       count <- ormCall env TelemetryCount ;;
       ret ("Total telemetry records in the database: " ++ count)
     else if String.eqb query "latest_data" then
       latest <- ormCall env TelemetryLatest ;;
       ret ("Latest 5 telemetry records:" ++ nl ++ latest)
     else if String.eqb query "active_devices" then
       devices <- ormCall env DevicesActive ;;
       ret ("Active devices in the system:" ++ nl ++ devices)
     else if String.eqb query "high_temperature" then
       highTemp <- ormCall env TelemetryHot ;;
       ret ("High temperature records (>70" ++ degrees ++ "C):"
            ++ nl ++ highTemp)
     else if String.eqb query "exceeded_current" then
       exceeded <- ormCall env TelemetryExceeded ;;
       ret ("Current exceeded records:" ++ nl ++ exceeded)
     else
       ret "Available quick queries: count_records, latest_data, active_devices, high_temperature, exceeded_current")
    (fun error => ret ("Error executing quick query: " ++ errorText error)).

End SmartWeldCustomQueryTool.

Module SmartWeldSQLTool.

(** [GuardedToolkit._call] on the store of the request. *)
Definition _call (env : ChatEnv) (input : string) : M Session string :=
  fun s =>
    let (answer, st) := GuardedToolkit._call (query env) input (store s) in
    (Returned answer,
     mkSession st (ormCalls s) (described s) (invocations s) (openSources s)).

End SmartWeldSQLTool.

Module SmartWeldDatabaseInfoTool.

(** [JSON.stringify(schemaInfo, null, 2)] *)
Definition schemaInfo : string :=
  join nl
    ["{";
     "  " ++ quoted "tables" ++ ": {";
     "    " ++ quoted "DeviceTelemetries" ++ ": {";
     "      " ++ quoted "description" ++ ": "
       ++ quoted "Contains real-time welding telemetry data" ++ ",";
     "      " ++ quoted "columns" ++ ": [";
     "        " ++ quoted "id" ++ ",";
     "        " ++ quoted "deviceId" ++ ",";
     "        " ++ quoted "gas" ++ ",";
     "        " ++ quoted "temperature" ++ ",";
     "        " ++ quoted "voltage" ++ ",";
     "        " ++ quoted "current" ++ ",";
     "        " ++ quoted "timestamp" ++ ",";
     "        " ++ quoted "isCurrentExceeded";
     "      ]";
     "    },";
     "    " ++ quoted "Device" ++ ": {";
     "      " ++ quoted "description" ++ ": "
       ++ quoted "Contains device information and status" ++ ",";
     "      " ++ quoted "columns" ++ ": [";
     "        " ++ quoted "id" ++ ",";
     "        " ++ quoted "name" ++ ",";
     "        " ++ quoted "status" ++ ",";
     "        " ++ quoted "createdAt" ++ ",";
     "        " ++ quoted "updatedAt";
     "      ]";
     "    }";
     "  }";
     "}"].

Definition listTablesStatement : string :=
  "SELECT name FROM sqlite_master WHERE type='table'".

Definition _call (env : ChatEnv) (input : string) : M Session string :=
  tryCatch
    (let query := trim (toLowerCase input) in
     if String.eqb query "schema" then
       ret ("Database Schema:" ++ nl ++ schemaInfo)
     else if String.eqb query "tables" then
       tableCount <- sequelizeQuery env listTablesStatement ;;
       ret ("Available tables:" ++ nl ++ tableCount)
     else if String.eqb query "sample_data" then
       sampleTelemetry <- ormCall env TelemetryFindOne ;;
       sampleDevice <- ormCall env DeviceFindOne ;;
       ret ("Sample data:" ++ nl ++ "Telemetry: " ++ sampleTelemetry
            ++ nl ++ "Device: " ++ sampleDevice)
     else
       ret "Available options: 'schema', 'tables', 'sample_data'")
    (fun error => ret ("Error getting database info: " ++ errorText error)).

End SmartWeldDatabaseInfoTool.

(** [getSQLToolkit(llm).getTools()] *)
Definition getTools (env : ChatEnv) : list Tool :=
  [mkTool "smartweld_quick_query" (SmartWeldCustomQueryTool._call env);
   mkTool "smartweld_sql_query" (SmartWeldSQLTool._call env);
   mkTool "smartweld_database_info" (SmartWeldDatabaseInfoTool._call env)].

End AdvancedToolkit.

(* ================================================================== *)
(** ** The toolkit of [services/sql-toolkit.ts] *)

Module DataSourceTools.
Import JsString Template.

Module SmartWeldSQLTool.

(** [DataSourceToolkit._call] on the store of the request. *)
Definition _call (env : ChatEnv) (input : string) : M Session string :=
  fun s =>
    let (answer, st) := DataSourceToolkit._call (query env) input (store s) in
    (Returned answer,
     mkSession st (ormCalls s) (described s) (invocations s) (openSources s)).

End SmartWeldSQLTool.

Module SmartWeldSchemaToolDataSource.

Definition telemetrySchema : string :=
  "Schema: id (INTEGER), deviceId (INTEGER), timestamp (DATE), temperature (FLOAT), gas (FLOAT), current (FLOAT), voltage (FLOAT), severity (TEXT), possibleCause (TEXT), recommendation (TEXT), isCurrentExceeded (BOOLEAN), analysisTimestamp (DATE), isAnalysed (BOOLEAN)".

Definition deviceSchema : string :=
  "Schema: id (INTEGER), deviceType (TEXT), deviceId (TEXT), deviceName (TEXT), status (TEXT)".

Definition availableTables : string :=
  "Available tables: DeviceTelemetries, Device".

(** There is no [try] in this method: a rejection of [findAll] leaves it. *)
Definition _call (env : ChatEnv) (input : string) : M Session string :=
  let tableName := toLowerCase (trim input) in
  if includes tableName "devicetelemetries" || includes tableName "telemetry"
  then
    samples <- ormCall env TelemetrySamples ;;
    ret ("Table: DeviceTelemetries" ++ nl ++ telemetrySchema ++ nl
         ++ "Sample rows: " ++ samples)
  else if includes tableName "device" then
    samples <- ormCall env DeviceSamples ;;
    ret ("Table: Device" ++ nl ++ deviceSchema ++ nl
         ++ "Sample rows: " ++ samples)
  else ret availableTables.

End SmartWeldSchemaToolDataSource.

Module SmartWeldListTablesTool.

Definition _call (input : string) : M Session string :=
  ret "Available tables: DeviceTelemetries, Device".

End SmartWeldListTablesTool.

(** [getSQLToolkit(llm).getTools()] *)
Definition getTools (env : ChatEnv) : list Tool :=
  [mkTool "smartweld_sql_query" (SmartWeldSQLTool._call env);
   mkTool "smartweld_schema_info" (SmartWeldSchemaToolDataSource._call env);
   mkTool "smartweld_list_tables" SmartWeldListTablesTool._call].

End DataSourceTools.

(* ================================================================== *)
(** ** The table tools *)

Module TableTools.
Import JsString Template.

(** [error.message] of a caught value: a value that is no [Error] has
    none. *)
Definition messageOf (e : JsError) : string :=
  if isErrorInstance e then message e else "undefined".

(** [listDatabaseTables], and [ListTablesTool._call] with the same body. *)
Definition listDatabaseTables (env : ChatEnv) : string :=
  match showAllTables env with
  | Returned tables =>
      match tables with
      | [] => "No tables found in the database."
      | _ => "The database contains the following tables: " ++ join ", " tables
      end
  | Thrown error => "Error listing tables: " ++ messageOf error
  end.

Definition renderBool (b : bool) : string := if b then "true" else "false".

(** One line of [formattedSchema]. *)
Definition formatColumn (c : Column) : string :=
  "- " ++ column c ++ " (type: " ++ columnType c ++ ", nullable: "
  ++ renderBool (allowNull c) ++ ")".

Definition describe (env : ChatEnv) (tableName : string)
  : M Session (list Column) :=
  fun s =>
    (describeTable env tableName,
     mkSession (store s) (ormCalls s) (described s ++ [tableName])%list
               (invocations s) (openSources s)).

(** [getTableSchema(sequelize, tableName)] *)
Definition getTableSchema (env : ChatEnv) (tableName : string) : M Session string :=
  tryCatch
    (schemaInfo <- describe env tableName ;;
     let formattedSchema := join nl (map formatColumn schemaInfo) in
     ret ("Schema for table '" ++ tableName ++ "':" ++ nl ++ formattedSchema))
    (fun error =>
       ret ("Error getting schema for table '" ++ tableName ++ "': "
            ++ messageOf error ++ ". Please ensure the table exists.")).

Definition specifyTable : string :=
  "Please specify a table name. Example: 'Show me the schema of users table'".

(** [GetTableSchemaTool._call] *)
Definition GetTableSchemaTool_call (env : ChatEnv) (input : string)
  : M Session string :=
  tryCatch
    (match Patterns.extractTableName input with
     | None => ret specifyTable
     | Some tableName =>
         schemaInfo <- describe env tableName ;;
         let formattedSchema := join nl (map formatColumn schemaInfo) in
         ret ("Schema for table '" ++ tableName ++ "':" ++ nl ++ formattedSchema)
     end)
    (fun error =>
       ret ("Error getting schema: " ++ messageOf error
            ++ ". Please ensure the table exists.")).

End TableTools.

(* ================================================================== *)
(** ** The hybrid agent *)

(** [handleSimpleQuery], [handleComplexQuery] and
    [getConversationalResponse] of the agent whose classifier puts the
    schema rule first.  The agent takes its tools from [getSQLToolkit]; the
    repository has two, so the tools are an argument here. *)
Module HybridAgent.
Import JsString Template.

Definition classifyQuery (env : ChatEnv) (input : string)
  : M Session HybridCore.Classification :=
  fun s =>
    let (outcome, calls) :=
      HybridCore.classifyWith SchemaFirst.matchedRule
        (fun _ => model_invoke env (invocations s)) input in
    (outcome,
     mkSession (store s) (ormCalls s) (described s) (invocations s + calls)
               (openSources s)).

Definition handleSimpleQuery (tools : list Tool) (input action : string)
  : M Session string :=
  match findTool "smartweld_quick_query" tools with
  | Some quickTool => _call quickTool action
  | None => ret "Error: Quick query tool not available"
  end.

Definition countStatement : string :=
  "SELECT COUNT(*) as total FROM DeviceTelemetries".

Definition latestStatement : string :=
  "SELECT * FROM DeviceTelemetries ORDER BY timestamp DESC LIMIT 5".

(** The answer of last resort. *)
Definition rephrase (input : string) : string :=
  join nl
    ["I understand you're asking: " ++ quoted input
       ++ ". This is a complex query that requires multi-step reasoning. ";
     "";
     "Available tools I can use:";
     "- Database schema information";
     "- Custom SQL queries";
     "- Quick data queries";
     "";
     "Please try rephrasing your question to be more specific, or ask about:";
     "- Database structure (tables, columns)";
     "- Specific data counts or summaries";
     "- Recent telemetry data";
     "- Device information"].

(** From the quick-query fallback to the end of the function. *)
Definition countOrRephrase (tools : list Tool) (input reasoning : string)
  : M Session string :=
  if includes (toLowerCase reasoning) "count"
     || includes (toLowerCase reasoning) "how many"
  then
    match findTool "smartweld_quick_query" tools with
    | Some quickTool =>
        result <- _call quickTool "count_records" ;;
        ret ("Based on your question about counting records:" ++ nl ++ nl
             ++ result)
    | None => ret (rephrase input)
    end
  else ret (rephrase input).

(** From the call of the oracle for its reasoning to the end of the
    function. *)
Definition reason (env : ChatEnv) (tools : list Tool) (input : string)
  : M Session string :=
  reasoning <- modelInvoke env ;;
  let next := countOrRephrase tools input reasoning in
  if includes (toLowerCase reasoning) "schema"
     || includes (toLowerCase reasoning) "tables"
  then
    match findTool "smartweld_database_info" tools with
    | Some dbInfoTool =>
        schemaInfo <- _call dbInfoTool "schema" ;;
        followUp <- modelInvoke env ;;
        if includes (toLowerCase followUp) "sql"
           || includes (toLowerCase followUp) "query"
        then
          match findTool "smartweld_sql_query" tools with
          | Some sqlTool =>
              match Patterns.extractSelect followUp with
              | Some sqlQuery =>
                  result <- _call sqlTool sqlQuery ;;
                  ret ("Based on the database schema and your question, here's the result:"
                       ++ nl ++ nl ++ result)
              | None => next
              end
          | None => next
          end
        else next
    | None => next
    end
  else next.

(** From the check for SQL words to the end of the function. *)
Definition sqlOrReason (env : ChatEnv) (tools : list Tool) (input : string)
  : M Session string :=
  let lowerInput := toLowerCase input in
  let next := reason env tools input in
  if includes lowerInput "sql" || includes lowerInput "query"
     || includes lowerInput "select"
  then
    match findTool "smartweld_sql_query" tools with
    | Some sqlTool =>
        if includes lowerInput "count" then
          result <- _call sqlTool countStatement ;;
          ret ("Here's the count of telemetry records:" ++ nl ++ nl ++ result)
        else if includes lowerInput "latest" || includes lowerInput "recent" then
          result <- _call sqlTool latestStatement ;;
          ret ("Here are the latest telemetry records:" ++ nl ++ nl ++ result)
        else next
    | None => next
    end
  else next.

(** [handleComplexQuery]; its [catch] throws again what it caught. *)
Definition handleComplexQuery (env : ChatEnv) (tools : list Tool) (input : string)
  : M Session string :=
  let lowerInput := toLowerCase input in
  let next := sqlOrReason env tools input in
  if includes lowerInput "schema" || includes lowerInput "tables"
     || includes lowerInput "structure" || includes lowerInput "columns"
  then
    match findTool "smartweld_database_info" tools with
    | Some dbInfoTool =>
        if includes lowerInput "how many tables"
           || includes lowerInput "number of tables"
           || includes lowerInput "count of tables"
        then
          tablesInfo <- _call dbInfoTool "tables" ;;
          ret ("Here are the tables in the SmartWeld database:" ++ nl ++ nl
               ++ tablesInfo)
        else
          schemaInfo <- _call dbInfoTool "schema" ;;
          ret ("Here's the SmartWeld database schema:" ++ nl ++ nl ++ schemaInfo)
    | None => next
    end
  else next.

(** The text that the [catch] of [getConversationalResponse] returns. *)
Definition rescue (error : JsError) : string :=
  "I encountered an error while processing your request: " ++ errorText error
  ++ ". Please try rephrasing your question.".

(** [getConversationalResponse]: the [content] of what it resolves with. *)
Definition getConversationalResponse (env : ChatEnv) (tools : list Tool)
  (input : string) : M Session string :=
  tryCatch
    (classification <- classifyQuery env input ;;
     match classification with
     | HybridCore.simple action =>
         if String.eqb action EmptyString
         then handleComplexQuery env tools input
         else handleSimpleQuery tools input action
     | HybridCore.complex => handleComplexQuery env tools input
     end)
    (fun error => ret (rescue error)).

End HybridAgent.

(* ================================================================== *)
(** ** [langchainTool] *)

Module Langchain.
Import JsString Template.

Definition getTextFromPart (part : Part) : string :=
  match part with
  | PartString s => s
  | PartObject (Some text) _ => text
  | PartObject None (Some content) => content
  | _ => EmptyString
  end.

(** One turn of the loop over the events: the new value of [finalText]. *)
Definition nextFinalText (finalText : string) (content : Content) : string :=
  match content with
  | ContentString c => c
  | ContentParts parts =>
      let joined := join "" (map getTextFromPart parts) in
      match trim joined with
      | EmptyString => finalText
      | _ => joined
      end
  | ContentOther => finalText
  end.

(** A step that rejects when [fault] says so. *)
Definition attempt (fault : option JsError) : M Session unit :=
  match fault with
  | Some e => throw e
  | None => ret tt
  end.

Definition setOpenSources (f : nat -> nat) : M Session unit :=
  modify (fun s => mkSession (store s) (ormCalls s) (described s)
                             (invocations s) (f (openSources s))).

(** The [try] block. *)
Definition converse (run : AgentRun) : M Session string :=
  attempt (initialize run) ;;;
  setOpenSources S ;;;
  attempt (prepare run) ;;;
  attempt (stream run) ;;;
  let finalText := fold_left nextFinalText (events run) EmptyString in
  attempt (interrupted run) ;;;
  ret finalText.

(** [langchainTool(clientQuestion)]: the [content] of what it resolves
    with.  The data source [isInitialized] from the moment [initialize]
    has resolved, and the [finally] block destroys it then. *)
Definition langchainTool (env : ChatEnv) (clientQuestion : string)
  : M Session string :=
  let run := sqlAgent env clientQuestion in
  fun s =>
    let (result, s1) :=
      tryCatch (converse run)
               (fun error => ret ("Error: " ++ errorString run error)) s in
    match initialize run with
    | Some _ => (result, s1)
    | None =>
        match (attempt (destroy run) ;;; setOpenSources pred) s1 with
        | (Returned _, s2) => (result, s2)
        | (Thrown e, s2) => (Thrown e, s2)
        end
    end.

(** [func] of the tool that [createSQLAnalysisTool] of
    [agents/conversational-agent.ts] builds. *)
Definition sqlAnalysisTool (env : ChatEnv) (message : string) : M Session string :=
  tryCatch
    (content <- langchainTool env message ;;
     ret (match content with
          | EmptyString => "No data found."
          | _ => content
          end))
    (fun error => ret ("SQL analysis error: " ++ errorText error)).

End Langchain.

(* ================================================================== *)
(** ** The enhanced agent *)

(** The handlers and [getConversationalResponse] of the agent with the
    keyword classifier; its tools are an argument as for the hybrid
    agent. *)
Module EnhancedAgent.
Import JsString Template.

Definition handleToolSpecificQuery (env : ChatEnv) (input tool : string)
  : M Session string :=
  tryCatch
    (if String.eqb tool "listTables" then
       ret (TableTools.listDatabaseTables env)
     else if String.eqb tool "getSchema" then
       match Patterns.extractTableName input with
       | Some tableName => TableTools.getTableSchema env tableName
       | None => ret TableTools.specifyTable
       end
     else if String.eqb tool "langchain" then
       Langchain.langchainTool env input
     else ret "Unknown tool requested")
    (fun error => ret ("Error executing " ++ tool ++ ": " ++ errorText error)).

Definition handleSimpleQuery (tools : list Tool) (input action : string)
  : M Session string :=
  tryCatch
    (match findTool "smartweld_quick_query" tools with
     | Some quickTool => _call quickTool action
     | None => ret "Error: Quick query tool not available"
     end)
    (fun error => ret ("Error: " ++ errorText error)).

Definition handleComplexQuery (env : ChatEnv) (input : string) : M Session string :=
  tryCatch
    (Langchain.langchainTool env input)
    (fun error => ret ("Error processing complex query: " ++ errorText error)).

(** [getConversationalResponse]: the [content] of what it resolves with. *)
Definition getConversationalResponse (env : ChatEnv) (tools : list Tool)
  (input : string) : M Session string :=
  tryCatch
    (match Enhanced.classifyQuery input with
     | Enhanced.tool_specific tool =>
         if String.eqb tool EmptyString then handleComplexQuery env input
         else handleToolSpecificQuery env input tool
     | Enhanced.simple action =>
         if String.eqb action EmptyString then handleComplexQuery env input
         else handleSimpleQuery tools input action
     | Enhanced.complex => handleComplexQuery env input
     end)
    (fun error => ret (HybridAgent.rescue error)).

End EnhancedAgent.

(* ================================================================== *)
(** ** The hybrid agent with the telemetry and device branches *)

(** The patterns that read a device key from the question. *)
Module DevicePatterns.
Import JsString Patterns.

(** The class [[A-Z0-9]] under the [i] flag. *)
Definition isAlnum (c : ascii) : bool :=
  let n := nat_of_ascii c in
  ((48 <=? n) && (n <=? 57) || (65 <=? n) && (n <=? 90)
   || (97 <=? n) && (n <=? 122))%nat.

(** The longest run of such characters at the head of [s], and the rest. *)
Fixpoint spanAlnum (s : string) : string * string :=
  match s with
  | EmptyString => (EmptyString, EmptyString)
  | String c r =>
      if isAlnum c then let (w, rest) := spanAlnum r in (String c w, rest)
      else (EmptyString, s)
  end.

(** [([A-Z0-9]+)] at the head of [s]: the captured key. *)
Definition key (s : string) : option string :=
  match fst (spanAlnum s) with
  | EmptyString => None
  | w => Some w
  end.

(** [ID:\s*([A-Z0-9]+)] at the head of [s]. *)
Definition afterId (s : string) : option string :=
  match matchCI "id:" s with
  | Some r => key (trimStart r)
  | None => None
  end.

(** [device\s+([A-Z0-9]+)] at the head of [s]. *)
Definition afterDevice (s : string) : option string :=
  match matchCI "device" s with
  | Some r =>
      match spaces r with
      | Some r1 => key r1
      | None => None
      end
  | None => None
  end.

(** A pattern tried at every position from the left: the first group of
    the first match. *)
Fixpoint firstMatch (at_head : string -> option string) (s : string)
  : option string :=
  match at_head s with
  | Some w => Some w
  | None =>
      match s with
      | EmptyString => None
      | String _ r => firstMatch at_head r
      end
  end.

(** [input.match(/ID:\s*([A-Z0-9]+)/i) || input.match(/device\s+([A-Z0-9]+)/i)],
    then group 1. *)
Definition extractDeviceId (input : string) : option string :=
  match firstMatch afterId input with
  | Some w => Some w
  | None => firstMatch afterDevice input
  end.

End DevicePatterns.

(** [handleComplexQuery] of the agent whose classifier puts the
    telemetry-analysis rule first.  Its schema check, SQL check and
    reasoning part are those of [HybridAgent]; between the last two stand
    a telemetry branch and a device branch, which look for two more
    tools. *)
Module LaterHybridAgent.
Import JsString Template.

(** The answer of last resort, as this version lays it out. *)
Definition rephrase (input : string) : string :=
  join nl
    ["";
     "        I understand you're asking: " ++ quoted input
       ++ ". This is a complex query that requires multi-step reasoning. ";
     "";
     "        Available tools I can use:";
     "        - Database schema information";
     "        - Custom SQL queries";
     "        - Quick data queries";
     "";
     "        Please try rephrasing your question to be more specific, or ask about:";
     "        - Database structure (tables, columns)";
     "        - Specific data counts or summaries";
     "        - Recent telemetry data";
     "        - Device information"].

Definition countOrRephrase (tools : list Tool) (input reasoning : string)
  : M Session string :=
  if includes (toLowerCase reasoning) "count"
     || includes (toLowerCase reasoning) "how many"
  then
    match findTool "smartweld_quick_query" tools with
    | Some quickTool =>
        result <- _call quickTool "count_records" ;;
        ret ("Based on your question about counting records:" ++ nl ++ nl
             ++ result)
    | None => ret (rephrase input)
    end
  else ret (rephrase input).

Definition reason (env : ChatEnv) (tools : list Tool) (input : string)
  : M Session string :=
  reasoning <- modelInvoke env ;;
  let next := countOrRephrase tools input reasoning in
  if includes (toLowerCase reasoning) "schema"
     || includes (toLowerCase reasoning) "tables"
  then
    match findTool "smartweld_database_info" tools with
    | Some dbInfoTool =>
        schemaInfo <- _call dbInfoTool "schema" ;;
        followUp <- modelInvoke env ;;
        if includes (toLowerCase followUp) "sql"
           || includes (toLowerCase followUp) "query"
        then
          match findTool "smartweld_sql_query" tools with
          | Some sqlTool =>
              match Patterns.extractSelect followUp with
              | Some sqlQuery =>
                  result <- _call sqlTool sqlQuery ;;
                  ret ("Based on the database schema and your question, here's the result:"
                       ++ nl ++ nl ++ result)
              | None => next
              end
          | None => next
          end
        else next
    | None => next
    end
  else next.

(** From the device branch to the end of the function. *)
Definition deviceOrReason (env : ChatEnv) (tools : list Tool) (input : string)
  : M Session string :=
  let lowerInput := toLowerCase input in
  let next := reason env tools input in
  if (includes lowerInput "device" || includes lowerInput "devices")
     && negb (includes lowerInput "current")
     && negb (includes lowerInput "temperature")
     && negb (includes lowerInput "voltage")
     && negb (includes lowerInput "maximum")
     && negb (includes lowerInput "max")
     && negb (includes lowerInput "performance")
  then
    match findTool "smartweld_device_info" tools with
    | Some deviceTool =>
        if includes lowerInput "active device"
           || includes lowerInput "active devices"
        then _call deviceTool "active_devices"
        else if includes lowerInput "how many" || includes lowerInput "count"
        then _call deviceTool "count_devices"
        else if includes lowerInput "list" || includes lowerInput "show"
                || includes lowerInput "all"
        then _call deviceTool "list_devices"
        else if includes lowerInput "status"
        then _call deviceTool "device_status"
        else _call deviceTool "count_devices"
    | None => next
    end
  else next.

(** From the telemetry branch to the end of the function. *)
Definition telemetryOrDevice (env : ChatEnv) (tools : list Tool) (input : string)
  : M Session string :=
  let lowerInput := toLowerCase input in
  let next := deviceOrReason env tools input in
  if includes lowerInput "maximum" || includes lowerInput "max"
     || includes lowerInput "current" || includes lowerInput "temperature"
     || includes lowerInput "voltage" || includes lowerInput "performance"
  then
    match findTool "smartweld_telemetry_analysis" tools with
    | Some telemetryTool =>
        match DevicePatterns.extractDeviceId input with
        | Some deviceId =>
            if includes lowerInput "current"
            then _call telemetryTool ("max_current:" ++ deviceId)
            else if includes lowerInput "temperature"
            then _call telemetryTool ("avg_temperature:" ++ deviceId)
            else if includes lowerInput "voltage"
            then _call telemetryTool ("voltage_range:" ++ deviceId)
            else if includes lowerInput "performance"
            then _call telemetryTool ("performance_summary:" ++ deviceId)
            else _call telemetryTool ("max_current:" ++ deviceId)
        | None =>
            ret "Please specify a device ID (e.g., 'What is the maximum current for device WM001?')"
        end
    | None => next
    end
  else next.

(** From the check for SQL words to the end of the function. *)
Definition sqlOrTelemetry (env : ChatEnv) (tools : list Tool) (input : string)
  : M Session string :=
  let lowerInput := toLowerCase input in
  let next := telemetryOrDevice env tools input in
  if includes lowerInput "sql" || includes lowerInput "query"
     || includes lowerInput "select"
  then
    match findTool "smartweld_sql_query" tools with
    | Some sqlTool =>
        if includes lowerInput "count" then
          result <- _call sqlTool HybridAgent.countStatement ;;
          ret ("Here's the count of telemetry records:" ++ nl ++ nl ++ result)
        else if includes lowerInput "latest" || includes lowerInput "recent" then
          result <- _call sqlTool HybridAgent.latestStatement ;;
          ret ("Here are the latest telemetry records:" ++ nl ++ nl ++ result)
        else next
    | None => next
    end
  else next.

(** [handleComplexQuery]; its [catch] throws again what it caught. *)
Definition handleComplexQuery (env : ChatEnv) (tools : list Tool) (input : string)
  : M Session string :=
  let lowerInput := toLowerCase input in
  let next := sqlOrTelemetry env tools input in
  if includes lowerInput "schema" || includes lowerInput "tables"
     || includes lowerInput "structure" || includes lowerInput "columns"
  then
    match findTool "smartweld_database_info" tools with
    | Some dbInfoTool =>
        if includes lowerInput "how many tables"
           || includes lowerInput "number of tables"
           || includes lowerInput "count of tables"
        then
          tablesInfo <- _call dbInfoTool "tables" ;;
          ret ("Here are the tables in the SmartWeld database:" ++ nl ++ nl
               ++ tablesInfo)
        else
          schemaInfo <- _call dbInfoTool "schema" ;;
          ret ("Here's the SmartWeld database schema:" ++ nl ++ nl ++ schemaInfo)
    | None => next
    end
  else next.

Definition classifyQuery (env : ChatEnv) (input : string)
  : M Session HybridCore.Classification :=
  fun s =>
    let (outcome, calls) :=
      HybridCore.classifyWith Hybrid.matchedRule
        (fun _ => model_invoke env (invocations s)) input in
    (outcome,
     mkSession (store s) (ormCalls s) (described s) (invocations s + calls)
               (openSources s)).

(** [getConversationalResponse]: the [content] of what it resolves with. *)
Definition getConversationalResponse (env : ChatEnv) (tools : list Tool)
  (input : string) : M Session string :=
  tryCatch
    (classification <- classifyQuery env input ;;
     match classification with
     | HybridCore.simple action =>
         if String.eqb action EmptyString
         then handleComplexQuery env tools input
         else HybridAgent.handleSimpleQuery tools input action
     | HybridCore.complex => handleComplexQuery env tools input
     end)
    (fun error => ret (HybridAgent.rescue error)).

End LaterHybridAgent.

(* ================================================================== *)
(** ** The chat endpoint *)

Module ChatEndpoint.

Inductive Response : Type :=
| Status200 (reply : string)
| Status400 (error : string)
| Status500 (details : string).


End ChatEndpoint.

(* ================================================================== *)
(** ** The function-calling agent and its mock tool *)

Module MockAgent.

(** What [getTemperature] returns. *)
Record Reading : Type := mkReading {
  readingDeviceId : Json.json;
  readingTemperature : number;
  readingUnit : string;
  readingStatus : string
}.

(** [getTemperature(deviceID, temperature = 99)]: [None] is an argument
    that is not given. *)
Definition getTemperature (deviceID : Json.json) (temperature : option number)
  : Reading :=
  let temperature :=
    match temperature with
    | Some t => t
    | None => Finite 99
    end in
  mkReading deviceID (Finite (159 # 2)) "Celcius"
            (if gt temperature (Finite 80) then "High" else "Normal").

(** One element of [aiOutput.functionCalls()]. *)
Record FunctionCall : Type := mkFunctionCall {
  callName : string;
  callDeviceID : Json.json
}.

(** What the agent sends to the chat. *)
Inductive Message : Type :=
| UserRequest (text : string)
| FunctionResponse (name : string) (response : Reading).

(** The model behind the chat: the function calls of its answer to the
    request, or its rejection, and whether it rejects the n-th message
    sent. *)
Record Gemini : Type := mkGemini {
  functionCalls : list FunctionCall;
  rejects : nat -> option JsError
}.

(** [chat.sendMessage(message)]; the state is what has been sent. *)
Definition sendMessage (model : Gemini) (message : Message)
  : M (list Message) unit :=
  fun sent =>
    (match rejects model (List.length sent) with
     | Some e => Thrown e
     | None => Returned tt
     end, (sent ++ [message])%list).

(** The body of the loop over [functionCalls]. *)
Definition answerCall (model : Gemini) (functionCall : FunctionCall)
  : M (list Message) unit :=
  if String.eqb (callName functionCall) "getTemperature" then
    let deviceIDNumber := callDeviceID functionCall in
    let toolCallResult := getTemperature deviceIDNumber None in
    sendMessage model (FunctionResponse "getTemperature" toolCallResult)
  else ret tt.

(** [myAgent(userRequest)]; what it prints is left out. *)
Definition myAgent (model : Gemini) (userRequest : string) : M (list Message) unit :=
  sendMessage model (UserRequest userRequest) ;;;
  match functionCalls model with
  | [] => ret tt
  | calls => forEach calls (answerCall model)
  end.

End MockAgent.

(* ================================================================== *)
(** ** What the properties of the chat side are stated with *)

(** A word: one or more word characters. *)
Definition isWord (w : string) : Prop :=
  w <> "" /\ Patterns.allChars Patterns.isWordChar w = true.

(** Whitespace: one or more whitespace characters. *)
Definition isSpace (g : string) : Prop :=
  g <> "" /\ Patterns.allChars JsString.isWhiteSpace g = true.

(** [w] is what the group of the table pattern holds in a match of the
    pattern in [input]: after one of the three keywords, in some mix of
    cases, come whitespace, possibly [of] and whitespace again, possibly a
    quote, and then the word [w], which ends where the word characters
    end. *)
Definition namesTable (input w : string) : Prop :=
  exists before kw gap preposition quote after,
    input = before ++ kw ++ gap ++ preposition ++ quote ++ w ++ after /\
    In (JsString.toLowerCase kw) ["table"; "schema"; "structure"] /\
    isSpace gap /\
    (preposition = "" \/
     exists o gap', preposition = o ++ gap' /\
                    JsString.toLowerCase o = "of" /\ isSpace gap') /\
    (quote = "" \/ exists c, quote = String c "" /\ Patterns.isQuote c = true) /\
    isWord w /\
    match after with
    | String c _ => Patterns.isWordChar c = false
    | EmptyString => True
    end.

(** The first step of the [try] block of [langchainTool] that rejects, if
    one does. *)
Definition firstFailure (run : AgentRun) : option JsError :=
  match initialize run, prepare run, stream run with
  | Some e, _, _ => Some e
  | None, Some e, _ => Some e
  | None, None, Some e => Some e
  | None, None, None => interrupted run
  end.

(** Any code unit but the colon. *)
Definition notColon (c : ascii) : bool := negb (Ascii.eqb c ":"%char).

(** A statement that begins with [select] in some mix of cases. *)
Definition selectOnly (sql : string) : Prop :=
  JsString.startsWith (JsString.toLowerCase sql) "select" = true.

(** From [s] to [s'] a request reached the database at most [q] times and
    the oracle at most [i] times, and what it gave to [sequelize.query]
    begins with [select]. *)
Definition within (q i : nat) (s s' : Session) : Prop :=
  (exists statements calls,
     executed (store s') = (executed (store s) ++ statements)%list /\
     Forall selectOnly statements /\
     ormCalls s' = (ormCalls s ++ calls)%list /\
     (List.length statements + List.length calls <= q)%nat) /\
  (invocations s <= invocations s' <= invocations s + i)%nat.

(** Every run of [c] stays within these bounds. *)
Definition bounded {A : Type} (q i : nat) (c : M Session A) : Prop :=
  forall s, within q i s (snd (c s)).

(** What the agent relies on in the tools it finds by name. *)
Definition toolsBehave (tools : list Tool) : Prop :=
  (forall t, findTool "smartweld_quick_query" tools = Some t ->
     forall action, bounded 1 0 (_call t action)) /\
  (forall t, findTool "smartweld_sql_query" tools = Some t ->
     forall sql, selectOnly (JsString.trim sql) -> JsString.trim sql = sql ->
                 bounded 1 0 (_call t sql)) /\
  (forall t, findTool "smartweld_database_info" tools = Some t ->
     bounded 0 0 (_call t "schema") /\ bounded 1 0 (_call t "tables")).

(** Two runs of [handleComplexQuery], one of each hybrid agent, on the
    question [input]: they leave the same state and give the same outcome,
    unless both give their answer of last resort, which the two versions
    lay out differently. *)
Definition agree (input : string) (later earlier : Outcome string * Session)
  : Prop :=
  snd later = snd earlier /\
  (fst later = fst earlier \/
   (fst later = Returned (LaterHybridAgent.rephrase input) /\
    fst earlier = Returned (HybridAgent.rephrase input))).

(* ================================================================== *)
(** ** Concrete inputs used below *)

(** The rejection of a rate-limited oracle. *)
Definition rateLimited : JsError :=
  mkJsError true "429 Too Many Requests" (Some 429%Z).

(** An oracle that always rejects with status 429, and a database that
    never fails. *)
Definition rateLimitedEnv : Env :=
  mkEnv (fun _ => Fails rateLimited) (fun _ => None).

Definition dq : string := String Json.quote EmptyString.

(** The text [{"severity":"HIGH"}]. *)
Definition severityHighText : string :=
  "{" ++ dq ++ "severity" ++ dq ++ ":" ++ dq ++ "HIGH" ++ dq ++ "}".

(** An oracle that always answers [{"severity":"HIGH"}]. *)
Definition severityHighEnv : Env :=
  mkEnv (fun _ => Responds severityHighText) (fun _ => None).

(** The text [{"severity":{"toString":1}}]: a severity that is an object
    with a member called [toString]. *)
Definition objectSeverityText : string :=
  "{" ++ dq ++ "severity" ++ dq ++ ":{" ++ dq ++ "toString" ++ dq ++ ":1}}".

(** An oracle that always answers [{"severity":{"toString":1}}]. *)
Definition objectSeverityEnv : Env :=
  mkEnv (fun _ => Responds objectSeverityText) (fun _ => None).

(** A reading of 120 A against a threshold of 50 A. *)
Definition reading120 : TelemetryData :=
  mkTelemetryData "D1" "2025-01-01T00:00:00Z" (Finite 90) (Finite 24)
                  (Finite 120) (Finite 3) (Finite 50).

(** A fresh process at clock reading 1000. *)
Definition freshWorld : World := mkWorld 1000 0 0 1 [] [].

(** A batch of two records: 120 A, above the threshold of the route, and a
    record whose current is missing. *)
Definition sampleBatch : list App.TelemetryRecord :=
  [App.mkTelemetryRecord "D1" "2025-01-01T00:00:00Z" (Finite 90) (Finite 3)
                         (Finite 120) (Finite 24);
   App.mkTelemetryRecord "D2" "2025-01-01T00:00:01Z" (Finite 40) (Finite 3)
                         NaN (Finite 24)].

(** The JSON text [{"a":"```json"}], whose string value is the opening
    marker of a fenced block. *)
Definition fenceInsideText : string :=
  "{" ++ dq ++ "a" ++ dq ++ ":" ++ dq ++ JsString.fenceJson ++ dq ++ "}".

(** [t] wrapped as a fenced code block labelled [json]. *)
Definition fenced (t : string) : string :=
  JsString.fenceJson ++ String "010"%char (t ++ String "010"%char JsString.fence).



(** An oracle that always answers [{"severity":"HIGH"}] inside a fenced
    block. *)
Definition fencedHighEnv : Env :=
  mkEnv (fun _ => Responds (fenced severityHighText)) (fun _ => None).

(** The answer [{"severity":"HIGH"}] with blanks around it. *)
Definition paddedHighText : string := "  " ++ severityHighText ++ " ".

(** A follow-up answer of the oracle that holds two statements. *)
Definition followUpText : string :=
  "Run this SQL query: select id from Device; DROP TABLE Device;".

(** A run of the SQL agent in which nothing fails and nothing is said. *)
Definition idleRun : AgentRun :=
  mkAgentRun None None None [] None None errorText.

(** The chat side with an oracle that always rejects with status 429 and a
    database of two tables that answers every statement with no rows. *)
Definition downChatEnv : ChatEnv :=
  mkChatEnv (fun _ => Fails rateLimited) (fun _ => Returned "[]")
            (fun _ => Returned "0") (Returned ["Device"; "DeviceTelemetries"])
            (fun _ => Returned []) (fun _ => idleRun).

(** A request that has done nothing yet. *)
Definition freshSession : Session := mkSession (mkStore []) [] [] 0 0.

(* ================================================================== *)
(** * Properties *)

(** ** Classification *)

Section EnhancedClassifier.
Import JsString.

(** C6.  Whenever the lower-cased question contains "list tables" or "show
    tables", the enhanced classifier answers [tool_specific] with the tool
    [listTables], whatever else the question contains: the rule is the
    first one tried. *)
Theorem list_tables_rule_has_precedence (input : string) :
  includes (toLowerCase input) "list tables" = true \/
  includes (toLowerCase input) "show tables" = true ->
  Enhanced.classifyQuery input = Enhanced.tool_specific "listTables".
Proof.
  intros [H | H]; unfold Enhanced.classifyQuery; cbv zeta; rewrite H.
  - reflexivity.
  - rewrite orb_true_r. reflexivity.
Qed.

End EnhancedClassifier.

(** A question that names tables together with schema, SQL, data, count,
    device and metric words. *)
Lemma list_tables_rule_has_precedence_witness :
  Enhanced.classifyQuery
    "Show tables, then the schema and SQL data: count devices by maximum current"
  = Enhanced.tool_specific "listTables".
Proof.
  apply list_tables_rule_has_precedence. right. vm_compute. reflexivity.
Defined.

Section HybridClassifiers.
Import JsString HybridCore.

Variable invoke : string -> OracleOutcome.

(** A keyword rule decides without the oracle and answers [complex]. *)
Lemma keyword_rule_is_complex (rule : string -> Rule) (input : string) :
  rule input <> OracleRule ->
  classifyWith rule invoke input = (Returned complex, 0%nat).
Proof.
  unfold classifyWith.
  destruct (rule input); intros H; try reflexivity.
  now elim H.
Qed.

(** C7.  In the hybrid classifier a question whose lower-cased text contains
    one of the metric keywords current, temperature, voltage, maximum or
    average is decided by the telemetry-analysis rule, the first in the
    code and so ahead of the device rule, and is classified [complex]
    without consulting the oracle, whether or not it mentions devices. *)
Theorem metric_keywords_classify_complex (input : string) :
  includes (toLowerCase input) "current" = true \/
  includes (toLowerCase input) "temperature" = true \/
  includes (toLowerCase input) "voltage" = true \/
  includes (toLowerCase input) "maximum" = true \/
  includes (toLowerCase input) "average" = true ->
  Hybrid.matchedRule input = TelemetryAnalysisRule /\
  Hybrid.classifyQuery invoke input = (Returned complex, 0%nat).
Proof.
  intros H.
  assert (R : Hybrid.matchedRule input = TelemetryAnalysisRule).
  { unfold Hybrid.matchedRule; cbv zeta.
    destruct H as [H | [H | [H | [H | H]]]]; rewrite H;
      repeat rewrite orb_true_r; reflexivity. }
  split; [exact R |].
  apply keyword_rule_is_complex. rewrite R. discriminate.
Qed.

(** C8 (amended).  Whatever the keyword rules, and so in both hybrid
    classifiers, which are [classifyWith] at their own rules: for every
    answer of the oracle [classifyQuery] returns a classification, which is
    [complex] unless the trimmed, lower-cased answer starts with "simple:".
    When the oracle call itself is rejected, a question that a keyword rule
    decides is still classified [complex], and for any other question the
    rejection leaves [classifyQuery] and is caught by its caller
    [getConversationalResponse], which answers with an error message. *)
Theorem classify_fails_only_with_the_oracle
  (rule : string -> Rule) (input : string) :
  match invoke input with
  | Responds content =>
      exists c, fst (classifyWith rule invoke input) = Returned c /\
                (startsWith (toLowerCase (trim content)) "simple:" = false ->
                 c = complex)
  | Fails e =>
      (rule input <> OracleRule ->
       fst (classifyWith rule invoke input) = Returned complex) /\
      (rule input = OracleRule ->
       fst (classifyWith rule invoke input) = Thrown e /\
       forall handleSimpleQuery handleComplexQuery,
         respondWith rule invoke handleSimpleQuery handleComplexQuery input
         = "I encountered an error while processing your request: "
           ++ errorText e ++ ". Please try rephrasing your question.")
  end.
Proof.
  destruct (invoke input) as [content | e] eqn:I.
  - unfold classifyWith. rewrite I.
    destruct (rule input); simpl;
      try (exists complex; split; [reflexivity | reflexivity]).
    exists (parseClassifierResponse content). split; [reflexivity |].
    intros H. unfold parseClassifierResponse. cbv zeta. now rewrite H.
  - split.
    + intros H. now rewrite keyword_rule_is_complex.
    + intros H.
      assert (C : fst (classifyWith rule invoke input) = Thrown e).
      { unfold classifyWith. now rewrite H, I. }
      split; [exact C |]. intros hs hc.
      unfold respondWith. cbv zeta. now rewrite C.
Qed.

End HybridClassifiers.

(** A question about device currents is classified by the metric rule. *)
Lemma metric_keywords_classify_complex_witness :
  Hybrid.matchedRule "How many devices exceed 90 A of current?"
  = HybridCore.TelemetryAnalysisRule /\
  Hybrid.classifyQuery (fun _ => Responds "simple:count_records")
                       "How many devices exceed 90 A of current?"
  = (Returned HybridCore.complex, 0%nat).
Proof.
  apply metric_keywords_classify_complex. left. vm_compute. reflexivity.
Defined.

(** C8 (as stated) fails: no keyword rule of either hybrid classifier
    decides the question "hello", the oracle is consulted, and its
    rejection leaves [classifyQuery]. *)
Lemma classify_raises_when_oracle_rejects :
  Hybrid.classifyQuery (fun _ => Fails rateLimited) "hello"
  = (Thrown rateLimited, 1%nat) /\
  SchemaFirst.classifyQuery (fun _ => Fails rateLimited) "hello"
  = (Thrown rateLimited, 1%nat).
Proof. vm_compute. split; reflexivity. Qed.

(** The amended statement at that question, and at one the oracle answers. *)
Lemma classify_fails_only_with_the_oracle_witness :
  (fst (Hybrid.classifyQuery (fun _ => Fails rateLimited) "hello")
   = Thrown rateLimited) /\
  (exists c, fst (SchemaFirst.classifyQuery (fun _ => Responds "I am not sure")
                                            "hello")
             = Returned c /\ c = HybridCore.complex).
Proof.
  split.
  - pose proof (classify_fails_only_with_the_oracle
                  (fun _ => Fails rateLimited) Hybrid.matchedRule "hello") as H.
    cbv beta in H. destruct H as [_ H]. apply H. vm_compute. reflexivity.
  - pose proof (classify_fails_only_with_the_oracle
                  (fun _ => Responds "I am not sure") SchemaFirst.matchedRule
                  "hello") as H.
    cbv beta in H. destruct H as [c [H1 H2]]. exists c. split; [exact H1 |].
    apply H2. vm_compute. reflexivity.
Defined.

(* ================================================================== *)
(** ** The SQL tools *)

Section SqlTools.
Import JsString.

Variable run : string -> Outcome string.

(** The tool with the guard turns away whatever does not start with
    [select] once trimmed and lower-cased, and the store sees nothing. *)
Lemma guarded_tool_rejects_non_select (input : string) (st : Store) :
  startsWith (toLowerCase (trim input)) "select" = false ->
  GuardedToolkit._call run input st = (GuardedToolkit.securityError, st) /\
  includes GuardedToolkit.securityError "SELECT queries are allowed" = true.
Proof.
  intros H. unfold GuardedToolkit._call. cbv zeta. rewrite H. simpl negb.
  split; reflexivity.
Qed.

(** The tool of [services/sql-toolkit.ts] sends every input to the store. *)
Lemma datasource_tool_executes_input (input : string) (st : Store) :
  executed (snd (DataSourceToolkit._call run input st))
  = (executed st ++ [input])%list.
Proof.
  unfold DataSourceToolkit._call, sequelize_query.
  destruct (run input); reflexivity.
Qed.

(** C5 (what the code does instead).  "DROP TABLE x" does not begin with
    SELECT; the guarded tool answers with the security error and leaves the
    store alone, but the tool of [services/sql-toolkit.ts] passes the
    statement to [sequelize.query]. *)
Theorem drop_table_reaches_the_store (st : Store) :
  startsWith (toLowerCase (trim "DROP TABLE x")) "select" = false /\
  GuardedToolkit._call run "DROP TABLE x" st
  = ("Error: Only SELECT queries are allowed for security reasons.", st) /\
  executed (snd (DataSourceToolkit._call run "DROP TABLE x" st))
  = (executed st ++ ["DROP TABLE x"])%list.
Proof.
  split; [reflexivity |]. split.
  - apply guarded_tool_rejects_non_select. reflexivity.
  - apply datasource_tool_executes_input.
Qed.

End SqlTools.

(* ================================================================== *)
(** ** [analyzeHighCurrent] *)

Section Analysis.
Import JsString AgentAI.

Variable env : Env.
Variable data : TelemetryData.

(** Unfolds the combinators of [M]. *)
Ltac run :=
  unfold bind, ret, throw, tryCatch, modify, inWorld, dateNow, prop,
         setIsApiBlocked, setBlockUntil, JSON_parse, interpolate in *;
  cbn [fst snd] in *.

(** The [catch] block always returns the fallback result; it opens the
    breaker exactly when the error is a rate limit, and leaves the world as
    it found it. *)
Lemma fallback_spec (e : JsError) (br : Breaker) (w : World) :
  fallback data e (br, w)
  = (Returned (fallbackResult data (now w)),
     (if isRateLimit e then mkBreaker true (now w + 5 * 60 * 1000) else br, w)).
Proof.
  unfold fallback. run. destruct (isRateLimit e); reflexivity.
Qed.

(** The oracle is called once by the [try] block, whatever happens next. *)
Lemma generateContent_spec (w : World) :
  exists o, generateContent env data w
            = (o, mkWorld (now w) (S (oracleCalls w)) (dbOps w) (nextId w)
                          (table w) (trace w ++ [OracleCalled data])) /\
            o = match oracle env (oracleCalls w) with
                | Responds text => Returned text
                | Fails e => Thrown e
                end.
Proof.
  unfold generateContent. destruct (oracle env (oracleCalls w)); eauto.
Qed.

Lemma dbOp_counts {A : Type} (f : World -> A * nat * list Row * list Event)
  (w : World) :
  now (snd (dbOp env f w)) = now w /\
  oracleCalls (snd (dbOp env f w)) = oracleCalls w.
Proof.
  unfold dbOp. destruct (dbFault env (dbOps w)).
  - split; reflexivity.
  - destruct (f w) as [[[a n] rows] events]. split; reflexivity.
Qed.

(** The [try] block calls the oracle exactly once and does not move the
    clock. *)
Lemma analyse_counts (br : Breaker) (w : World) :
  now (snd (snd (analyse env data (br, w)))) = now w /\
  oracleCalls (snd (snd (analyse env data (br, w)))) = S (oracleCalls w).
Proof.
  unfold analyse. run.
  destruct (generateContent_spec w) as [o [G O]]. rewrite G. clear G.
  destruct o as [text | e]; [| split; reflexivity].
  destruct (Json.parse (cleanResponse text)) as [v |]; run;
    [| split; reflexivity].
  destruct (Json.getProp v "severity"); run; [| split; reflexivity].
  destruct (Json.getProp v "possibleCause"); run; [| split; reflexivity].
  destruct (Json.getProp v "recommendation"); run; [| split; reflexivity].
  match goal with
  | |- context [create env ?r ?w0] =>
      pose proof (dbOp_counts (A := Row)
        (fun w => (r (nextId w), S (nextId w), (table w ++ [r (nextId w)])%list,
                   [RowCreated (nextId w)])) w0) as D;
      change (dbOp env _ w0) with (create env r w0) in D;
      destruct (create env r w0) as [[row | e] w1]
  end; cbn [fst snd] in *; [| exact D].
  destruct (Json.toStringThrows _); exact D.
Qed.

(** Whatever the [try] block returns carries the local predicate. *)
Lemma analyse_result (f f' : Frame) (r : AnalysisResult) :
  analyse env data f = (Returned r, f') ->
  isCurrentExceeded r = currentExceeded data.
Proof.
  unfold analyse. run.
  destruct (generateContent env data (snd f)) as [[text | e] w1]; [| discriminate].
  destruct (Json.parse (cleanResponse text)) as [v |]; run; [| discriminate].
  destruct (Json.getProp v "severity"); run; [| discriminate].
  destruct (Json.getProp v "possibleCause"); run; [| discriminate].
  destruct (Json.getProp v "recommendation"); run; [| discriminate].
  match goal with
  | |- context [create env ?r ?w0] => destruct (create env r w0) as [[row | e] w2]
  end; [| discriminate].
  destruct (Json.toStringThrows _); [discriminate |].
  intros H. inversion H. reflexivity.
Qed.

(** [analyzeHighCurrent] is its [try] block with the fallback behind it:
    the breaker check at its head never fires. *)
Lemma analyzeHighCurrent_unfold (w : World) :
  analyzeHighCurrent env data w
  = match analyse env data (mkBreaker false 0, w) with
    | (Returned r, f) => (Returned r, snd f)
    | (Thrown e, f) => (Returned (fallbackResult data (now (snd f))), snd f)
    end.
Proof.
  unfold analyzeHighCurrent, analyzeHighCurrentFrom, tryCatch. cbn [fst snd andb].
  destruct (analyse env data (mkBreaker false 0, w)) as [[r | e] [br w']].
  - reflexivity.
  - rewrite fallback_spec. reflexivity.
Qed.

(** The function never rejects. *)
Lemma analyzeHighCurrentFrom_returns (f : Frame) :
  returns (fst (analyzeHighCurrentFrom env data f)) = true.
Proof.
  unfold analyzeHighCurrentFrom, tryCatch.
  destruct (isApiBlocked (fst f) && (now (snd f) <? blockUntil (fst f))%Z);
    [reflexivity |].
  destruct (analyse env data f) as [[r | e] [br w']]; [reflexivity |].
  rewrite fallback_spec. reflexivity.
Qed.

Lemma analyzeHighCurrent_returns (w : World) :
  returns (fst (analyzeHighCurrent env data w)) = true.
Proof.
  rewrite analyzeHighCurrent_unfold.
  destruct (analyse env data (mkBreaker false 0, w)) as [[r | e] f]; reflexivity.
Qed.

(** Every call of [analyzeHighCurrent] calls the oracle once. *)
Lemma analyzeHighCurrent_calls_oracle (w : World) :
  oracleCalls (snd (analyzeHighCurrent env data w)) = S (oracleCalls w) /\
  now (snd (analyzeHighCurrent env data w)) = now w.
Proof.
  rewrite analyzeHighCurrent_unfold.
  destruct (analyse_counts (mkBreaker false 0) w) as [N C].
  destruct (analyse env data (mkBreaker false 0, w)) as [[r | e] f];
    cbn [fst snd] in *; split; assumption.
Qed.

(** With the breaker open the function would return the blocked result and
    leave the oracle alone. *)
Lemma open_breaker_short_circuits (br : Breaker) (w : World) :
  isApiBlocked br = true -> (now w < blockUntil br)%Z ->
  analyzeHighCurrentFrom env data (br, w)
  = (Returned (blockedResult data (now w)), (br, w)).
Proof.
  intros B T. unfold analyzeHighCurrentFrom. cbn [fst snd]. rewrite B.
  apply Z.ltb_lt in T. rewrite T. reflexivity.
Qed.

End Analysis.

Section AnalysisClaims.
Import JsString AgentAI.

(** When the oracle rejects, the [try] block ends with that rejection
    right after the call. *)
Lemma analyse_oracle_fails (env : Env) (data : TelemetryData) (br : Breaker)
  (w : World) (e : JsError) :
  oracle env (oracleCalls w) = Fails e ->
  analyse env data (br, w)
  = (Thrown e,
     (br, mkWorld (now w) (S (oracleCalls w)) (dbOps w) (nextId w) (table w)
                  (trace w ++ [OracleCalled data]))).
Proof.
  intros H. unfold analyse, bind, inWorld, generateContent. cbn [fst snd].
  rewrite H. reflexivity.
Qed.

(** After a rate-limit rejection the call leaves with the breaker variables
    set, and yet the next call, made inside the cool-down window, calls the
    oracle again. *)
Lemma breaker_is_forgotten_between_calls (env : Env) (data : TelemetryData)
  (w : World) (e : JsError) (t : Z) :
  oracle env (oracleCalls w) = Fails e ->
  isRateLimit e = true ->
  (now w <= t < now w + 5 * 60 * 1000)%Z ->
  breakerAtExit env data w = mkBreaker true (now w + 5 * 60 * 1000) /\
  oracleCalls (snd (analyzeHighCurrent env data
                      (passTime t (snd (analyzeHighCurrent env data w)))))
  = S (S (oracleCalls w)).
Proof.
  intros O R T. split.
  - unfold breakerAtExit, analyzeHighCurrentFrom, tryCatch. cbn [fst snd andb].
    rewrite (analyse_oracle_fails env data _ w e O), fallback_spec, R.
    reflexivity.
  - destruct (analyzeHighCurrent_calls_oracle env data
                (passTime t (snd (analyzeHighCurrent env data w)))) as [C _].
    rewrite C. f_equal.
    destruct (analyzeHighCurrent_calls_oracle env data w) as [C' _].
    unfold passTime. cbn [oracleCalls]. exact C'.
Qed.

(** C1 (what the code does instead).  The first call is rejected with
    status 429 at clock reading 1000 and sets its breaker variables to
    blocked until 301000; the second call, at 2000, calls the oracle again
    and returns the threshold fallback, not the blocked result. *)
Theorem second_call_after_429_calls_the_oracle :
  let first := analyzeHighCurrent rateLimitedEnv reading120 freshWorld in
  let second := analyzeHighCurrent rateLimitedEnv reading120
                                   (passTime 2000 (snd first)) in
  breakerAtExit rateLimitedEnv reading120 freshWorld = mkBreaker true 301000 /\
  oracleCalls (snd first) = 1%nat /\
  oracleCalls (snd second) = 2%nat /\
  option_map severity (resolved (fst second)) = Some (Json.str "CRITICAL") /\
  resolved (fst second) <> Some (blockedResult reading120 2000).
Proof.
  vm_compute. repeat split; try reflexivity. discriminate.
Qed.

(** The fallback only produces listed severities. *)
Lemma fallbackSeverity_listed (data : TelemetryData) :
  In (Json.str (fallbackSeverity data)) listed.
Proof.
  unfold fallbackSeverity, listed.
  destruct (currentExceeded data); [| cbn; tauto].
  destruct (gt _ _); cbn; tauto.
Qed.

(** The severity returned is one of the four listed, unless the oracle's
    answer parses to an object that holds a truthy value under "severity":
    then it is that value. *)
Lemma severity_is_listed_or_the_oracles
  (env : Env) (data : TelemetryData) (w : World) :
  exists r,
    fst (analyzeHighCurrent env data w) = Returned r /\
    (In (severity r) listed \/
     exists text ms v,
       oracle env (oracleCalls w) = Responds text /\
       Json.parse (cleanResponse text) = Some (Json.JObject ms) /\
       Json.lookup (Json.unitsOf "severity") ms = Some v /\
       Json.truthy v = true /\ severity r = v).
Proof.
  rewrite analyzeHighCurrent_unfold.
  assert (F : forall t, exists r,
            Returned (fallbackResult data t) = Returned r /\
            (In (severity r) listed \/
             exists text ms v,
               oracle env (oracleCalls w) = Responds text /\
               Json.parse (cleanResponse text) = Some (Json.JObject ms) /\
               Json.lookup (Json.unitsOf "severity") ms = Some v /\
               Json.truthy v = true /\ severity r = v)).
  { intros t. eexists. split; [reflexivity |]. left. apply fallbackSeverity_listed. }
  unfold analyse, bind, ret, throw, inWorld, dateNow, prop, JSON_parse,
         setIsApiBlocked, modify, generateContent. cbn [fst snd].
  destruct (oracle env (oracleCalls w)) as [text | e]; [| apply F].
  destruct (Json.parse (cleanResponse text)) as [v |] eqn:P;
    unfold ret, throw; cbn [fst snd]; [| apply F].
  destruct (Json.getProp v "severity") as [sev |] eqn:G1; cbn [fst snd]; [| apply F].
  destruct (Json.getProp v "possibleCause"); cbn [fst snd]; [| apply F].
  destruct (Json.getProp v "recommendation"); cbn [fst snd]; [| apply F].
  match goal with
  | |- context [create env ?r ?w0] => destruct (create env r w0) as [[row | e] w2]
  end; [| apply F].
  unfold interpolate. destruct (Json.toStringThrows _); unfold ret, throw;
    cbn [fst snd]; [apply F |].
  eexists. split; [reflexivity |]. cbn [severity].
  destruct sev as [s |]; [| left; cbn; tauto].
  cbn [Json.orElse]. destruct (Json.truthy s) eqn:T; [| left; cbn; tauto].
  right. destruct v; try discriminate G1. cbn in G1. inversion G1.
  exists text, members, s. auto.
Qed.

(** The cleaned answer [{"severity":"HIGH"}] parses to an object whose
    severity is the string HIGH. *)
Lemma severityHigh_parses :
  Json.parse (cleanResponse severityHighText)
  = Some (Json.JObject [(Json.unitsOf "severity", Json.str "HIGH")]).
Proof. vm_compute. reflexivity. Qed.

(** C2 (what the code does instead).  When the oracle answers
    [{"severity":"HIGH"}] the call returns, and the severity it returns is
    the oracle's string HIGH, which is none of CRITICAL, WARNING, NORMAL and
    UNKNOWN. *)
Theorem unlisted_severity_is_returned :
  exists r w',
    analyzeHighCurrent severityHighEnv reading120 freshWorld = (Returned r, w') /\
    severity r = Json.str "HIGH" /\
    ~ In (severity r) listed.
Proof.
  eexists. eexists. split; [vm_compute; reflexivity |].
  split; [reflexivity |].
  cbn [severity In listed]. intros [H | [H | [H | [H | []]]]]; discriminate H.
Qed.

(** C10.  In each of the three branches of the function, and so for
    [analyzeHighCurrent] itself, the returned [isCurrentExceeded] is the
    comparison [current > CURRENT_THRESHOLD] of the input; two runs on the
    same input therefore agree on it whatever the oracle, the database and
    the prior state of the process do. *)
Theorem isCurrentExceeded_is_the_local_comparison (data : TelemetryData) :
  (forall env f,
     option_map isCurrentExceeded
       (resolved (fst (analyzeHighCurrentFrom env data f)))
     = Some (gt (current data) (CURRENT_THRESHOLD data))) /\
  (forall env w,
     option_map isCurrentExceeded
       (resolved (fst (analyzeHighCurrent env data w)))
     = Some (gt (current data) (CURRENT_THRESHOLD data))) /\
  (forall env1 env2 w1 w2,
     option_map isCurrentExceeded
       (resolved (fst (analyzeHighCurrent env1 data w1)))
     = option_map isCurrentExceeded
         (resolved (fst (analyzeHighCurrent env2 data w2)))).
Proof.
  assert (A : forall env f,
     option_map isCurrentExceeded
       (resolved (fst (analyzeHighCurrentFrom env data f)))
     = Some (gt (current data) (CURRENT_THRESHOLD data))).
  { intros env f. unfold analyzeHighCurrentFrom, tryCatch.
    destruct (isApiBlocked (fst f) && (now (snd f) <? blockUntil (fst f))%Z).
    - reflexivity.
    - destruct (analyse env data f) as [[r | e] [br w']] eqn:E.
      + cbn. f_equal. exact (analyse_result env data _ _ _ E).
      + rewrite fallback_spec. reflexivity. }
  assert (B : forall env w,
     option_map isCurrentExceeded
       (resolved (fst (analyzeHighCurrent env data w)))
     = Some (gt (current data) (CURRENT_THRESHOLD data))).
  { intros env w. rewrite <- (A env (mkBreaker false 0, w)).
    unfold analyzeHighCurrent.
    destruct (analyzeHighCurrentFrom env data (mkBreaker false 0, w)).
    reflexivity. }
  split; [exact A |]. split; [exact B |].
  intros. now rewrite !B.
Qed.

End AnalysisClaims.

(* ================================================================== *)
(** ** The threshold fallback *)

Section Fallback.
Import AgentAI.
Local Open Scope Q_scope.

Lemma Qgtb_true_iff (a b : Q) : Qgtb a b = true <-> b < a.
Proof.
  unfold Qgtb. rewrite negb_true_iff, <- not_true_iff_false, Qle_bool_iff.
  split; [apply Qnot_le_lt | apply Qlt_not_le].
Qed.

Lemma Qgtb_false_iff (a b : Q) : Qgtb a b = false <-> a <= b.
Proof.
  rewrite <- not_true_iff_false, Qgtb_true_iff.
  split; [apply Qnot_lt_le | apply Qle_not_lt].
Qed.

(** Over a positive threshold the ratio exceeds one half exactly when the
    current exceeds one and a half times the threshold. *)
Lemma ratio_above_half (c T : Q) :
  0 < T -> ((1 # 2) < (c - T) / T <-> (3 # 2) * T < c).
Proof.
  intros HT. split; intros H.
  - apply (Qmult_lt_r _ _ T HT) in H.
    rewrite (Qmult_comm ((c - T) / T) T) in H.
    rewrite Qmult_div_r in H by (intros E; rewrite E in HT; discriminate HT).
    lra.
  - apply Qlt_shift_div_l; [exact HT | lra].
Qed.

(** The fallback severity over finite readings and a positive threshold. *)
Lemma fallbackSeverity_finite (data : TelemetryData) (c T : Q) :
  current data = Finite c -> CURRENT_THRESHOLD data = Finite T -> 0 < T ->
  fallbackSeverity data
  = (if Qgtb c T
     then if Qgtb ((c - T) / T) (1 # 2) then "CRITICAL" else "WARNING"
     else "NORMAL")%string.
Proof.
  intros Hc HT Pos. unfold fallbackSeverity, currentExceeded.
  rewrite Hc, HT. cbn [gt sub div].
  destruct (Qgtb c T); [| reflexivity].
  destruct (Qeq_bool T 0) eqn:Z; [| reflexivity].
  apply Qeq_bool_iff in Z. rewrite Z in Pos. discriminate Pos.
Qed.

(** C3.  When the oracle rejects, the call returns the fallback, whose
    severity depends only on the current [c] and the positive threshold [T]
    through the ratio [(c - T) / T]: CRITICAL at [c = 2T], WARNING at
    [c = 1.2T], NORMAL for [c <= T]; for an exceeding current it is
    CRITICAL exactly when the ratio is above one half, so WARNING at
    [c = 1.5T], CRITICAL above [1.5T] and WARNING between [T] and
    [1.5T]. *)
Theorem fallback_severity_follows_exceedance_ratio
  (env : Env) (data : TelemetryData) (w : World) (e : JsError) (c T : Q) :
  oracle env (oracleCalls w) = Fails e ->
  current data = Finite c -> CURRENT_THRESHOLD data = Finite T -> 0 < T ->
  exists s : string,
    option_map severity (resolved (fst (analyzeHighCurrent env data w)))
    = Some (Json.str s) /\
    (c == 2 * T -> s = "CRITICAL"%string) /\
    (c == (6 # 5) * T -> s = "WARNING"%string) /\
    (c <= T -> s = "NORMAL"%string) /\
    (T < c -> ((1 # 2) < (c - T) / T <-> s = "CRITICAL"%string)) /\
    (c == (3 # 2) * T -> s = "WARNING"%string) /\
    ((3 # 2) * T < c -> s = "CRITICAL"%string) /\
    (T < c -> c <= (3 # 2) * T -> s = "WARNING"%string).
Proof.
  intros O Hc HT Pos.
  exists (fallbackSeverity data). split.
  { rewrite analyzeHighCurrent_unfold,
            (analyse_oracle_fails env data _ w e O). reflexivity. }
  rewrite (fallbackSeverity_finite data c T Hc HT Pos).
  assert (Above : forall x, (3 # 2) * T < x ->
            Qgtb x T = true /\ Qgtb ((x - T) / T) (1 # 2) = true).
  { intros x H. split; apply Qgtb_true_iff;
      [lra | now apply ratio_above_half]. }
  assert (Between : forall x, T < x -> x <= (3 # 2) * T ->
            Qgtb x T = true /\ Qgtb ((x - T) / T) (1 # 2) = false).
  { intros x H1 H2. split; [apply Qgtb_true_iff; exact H1 |].
    apply Qgtb_false_iff. apply Qnot_lt_le. intros H.
    apply ratio_above_half in H; [lra | exact Pos]. }
  repeat split.
  - intros H. destruct (Above c) as [A B]; [lra |]. now rewrite A, B.
  - intros H. destruct (Between c) as [A B]; [lra | lra |]. now rewrite A, B.
  - intros H. apply Qgtb_false_iff in H. now rewrite H.
  - intros R. apply ratio_above_half in R; [| exact Pos].
    destruct (Above c R) as [A B]. now rewrite A, B.
  - intros S. destruct (Qgtb c T); [| discriminate S].
    destruct (Qgtb ((c - T) / T) (1 # 2)) eqn:G; [| discriminate S].
    now apply Qgtb_true_iff in G.
  - intros H. destruct (Between c) as [A B]; [lra | lra |]. now rewrite A, B.
  - intros H. destruct (Above c H) as [A B]. now rewrite A, B.
  - intros H1 H2. destruct (Between c H1 H2) as [A B]. now rewrite A, B.
Qed.

End Fallback.

(** A current of 100 A against a threshold of 50 A, with the oracle
    rejecting: the severity is CRITICAL. *)
Lemma fallback_severity_follows_exceedance_ratio_witness :
  exists s : string,
    option_map severity
      (resolved (fst (AgentAI.analyzeHighCurrent rateLimitedEnv
         (mkTelemetryData "D1" "t" NaN NaN (Finite 100) NaN (Finite 50))
         freshWorld)))
    = Some (Json.str s) /\ s = "CRITICAL".
Proof.
  destruct (fallback_severity_follows_exceedance_ratio rateLimitedEnv
              (mkTelemetryData "D1" "t" NaN NaN (Finite 100) NaN (Finite 50))
              freshWorld rateLimited 100 50)
    as [s [H1 [H2 _]]]; try reflexivity.
  exists s. split; [exact H1 |]. apply H2. reflexivity.
Defined.

(* ================================================================== *)
(** ** Fence stripping and [JSON.parse] *)

Section FenceStripping.
Import JsString JsonAgent.

Lemma append_assoc (a b c : string) : (a ++ b) ++ c = a ++ (b ++ c).
Proof. induction a as [| x a IH]; simpl; [reflexivity | now rewrite IH]. Qed.

Lemma trimEnd_nonws_end (s : string) (c : ascii) :
  isWhiteSpace c = false -> trimEnd (s ++ String c "") = s ++ String c "".
Proof.
  intros H. induction s as [| x s IH]; simpl.
  - now rewrite H.
  - rewrite IH. destruct s; reflexivity.
Qed.

Lemma trimEnd_ws_end (s : string) (c : ascii) :
  isWhiteSpace c = true -> trimEnd (s ++ String c "") = trimEnd s.
Proof.
  intros H. induction s as [| x s IH]; simpl.
  - now rewrite H.
  - now rewrite IH.
Qed.

Lemma trimStart_head (s : string) (c : ascii) (r : string) :
  trimStart s = String c r -> isWhiteSpace c = false.
Proof.
  induction s as [| x s IH]; simpl; [discriminate |].
  destruct (isWhiteSpace x) eqn:W; [exact IH |].
  intros E. inversion E. now subst.
Qed.

Lemma trimStart_app (s r : string) :
  trimStart (s ++ r)
  = match trimStart s with
    | EmptyString => trimStart r
    | u => u ++ r
    end.
Proof.
  induction s as [| x s IH]; simpl; [destruct (trimStart r); reflexivity |].
  destruct (isWhiteSpace x); [exact IH | reflexivity].
Qed.

Lemma prefix_trans (a b c : string) :
  prefix a b = true -> prefix b c = true -> prefix a c = true.
Proof.
  revert b c. induction a as [| x a IH]; intros b c; [now destruct c |].
  destruct b as [| y b]; [discriminate |].
  destruct c as [| z c]; [now destruct b |].
  cbn [prefix]. destruct (ascii_dec x y), (ascii_dec y z); try discriminate.
  subst. destruct (ascii_dec z z); [apply IH | congruence].
Qed.

Lemma includes_tail (c : ascii) (s sub : string) :
  includes (String c s) sub = false ->
  prefix sub (String c s) = false /\ includes s sub = false.
Proof. cbn [includes]. apply orb_false_elim. Qed.

Lemma includes_trimStart (s sub : string) :
  includes s sub = false -> includes (trimStart s) sub = false.
Proof.
  induction s as [| x s IH]; [trivial |]. intros H. simpl.
  destruct (isWhiteSpace x); [| exact H].
  apply IH. now apply includes_tail in H.
Qed.

(** A fence marker that begins inside [s] and runs into a following code
    unit other than a backtick would already lie within [s]. *)
Lemma fence_does_not_straddle (x : ascii) (s : string) (c : ascii) (rest : string) :
  c <> backtick ->
  prefix fence (String x (s ++ String c rest)) = true ->
  prefix fence (String x s) = true.
Proof.
  intros N. unfold fence. destruct s as [| y [| z s]]; cbn [prefix append];
    repeat match goal with
           | |- context [ascii_dec ?a ?b] => destruct (ascii_dec a b)
           end; try congruence; try discriminate.
  intros _. now destruct s.
Qed.

Lemma stripAll_keeps_fence_free (m s : string) (c : ascii) (rest : string) :
  prefix fence m = true -> c <> backtick -> includes s fence = false ->
  stripAll m 0 false (s ++ String c rest)
  = s ++ stripAll m 0 false (String c rest).
Proof.
  intros M N. induction s as [| x s IH]; [reflexivity |].
  intros H. apply includes_tail in H. destruct H as [P I].
  change (String x s ++ String c rest) with (String x (s ++ String c rest)).
  cbn [stripAll andb].
  destruct (prefix m (String x (s ++ String c rest))) eqn:Q.
  - apply (prefix_trans _ _ _ M) in Q.
    apply fence_does_not_straddle in Q; [congruence | exact N].
  - rewrite (IH I). reflexivity.
Qed.

Lemma stripAll_after_match (m s : string) :
  stripAll m 0 true s = stripAll m 0 false (trimStart s).
Proof.
  induction s as [| x s IH]; [reflexivity |].
  cbn [stripAll trimStart]. destruct (isWhiteSpace x); [exact IH |].
  reflexivity.
Qed.

Lemma trim_fenced (t : string) : trim (fenced t) = fenced t.
Proof.
  unfold trim.
  assert (S : trimStart (fenced t) = fenced t) by reflexivity.
  rewrite S.
  assert (E : fenced t
              = (fenceJson ++ String "010"%char
                   (t ++ String "010"%char (String backtick (String backtick ""))))
                ++ String backtick "").
  { unfold fenced, fence. rewrite append_assoc. cbn [append]. f_equal.
    f_equal. rewrite append_assoc. reflexivity. }
  rewrite E at 1. rewrite trimEnd_nonws_end by reflexivity. now rewrite <- E.
Qed.

Lemma clean_fenced (t : string) :
  includes t fence = false ->
  AgentAI.cleanResponse (fenced t) = trim t.
Proof.
  intros H. unfold AgentAI.cleanResponse. cbv zeta. rewrite trim_fenced.
  assert (R1 : replaceJsonFence (fenced t)
               = stripAll fenceJson 0 false
                   (trimStart (t ++ String "010"%char fence))).
  { rewrite <- stripAll_after_match. reflexivity. }
  rewrite R1, trimStart_app. unfold trim.
  pose proof (includes_trimStart t fence H) as I.
  destruct (trimStart t) as [| c u] eqn:T.
  - reflexivity.
  - pose proof (trimStart_head _ _ _ T) as W.
    rewrite (stripAll_keeps_fence_free fenceJson (String c u) "010"%char fence)
      by (try reflexivity; try exact I; discriminate).
    change (stripAll fenceJson 0 false (String "010"%char fence))
      with (String "010"%char fence).
    unfold replaceFence.
    rewrite (stripAll_keeps_fence_free fence (String c u) "010"%char fence)
      by (try reflexivity; try exact I; discriminate).
    change (stripAll fence 0 false (String "010"%char fence))
      with (String "010"%char "").
    cbn [append trimStart]. rewrite W.
    change (String c (u ++ String "010"%char ""))
      with (String c u ++ String "010"%char "").
    apply trimEnd_ws_end. reflexivity.
Qed.

Lemma stripAllNl_keeps_fence_free (m s : string) (c : ascii) (rest : string) :
  prefix fence m = true -> c <> backtick -> includes s fence = false ->
  stripAllNl m 0 false (s ++ String c rest)
  = s ++ stripAllNl m 0 false (String c rest).
Proof.
  intros M N. induction s as [| x s IH]; [reflexivity |].
  intros H. apply includes_tail in H. destruct H as [P I].
  change (String x s ++ String c rest) with (String x (s ++ String c rest)).
  cbn [stripAllNl andb].
  destruct (prefix m (String x (s ++ String c rest))) eqn:Q.
  - apply (prefix_trans _ _ _ M) in Q.
    apply fence_does_not_straddle in Q; [congruence | exact N].
  - rewrite (IH I). reflexivity.
Qed.

Lemma length_append (a b : string) :
  String.length (a ++ b) = (String.length a + String.length b)%nat.
Proof. induction a as [| x a IH]; simpl; [reflexivity | now rewrite IH]. Qed.

Lemma dropFinalFence_after_text (t : string) :
  dropFinalFence (t ++ String "010"%char fence) = t ++ String "010"%char "".
Proof.
  induction t as [| x t IH]; [reflexivity |].
  change (String x t ++ String "010"%char fence)
    with (String x (t ++ String "010"%char fence)).
  cbn [dropFinalFence].
  assert (L : forall u, (String.length u <= 4)%nat ->
            String.eqb (String x (t ++ String "010"%char fence)) u = false).
  { intros u Hu. apply String.eqb_neq. intros E.
    apply (f_equal String.length) in E. cbn [String.length] in E.
    rewrite length_append in E. cbn in E. lia. }
  rewrite !L by (cbn; lia). cbn [orb append]. now rewrite IH.
Qed.

Lemma cleanContent_fenced (t : string) :
  includes t fence = false -> cleanContent (fenced t) = trim t.
Proof.
  intros H. unfold cleanContent.
  assert (R1 : stripAllNl fenceJson 0 false (fenced t)
               = stripAllNl fenceJson 0 false (t ++ String "010"%char fence))
    by reflexivity.
  rewrite R1. clear R1.
  destruct t as [| c u].
  - reflexivity.
  - rewrite (stripAllNl_keeps_fence_free fenceJson (String c u) "010"%char fence)
      by (try reflexivity; try exact H; discriminate).
    change (stripAllNl fenceJson 0 false (String "010"%char fence))
      with (String "010"%char fence).
    rewrite dropFinalFence_after_text. unfold trim.
    rewrite trimStart_app.
    destruct (trimStart (String c u)) as [| c' u'] eqn:T.
    + reflexivity.
    + apply trimEnd_ws_end. reflexivity.
Qed.
End FenceStripping.

Section JsonText.
Import Json.

Lemma suffixOf_refl (s : string) : suffixOf s s.
Proof. now exists "". Qed.

Lemma suffixOf_trans (a b c : string) : suffixOf a b -> suffixOf b c -> suffixOf a c.
Proof.
  intros [p ->] [q ->]. exists (q ++ p). now rewrite append_assoc.
Qed.

Lemma suffixOf_cons (c : ascii) (r s : string) : suffixOf r s -> suffixOf r (String c s).
Proof. intros [p ->]. now exists (String c p). Qed.

Lemma suffixOf_tail (c : ascii) (s : string) : suffixOf s (String c s).
Proof. apply suffixOf_cons, suffixOf_refl. Qed.

Lemma dropPrefix_app (p s r : string) : dropPrefix p s = Some r -> s = p ++ r.
Proof.
  revert s. induction p as [| a p IH]; intros s; simpl.
  - now intros [= ->].
  - destruct s as [| b s]; [discriminate |].
    destruct (Ascii.eqb a b) eqn:E; [| discriminate].
    apply Ascii.eqb_eq in E. subst. intros H. now rewrite (IH _ H).
Qed.

Lemma dropPrefix_suffix (p s r : string) : dropPrefix p s = Some r -> suffixOf r s.
Proof. intros H. exists p. now apply dropPrefix_app. Qed.

Lemma skipWs_suffix (s : string) : suffixOf (skipWs s) s.
Proof.
  induction s as [| c s IH]; simpl; [apply suffixOf_refl |].
  destruct (isJsonWs c); [now apply suffixOf_cons | apply suffixOf_refl].
Qed.

Lemma separator_comma (close : ascii) (s r : string) :
  separator close s = Comma r -> suffixOf r s.
Proof.
  unfold separator. pose proof (skipWs_suffix s) as S.
  destruct (skipWs s) as [| c u]; [discriminate |].
  destruct (Ascii.eqb c ","); [| destruct (Ascii.eqb c close); discriminate].
  intros [= ->]. eapply suffixOf_trans; [apply suffixOf_tail | exact S].
Qed.

Lemma separator_close (close : ascii) (s r : string) :
  separator close s = Close r -> exists p, s = p ++ String close r.
Proof.
  unfold separator. pose proof (skipWs_suffix s) as S.
  destruct (skipWs s) as [| c u]; [discriminate |].
  destruct (Ascii.eqb c ","); [discriminate |].
  destruct (Ascii.eqb c close) eqn:E; [| discriminate].
  apply Ascii.eqb_eq in E. subst. intros [= ->]. exact S.
Qed.

Lemma consUnit_some (u : N) (o : option (list N * string)) (us : list N) (r : string) :
  consUnit u o = Some (us, r) -> exists us', o = Some (us', r).
Proof. destruct o as [[us' r'] |]; [| discriminate]. intros [= _ ->]. eauto. Qed.

Lemma parseChars_suffix_bounded (n : nat) :
  forall s us r, (String.length s <= n)%nat ->
                 parseChars s = Some (us, r) -> suffixOf r s.
Proof.
  induction n as [| n IH]; intros s us r L.
  - destruct s; [discriminate | simpl in L; lia].
  - destruct s as [| c s]; [discriminate |]. simpl in L.
    cbn [parseChars].
    destruct (Ascii.eqb c quote).
    { intros [= _ ->]. apply suffixOf_tail. }
    destruct (Ascii.eqb c backslash).
    { destruct s as [| e s1]; [discriminate |]. simpl in L.
      destruct (Ascii.eqb e "u").
      - destruct s1 as [| h1 [| h2 [| h3 [| h4 s2]]]]; try discriminate.
        simpl in L.
        destruct (hexOf h1), (hexOf h2), (hexOf h3), (hexOf h4); try discriminate.
        intros H. apply consUnit_some in H. destruct H as [us' H].
        apply IH in H; [| lia].
        do 6 apply suffixOf_cons. exact H.
      - destruct (escapeUnit e); [| discriminate].
        intros H. apply consUnit_some in H. destruct H as [us' H].
        apply IH in H; [| lia]. do 2 apply suffixOf_cons. exact H. }
    destruct (N_of_ascii c <? 32)%N; [discriminate |].
    intros H. apply consUnit_some in H. destruct H as [us' H].
    apply IH in H; [| lia]. apply suffixOf_cons. exact H.
Qed.

Lemma parseChars_suffix (s : string) (us : list N) (r : string) :
  parseChars s = Some (us, r) -> suffixOf r s.
Proof. apply (parseChars_suffix_bounded (String.length s)). lia. Qed.

Lemma spanDigits_suffix (s : string) : suffixOf (snd (spanDigits s)) s.
Proof.
  induction s as [| c s IH]; simpl; [apply suffixOf_refl |].
  destruct (digitOf c); [| apply suffixOf_refl].
  destruct (spanDigits s) as [ds r]. simpl in *. now apply suffixOf_cons.
Qed.

Lemma parseDigits_suffix (s : string) (ds : list N) (r : string) :
  parseDigits s = Some (ds, r) -> suffixOf r s.
Proof.
  unfold parseDigits. pose proof (spanDigits_suffix s) as S.
  destruct (spanDigits s) as [[| d ds'] r']; [discriminate |].
  intros [= _ ->]. exact S.
Qed.

Lemma parseInt_suffix (s : string) (ds : list N) (r : string) :
  parseInt s = Some (ds, r) -> suffixOf r s.
Proof.
  unfold parseInt. destruct (dropPrefix "0" s) eqn:D.
  - intros [= _ ->]. eapply dropPrefix_suffix, D.
  - apply parseDigits_suffix.
Qed.

Lemma parseFrac_suffix (s : string) (ds : list N) (r : string) :
  parseFrac s = Some (ds, r) -> suffixOf r s.
Proof.
  unfold parseFrac. destruct (dropPrefix "." s) eqn:D.
  - intros H. apply parseDigits_suffix in H.
    eapply suffixOf_trans; [exact H | eapply dropPrefix_suffix, D].
  - intros [= _ ->]. apply suffixOf_refl.
Qed.

Lemma parseExp_suffix (s : string) (e : Z) (r : string) :
  parseExp s = Some (e, r) -> suffixOf r s.
Proof.
  unfold parseExp.
  assert (A : forall r0,
            match dropPrefix "e" s with
            | Some r1 => Some r1
            | None => dropPrefix "E" s
            end = Some r0 -> suffixOf r0 s).
  { intros r0. destruct (dropPrefix "e" s) eqn:D.
    - intros [= ->]. eapply dropPrefix_suffix, D.
    - apply dropPrefix_suffix. }
  destruct (match dropPrefix "e" s with
            | Some r1 => Some r1
            | None => dropPrefix "E" s
            end) as [r0 |]; [| intros [= _ ->]; apply suffixOf_refl].
  specialize (A r0 eq_refl).
  assert (B : suffixOf
                (snd (match dropPrefix "-" r0 with
                      | Some r' => (true, r')
                      | None => match dropPrefix "+" r0 with
                                | Some r' => (false, r')
                                | None => (false, r0)
                                end
                      end)) r0).
  { destruct (dropPrefix "-" r0) eqn:D1; [eapply dropPrefix_suffix, D1 |].
    destruct (dropPrefix "+" r0) eqn:D2; [eapply dropPrefix_suffix, D2 |].
    apply suffixOf_refl. }
  destruct (match dropPrefix "-" r0 with
            | Some r' => (true, r')
            | None => match dropPrefix "+" r0 with
                      | Some r' => (false, r')
                      | None => (false, r0)
                      end
            end) as [neg r1]. simpl in B.
  destruct (parseDigits r1) as [[eds r2] |] eqn:P; [| discriminate].
  intros [= _ ->]. apply parseDigits_suffix in P.
  eapply suffixOf_trans; [exact P |]. eapply suffixOf_trans; eassumption.
Qed.

Lemma parseNumber_spec (s : string) (v : json) (r : string) :
  parseNumber s = Some (v, r) ->
  suffixOf r s /\ exists m e, v = JNumber m e.
Proof.
  unfold parseNumber.
  assert (A : suffixOf (snd (match dropPrefix "-" s with
                             | Some r0 => (true, r0)
                             | None => (false, s)
                             end)) s).
  { destruct (dropPrefix "-" s) eqn:D; [eapply dropPrefix_suffix, D |].
    apply suffixOf_refl. }
  destruct (match dropPrefix "-" s with
            | Some r0 => (true, r0)
            | None => (false, s)
            end) as [neg s1]. simpl in A.
  destruct (parseInt s1) as [[ids s2] |] eqn:I; [| discriminate].
  destruct (parseFrac s2) as [[fds s3] |] eqn:F; [| discriminate].
  destruct (parseExp s3) as [[e s4] |] eqn:E; [| discriminate].
  intros [= <- <-]. split; [| eauto].
  apply parseInt_suffix in I. apply parseFrac_suffix in F.
  apply parseExp_suffix in E.
  eapply suffixOf_trans; [exact E |]. eapply suffixOf_trans; [exact F |].
  eapply suffixOf_trans; eassumption.
Qed.

Lemma parseLiteral_spec (name : string) (v0 : json) (s : string) (v : json) (r : string) :
  parseLiteral name v0 s = Some (v, r) -> suffixOf r s /\ v = v0.
Proof.
  unfold parseLiteral. destruct (dropPrefix name s) eqn:D; [| discriminate].
  intros [= <- <-]. split; [eapply dropPrefix_suffix, D | reflexivity].
Qed.

Lemma ends_within (x s : string) (c : ascii) (r : string) :
  suffixOf x s -> (exists p, x = p ++ String c r) -> exists p, s = p ++ String c r.
Proof.
  intros [q ->] [p ->]. exists (q ++ p). now rewrite append_assoc.
Qed.

Lemma ends_suffix (s : string) (c : ascii) (r : string) :
  (exists p, s = p ++ String c r) -> suffixOf r s.
Proof.
  intros [p ->]. exists (p ++ String c ""). rewrite append_assoc. reflexivity.
Qed.

Lemma descent_spec (fuel : nat) :
  (forall s v r, parseValue fuel s = Some (v, r) ->
                 suffixOf r s /\ objectShape s v r) /\
  (forall acc s v r, parseElements fuel acc s = Some (v, r) ->
                     suffixOf r s /\ exists l, v = JArray l) /\
  (forall acc s v r, parseMembers fuel acc s = Some (v, r) ->
                     exists p, s = p ++ String "}" r).
Proof.
  induction fuel as [| fuel [IHv [IHe IHm]]].
  { repeat split; intros; discriminate. }
  split; [| split].
  - intros s v r. cbn [parseValue]. destruct s as [| c s]; [discriminate |].
    pose proof (skipWs_suffix s) as S.
    destruct (Ascii.eqb c "{") eqn:Eo.
    { apply Ascii.eqb_eq in Eo. subst c.
      assert (E : (exists p, skipWs s = p ++ String "}" r) ->
                  suffixOf r (String "{" s) /\ objectShape (String "{" s) v r).
      { intros E. apply (ends_within _ _ _ _ (suffixOf_cons "{" _ _ S)) in E.
        split; [exact (ends_suffix _ _ _ E) |].
        destruct v; try exact I. split; [eauto | exact E]. }
      destruct (dropPrefix "}" (skipWs s)) as [r' |] eqn:D.
      - intros [= <- <-]. apply E. exists "". now apply dropPrefix_app in D.
      - intros H. apply E. exact (IHm _ _ _ _ H). }
    destruct (Ascii.eqb c "[").
    { destruct (dropPrefix "]" (skipWs s)) as [r' |] eqn:D.
      - intros [= <- <-]. split; [| exact I].
        apply suffixOf_cons. eapply suffixOf_trans; [| exact S].
        eapply dropPrefix_suffix, D.
      - intros H. apply IHe in H. destruct H as [H [l ->]]. split; [| exact I].
        apply suffixOf_cons. eapply suffixOf_trans; eassumption. }
    destruct (Ascii.eqb c quote).
    { destruct (parseChars s) as [[us r'] |] eqn:P; [| discriminate].
      intros [= <- <-]. split; [| exact I].
      apply suffixOf_cons. eapply parseChars_suffix, P. }
    destruct (Ascii.eqb c "t").
    { intros H. apply parseLiteral_spec in H. destruct H as [H ->]. now split. }
    destruct (Ascii.eqb c "f").
    { intros H. apply parseLiteral_spec in H. destruct H as [H ->]. now split. }
    destruct (Ascii.eqb c "n").
    { intros H. apply parseLiteral_spec in H. destruct H as [H ->]. now split. }
    intros H. apply parseNumber_spec in H. destruct H as [H [m [e ->]]].
    now split.
  - intros acc s v r. cbn [parseElements].
    destruct (parseValue fuel s) as [[v1 r1] |] eqn:V; [| discriminate].
    apply IHv in V. destruct V as [V _].
    destruct (separator "]" r1) as [r' | r' |] eqn:Sep; [| | discriminate].
    + intros H. apply IHe in H. destruct H as [H A]. split; [| exact A].
      apply separator_comma in Sep.
      eapply suffixOf_trans; [exact H |].
      eapply suffixOf_trans; [apply skipWs_suffix |].
      eapply suffixOf_trans; eassumption.
    + intros [= <- <-]. split; [| eauto].
      apply separator_close in Sep. apply ends_suffix in Sep.
      eapply suffixOf_trans; eassumption.
  - intros acc s v r. cbn [parseMembers].
    destruct (dropPrefix (String quote "") s) as [r0 |] eqn:D0; [| discriminate].
    destruct (parseChars r0) as [[k r1] |] eqn:P; [| discriminate].
    destruct (dropPrefix ":" (skipWs r1)) as [r2 |] eqn:D1; [| discriminate].
    destruct (parseValue fuel (skipWs r2)) as [[v1 r3] |] eqn:V; [| discriminate].
    apply IHv in V. destruct V as [V _].
    assert (R3 : suffixOf r3 s).
    { eapply suffixOf_trans; [exact V |].
      eapply suffixOf_trans; [apply skipWs_suffix |].
      eapply suffixOf_trans; [eapply dropPrefix_suffix, D1 |].
      eapply suffixOf_trans; [apply skipWs_suffix |].
      eapply suffixOf_trans; [eapply parseChars_suffix, P |].
      eapply dropPrefix_suffix, D0. }
    destruct (separator "}" r3) as [r4 | r4 |] eqn:Sep; [| | discriminate].
    + intros H. apply IHm in H. apply separator_comma in Sep.
      eapply ends_within; [| exact H].
      eapply suffixOf_trans; [apply skipWs_suffix |].
      eapply suffixOf_trans; eassumption.
    + intros [= <- <-]. apply separator_close in Sep.
      eapply ends_within; eassumption.
Qed.


Import JsString.

Lemma isJsonWs_isWhiteSpace (c : ascii) : isJsonWs c = true -> isWhiteSpace c = true.
Proof.
  destruct c as [[] [] [] [] [] [] [] []]; cbn; intros H;
    try discriminate H; reflexivity.
Qed.

Lemma skipWs_trimStart (t : string) (c : ascii) (r : string) :
  skipWs t = String c r -> isWhiteSpace c = false -> trimStart t = skipWs t.
Proof.
  induction t as [| a t IH]; [discriminate |]. cbn [skipWs trimStart].
  destruct (isJsonWs a) eqn:J.
  - rewrite (isJsonWs_isWhiteSpace a J). exact IH.
  - intros [= -> ->] W. now rewrite W.
Qed.

Lemma dropWsEnd_empty (y : string) : dropWsEnd y = "" -> trimEnd y = "".
Proof.
  induction y as [| a y IH]; [reflexivity |]. cbn [dropWsEnd trimEnd].
  destruct (dropWsEnd y); [| discriminate].
  rewrite (IH eq_refl). destruct (isJsonWs a) eqn:J; [| discriminate].
  now rewrite (isJsonWs_isWhiteSpace a J).
Qed.

Lemma dropWsEnd_trimEnd (y p : string) (c : ascii) :
  dropWsEnd y = p ++ String c "" -> isWhiteSpace c = false ->
  trimEnd y = dropWsEnd y.
Proof.
  intros H W. revert p H. induction y as [| a y IH]; intros p; [reflexivity |].
  cbn [dropWsEnd trimEnd]. destruct (dropWsEnd y) as [| b d] eqn:D.
  - rewrite (dropWsEnd_empty y D).
    destruct (isJsonWs a); [destruct p; discriminate |].
    destruct p as [| x [| x' p]]; try discriminate.
    intros [= ->]. now rewrite W.
  - destruct p as [| x p]; [discriminate |]. cbn [append].
    intros [= -> H]. now rewrite (IH p H).
Qed.

Lemma dropWsEnd_head (y : string) (c : ascii) (r : string) :
  dropWsEnd y = String c r -> exists y', y = String c y'.
Proof.
  destruct y as [| a y]; [discriminate |]. cbn [dropWsEnd].
  destruct (dropWsEnd y); [destruct (isJsonWs a); [discriminate |] |];
    intros [= -> _]; eauto.
Qed.

Lemma dropWsEnd_idem (y : string) : dropWsEnd (dropWsEnd y) = dropWsEnd y.
Proof.
  induction y as [| a y IH]; [reflexivity |]. cbn [dropWsEnd].
  destruct (dropWsEnd y) as [| b d] eqn:D.
  - destruct (isJsonWs a) eqn:J; [reflexivity |]. cbn [dropWsEnd]. now rewrite J.
  - cbn [dropWsEnd] in *. now rewrite IH.
Qed.

Lemma skipWs_idem (t : string) : skipWs (skipWs t) = skipWs t.
Proof.
  induction t as [| a t IH]; [reflexivity |]. cbn [skipWs].
  destruct (isJsonWs a) eqn:J; [exact IH |]. cbn [skipWs]. now rewrite J.
Qed.

Lemma skipWs_dropWsEnd (y : string) :
  skipWs y = y -> skipWs (dropWsEnd y) = dropWsEnd y.
Proof.
  intros H. destruct (dropWsEnd y) as [| c r] eqn:D; [reflexivity |].
  destruct (dropWsEnd_head y c r D) as [y' ->].
  cbn [skipWs] in *. destruct (isJsonWs c); [| reflexivity].
  exfalso. pose proof (skipWs_suffix y') as [p S]. rewrite H in S.
  apply (f_equal String.length) in S. clear - S.
  assert (L : forall a b, String.length (a ++ b) = (String.length a + String.length b)%nat).
  { induction a; simpl; intros; [reflexivity | now rewrite IHa]. }
  rewrite L in S. cbn [String.length] in S. lia.
Qed.

(** The text between the JSON whitespace at the two ends of [t]. *)
Lemma core_idem (t : string) :
  dropWsEnd (skipWs (dropWsEnd (skipWs t))) = dropWsEnd (skipWs t).
Proof.
  rewrite skipWs_dropWsEnd by apply skipWs_idem. apply dropWsEnd_idem.
Qed.

Lemma parse_same_core (t u : string) :
  dropWsEnd (skipWs u) = dropWsEnd (skipWs t) -> parse u = parse t.
Proof. intros H. unfold parse. cbv zeta. now rewrite H. Qed.

(** For a text that parses to an object, [trim] removes exactly the JSON
    whitespace at its two ends. *)
Lemma object_text_trim (t : string) (ms : list (list N * json)) :
  parse t = Some (JObject ms) -> trim t = dropWsEnd (skipWs t).
Proof.
  unfold parse. cbv zeta.
  destruct (parseValue _ (dropWsEnd (skipWs t))) as [[v [| c r]] |] eqn:P;
    try discriminate.
  intros [= ->].
  destruct (descent_spec (2 * String.length (dropWsEnd (skipWs t)) + 2))
    as [V _].
  apply V in P. destruct P as [_ [[s' B] [p E]]].
  destruct (dropWsEnd_head _ _ _ B) as [y' Y].
  unfold trim. rewrite (skipWs_trimStart t "{" y' Y eq_refl).
  exact (dropWsEnd_trimEnd _ p "}" E eq_refl).
Qed.

Lemma suffixOf_length (r s : string) :
  suffixOf r s -> (String.length r <= String.length s)%nat.
Proof. intros [p ->]. rewrite length_append. lia. Qed.

Lemma skipWs_length (s : string) :
  (String.length (skipWs s) <= String.length s)%nat.
Proof. apply suffixOf_length, skipWs_suffix. Qed.

Lemma dropPrefix_length (p s r : string) :
  dropPrefix p s = Some r ->
  String.length s = (String.length p + String.length r)%nat.
Proof. intros H. apply dropPrefix_app in H. subst. apply length_append. Qed.

Lemma spanDigits_length (s : string) :
  String.length s
  = (List.length (fst (spanDigits s)) + String.length (snd (spanDigits s)))%nat.
Proof.
  induction s as [| c s IH]; [reflexivity |]. cbn [spanDigits].
  destruct (digitOf c); [| reflexivity].
  destruct (spanDigits s) as [ds r]. cbn in *. lia.
Qed.

Lemma parseDigits_consumes (s : string) (ds : list N) (r : string) :
  parseDigits s = Some (ds, r) -> (String.length r < String.length s)%nat.
Proof.
  unfold parseDigits. pose proof (spanDigits_length s) as L.
  destruct (spanDigits s) as [[| d ds'] r']; [discriminate |].
  intros [= _ ->]. cbn in L. lia.
Qed.

Lemma parseNumber_consumes (s : string) (v : json) (r : string) :
  parseNumber s = Some (v, r) -> (String.length r < String.length s)%nat.
Proof.
  unfold parseNumber.
  assert (A : (String.length (snd (match dropPrefix "-" s with
                                   | Some r0 => (true, r0)
                                   | None => (false, s)
                                   end)) <= String.length s)%nat).
  { destruct (dropPrefix "-" s) eqn:D; [| cbn; lia].
    apply dropPrefix_length in D. cbn in *. lia. }
  destruct (match dropPrefix "-" s with
            | Some r0 => (true, r0)
            | None => (false, s)
            end) as [neg s1]. cbn [snd] in A.
  destruct (parseInt s1) as [[ids s2] |] eqn:I; [| discriminate].
  destruct (parseFrac s2) as [[fds s3] |] eqn:F; [| discriminate].
  destruct (parseExp s3) as [[e s4] |] eqn:E; [| discriminate].
  intros [= _ <-].
  apply parseFrac_suffix, suffixOf_length in F.
  apply parseExp_suffix, suffixOf_length in E.
  assert (String.length s2 < String.length s1)%nat; [| lia].
  revert I. unfold parseInt. destruct (dropPrefix "0" s1) eqn:D.
  - intros [= _ ->]. apply dropPrefix_length in D. cbn in D. lia.
  - apply parseDigits_consumes.
Qed.

Lemma parseLiteral_consumes (name : string) (v0 : json) (s : string)
  (v : json) (r : string) :
  name <> "" -> parseLiteral name v0 s = Some (v, r) ->
  (String.length r < String.length s)%nat.
Proof.
  unfold parseLiteral. intros N. destruct (dropPrefix name s) eqn:D; [| discriminate].
  intros [= _ <-]. apply dropPrefix_length in D. destruct name; [now elim N |].
  cbn in D. lia.
Qed.

(** A value takes at least one code unit. *)
Lemma parseValue_consumes (fuel : nat) (s : string) (v : json) (r : string) :
  parseValue fuel s = Some (v, r) -> (String.length r < String.length s)%nat.
Proof.
  destruct fuel as [| fuel]; [discriminate |].
  destruct (descent_spec fuel) as [_ [IHe IHm]].
  cbn [parseValue]. destruct s as [| c s]; [discriminate |].
  pose proof (skipWs_length s) as S. cbn [String.length].
  destruct (Ascii.eqb c "{").
  { destruct (dropPrefix "}" (skipWs s)) as [r' |] eqn:D.
    - intros [= _ <-]. apply dropPrefix_length in D. lia.
    - intros H. apply IHm, ends_suffix, suffixOf_length in H. lia. }
  destruct (Ascii.eqb c "[").
  { destruct (dropPrefix "]" (skipWs s)) as [r' |] eqn:D.
    - intros [= _ <-]. apply dropPrefix_length in D. lia.
    - intros H. apply IHe in H. destruct H as [H _].
      apply suffixOf_length in H. lia. }
  destruct (Ascii.eqb c quote).
  { destruct (parseChars s) as [[us r'] |] eqn:P; [| discriminate].
    intros [= _ <-]. apply parseChars_suffix, suffixOf_length in P. lia. }
  destruct (Ascii.eqb c "t").
  { intros H. apply parseLiteral_consumes in H; [exact H | discriminate]. }
  destruct (Ascii.eqb c "f").
  { intros H. apply parseLiteral_consumes in H; [exact H | discriminate]. }
  destruct (Ascii.eqb c "n").
  { intros H. apply parseLiteral_consumes in H; [exact H | discriminate]. }
  intros H. apply parseNumber_consumes in H. exact H.
Qed.

Lemma separator_length (close : ascii) (s : string) :
  match separator close s with
  | Comma r | Close r => (String.length r < String.length s)%nat
  | Neither => True
  end.
Proof.
  unfold separator. pose proof (skipWs_length s) as L.
  destruct (skipWs s) as [| c u]; [exact I |]. cbn [String.length] in L.
  destruct (Ascii.eqb c ","); [lia |].
  destruct (Ascii.eqb c close); [lia | exact I].
Qed.

(** One more unit of fuel changes nothing once there are two units per code
    unit, and one more for a value. *)
Lemma fuel_suffices (n : nat) :
  forall s, (String.length s <= n)%nat ->
    (forall f, (2 * String.length s + 1 <= f)%nat ->
       parseValue f s = parseValue (S f) s) /\
    (forall f acc, (2 * String.length s + 2 <= f)%nat ->
       parseElements f acc s = parseElements (S f) acc s) /\
    (forall f acc, (2 * String.length s + 2 <= f)%nat ->
       parseMembers f acc s = parseMembers (S f) acc s).
Proof.
  induction n as [| n IH]; intros s L.
  - destruct s; [| cbn in L; lia].
    split; [| split]; intros f; intros; destruct f as [| [| f]];
      try (cbn in *; lia); reflexivity.
  - assert (Shorter : forall u, (String.length u < String.length s)%nat ->
              (String.length u <= n)%nat) by (intros; lia).
    assert (V : forall f, (2 * String.length s + 1 <= f)%nat ->
              parseValue f s = parseValue (S f) s).
    { intros f F. destruct f as [| f]; [lia |].
      cbn [parseValue]. destruct s as [| c s]; [reflexivity |].
      cbn [String.length] in *. pose proof (skipWs_length s) as W.
      destruct (IH (skipWs s)) as [_ [E M]]; [lia |].
      destruct (Ascii.eqb c "{").
      { destruct (dropPrefix "}" (skipWs s)); [reflexivity |]. apply M. lia. }
      destruct (Ascii.eqb c "[").
      { destruct (dropPrefix "]" (skipWs s)); [reflexivity |]. apply E. lia. }
      reflexivity. }
    split; [exact V |]. split.
    + intros f acc F. destruct f as [| f]; [lia |].
      cbn [parseElements]. rewrite <- (V f) by lia.
      destruct (parseValue f s) as [[v r] |] eqn:P; [| reflexivity].
      apply parseValue_consumes in P.
      pose proof (separator_length "]" r) as Sep.
      destruct (separator "]" r) as [r' | r' |]; try reflexivity.
      pose proof (skipWs_length r') as W.
      destruct (IH (skipWs r')) as [_ [E _]]; [lia |]. apply E. lia.
    + intros f acc F. destruct f as [| f]; [lia |].
      cbn [parseMembers].
      destruct (dropPrefix (String quote "") s) as [r0 |] eqn:D0; [| reflexivity].
      apply dropPrefix_length in D0. cbn [String.length] in D0.
      destruct (parseChars r0) as [[k r1] |] eqn:P; [| reflexivity].
      apply parseChars_suffix, suffixOf_length in P.
      pose proof (skipWs_length r1) as W1.
      destruct (dropPrefix ":" (skipWs r1)) as [r2 |] eqn:D1; [| reflexivity].
      apply dropPrefix_length in D1. cbn [String.length] in D1.
      pose proof (skipWs_length r2) as W2.
      destruct (IH (skipWs r2)) as [V2 _]; [lia |].
      rewrite <- (V2 f) by lia.
      destruct (parseValue f (skipWs r2)) as [[v r3] |] eqn:PV; [| reflexivity].
      apply parseValue_consumes in PV.
      pose proof (separator_length "}" r3) as Sep.
      destruct (separator "}" r3) as [r4 | r4 |]; try reflexivity.
      pose proof (skipWs_length r4) as W4.
      destruct (IH (skipWs r4)) as [_ [_ M]]; [lia |]. apply M. lia.
Qed.

(** [parse] never runs out of fuel: any larger amount gives the same
    descent. *)
Lemma parse_fuel_is_enough (s : string) (extra : nat) :
  parseValue (2 * String.length s + 2 + extra) s
  = parseValue (2 * String.length s + 2) s.
Proof.
  induction extra as [| extra IH]; [f_equal; lia |].
  rewrite <- IH. replace (2 * String.length s + 2 + S extra)%nat
    with (S (2 * String.length s + 2 + extra)) by lia.
  symmetry. destruct (fuel_suffices (String.length s) s (le_n _)) as [V _].
  apply V. lia.
Qed.

End JsonText.

Section FencedRoundTrip.
Import JsString.

(** C9 (amended).  For every text [t] that parses to a JSON object and
    contains no run of three backticks, cleaning the fenced wrapping of [t]
    and parsing the result gives the value that parsing [t] gives.  This
    holds for the cleaning of [analyzeHighCurrent] and for the cleaning of
    the JSON-oriented agent. *)
Theorem fenced_object_parses_like_the_bare_object
  (t : string) (ms : list (list N * Json.json)) :
  Json.parse t = Some (Json.JObject ms) ->
  includes t fence = false ->
  Json.parse (AgentAI.cleanResponse (fenced t)) = Json.parse t /\
  Json.parse (JsonAgent.cleanContent (fenced t)) = Json.parse t.
Proof.
  intros P F. rewrite (clean_fenced t F), (cleanContent_fenced t F).
  assert (E : Json.parse (trim t) = Json.parse t).
  { apply parse_same_core. rewrite (object_text_trim t ms P). apply core_idem. }
  split; exact E.
Qed.

End FencedRoundTrip.

(** The answer [{"severity":"HIGH"}], bare and fenced. *)
Lemma fenced_object_parses_like_the_bare_object_witness :
  Json.parse (AgentAI.cleanResponse (fenced severityHighText))
  = Json.parse severityHighText /\
  Json.parse (JsonAgent.cleanContent (fenced severityHighText))
  = Json.parse severityHighText.
Proof.
  apply (fenced_object_parses_like_the_bare_object severityHighText
           [(Json.unitsOf "severity", Json.str "HIGH")]);
    vm_compute; reflexivity.
Defined.

(** C9 (as stated) fails: [{"a":"```json"}] is a JSON object text, and both
    cleanings remove the marker inside its string value, so the fenced text
    parses to an object whose member is the empty string. *)
Lemma fence_inside_a_string_is_lost :
  Json.parse fenceInsideText
  = Some (Json.JObject [(Json.unitsOf "a", Json.str JsString.fenceJson)]) /\
  Json.parse (AgentAI.cleanResponse (fenced fenceInsideText))
  = Some (Json.JObject [(Json.unitsOf "a", Json.str "")]) /\
  Json.parse (JsonAgent.cleanContent (fenced fenceInsideText))
  = Some (Json.JObject [(Json.unitsOf "a", Json.str "")]) /\
  Json.parse (AgentAI.cleanResponse (fenced fenceInsideText))
  <> Json.parse fenceInsideText.
Proof.
  vm_compute. repeat split; try reflexivity. discriminate.
Qed.

(* ================================================================== *)
(** ** The telemetry route *)

Section Ingestion.
Import AgentAI App.

Variable env : Env.

Lemma updatedIds_app (e1 e2 : list Event) :
  updatedIds (e1 ++ e2) = (updatedIds e1 ++ updatedIds e2)%list.
Proof. unfold updatedIds. now rewrite flat_map_app. Qed.

Lemma kept_trans (i1 i2 : list nat) (w1 w2 w3 : World) :
  kept i1 w1 w2 -> kept i2 w2 w3 -> kept (i1 ++ i2) w1 w3.
Proof.
  intros A B r H. destruct (A r H) as [r' [H' [R' A']]].
  destruct (B r' H') as [r'' [H'' [R'' A'']]].
  exists r''. split; [exact H'' |]. split; [congruence |].
  intros N. assert (E : rowId r' = rowId r) by (unfold readings in R'; congruence).
  rewrite A'', A'; [reflexivity | |];
    intros I; apply N, in_or_app; [now left | right; now rewrite <- E].
Qed.

Lemma effect_refl (w w' : World) :
  trace w' = trace w -> table w' = table w -> effect w w' [].
Proof.
  intros T R. split; [now rewrite T, app_nil_r |].
  intros r H. exists r. rewrite R. auto.
Qed.

Lemma effect_trans (w1 w2 w3 : World) (e1 e2 : list Event) :
  effect w1 w2 e1 -> effect w2 w3 e2 -> effect w1 w3 (e1 ++ e2)%list.
Proof.
  intros [T1 K1] [T2 K2]. split.
  - now rewrite T2, T1, app_assoc.
  - rewrite updatedIds_app. eapply kept_trans; eassumption.
Qed.

(** A database operation that fails changes neither table nor trace; one
    that succeeds installs the table and appends the events it computed. *)
Lemma dbOp_spec {A : Type} (run : World -> A * nat * list Row * list Event)
  (w : World) :
  match dbFault env (dbOps w) with
  | Some e =>
      fst (dbOp env run w) = Thrown e /\
      trace (snd (dbOp env run w)) = trace w /\
      table (snd (dbOp env run w)) = table w
  | None =>
      fst (dbOp env run w) = Returned (fst (fst (fst (run w)))) /\
      trace (snd (dbOp env run w)) = (trace w ++ snd (run w))%list /\
      table (snd (dbOp env run w)) = snd (fst (run w))
  end.
Proof.
  unfold dbOp. destruct (dbFault env (dbOps w)).
  - repeat split.
  - destruct (run w) as [[[a n] rows] events]. repeat split.
Qed.

Lemma create_effect (record : nat -> Row) (w : World) :
  exists events,
    effect w (snd (create env record w)) events /\
    Forall (fun ev => exists id, ev = RowCreated id) events.
Proof.
  unfold create.
  match goal with |- context [dbOp env ?f w] => pose proof (dbOp_spec f w) as D end.
  destruct (dbFault env (dbOps w)).
  - destruct D as [_ [T R]]. exists []. split; [now apply effect_refl | constructor].
  - destruct D as [_ [T R]]. cbn [fst snd] in T, R.
    exists [RowCreated (nextId w)]. split.
    + split; [exact T |]. intros r H. exists r. rewrite R.
      split; [apply in_or_app; now left | auto].
    + repeat constructor. eauto.
Qed.

Lemma update_effect (id : nat) (a : AnalysisResult) (w : World) :
  exists events,
    effect w (snd (update env id a w)) events /\
    Forall (fun ev => ev = RowUpdated id) events /\
    (returns (fst (update env id a w)) = true ->
     forall r, In r (table w) -> rowId r = id ->
       exists r', In r' (table (snd (update env id a w))) /\
                  readings r' = readings r /\ analysisColumns r' = written a).
Proof.
  unfold update.
  match goal with |- context [dbOp env ?f w] => pose proof (dbOp_spec f w) as D end.
  destruct (dbFault env (dbOps w)).
  - destruct D as [F [T R]]. exists [].
    split; [now apply effect_refl |]. split; [constructor |].
    rewrite F. discriminate.
  - destruct D as [_ [T R]]. cbn [fst snd] in T, R.
    exists [RowUpdated id]. split; [| split].
    + split; [exact T |]. intros r H. rewrite R.
      eexists. split; [apply in_map; exact H |]. cbv beta.
      destruct (Nat.eqb (rowId r) id) eqn:E; [| auto].
      split; [reflexivity |]. intros N. exfalso. apply N. left.
      symmetry. now apply Nat.eqb_eq.
    + repeat constructor.
    + intros _ r H E. rewrite R.
      eexists. split; [apply in_map; exact H |]. cbv beta.
      apply Nat.eqb_eq in E. rewrite E. split; reflexivity.
Qed.

Lemma findAll_effect (w : World) :
  exists events,
    effect w (snd (findAll env w)) events /\ Forall (fun ev => ev = RowsRead) events.
Proof.
  unfold findAll.
  match goal with |- context [dbOp env ?f w] => pose proof (dbOp_spec f w) as D end.
  destruct (dbFault env (dbOps w)).
  - destruct D as [_ [T R]]. exists []. split; [now apply effect_refl | constructor].
  - destruct D as [_ [T R]]. cbn [fst snd] in T, R.
    exists [RowsRead]. split; [| repeat constructor].
    split; [exact T |]. intros r H. exists r. rewrite R. auto.
Qed.

Lemma readings_rowId (r r' : Row) : readings r' = readings r -> rowId r' = rowId r.
Proof. unfold readings. congruence. Qed.

(** The [try] block calls the oracle, then at most creates a row. *)
Lemma analyse_effect (data : TelemetryData) (br : Breaker) (w : World) :
  exists events,
    effect w (snd (snd (analyse env data (br, w)))) (OracleCalled data :: events) /\
    Forall (fun ev => exists id, ev = RowCreated id) events.
Proof.
  assert (G : effect w (snd (generateContent env data w)) [OracleCalled data]).
  { unfold generateContent.
    destruct (oracle env (oracleCalls w)); (split; [reflexivity |]);
      intros r H; exists r; auto. }
  assert (Stop : forall w1, effect w w1 [OracleCalled data] ->
            exists events, effect w w1 (OracleCalled data :: events) /\
              Forall (fun ev => exists id, ev = RowCreated id) events).
  { intros w1 H. exists []. split; [exact H | constructor]. }
  unfold analyse, bind, ret, throw, inWorld, dateNow, prop, JSON_parse,
         setIsApiBlocked, modify. cbn [fst snd].
  destruct (generateContent env data w) as [[text | e] w1]; cbn [fst snd] in *;
    [| now apply Stop].
  destruct (Json.parse (cleanResponse text)) as [v |];
    unfold ret, throw; cbn [fst snd]; [| now apply Stop].
  destruct (Json.getProp v "severity"); cbn [fst snd]; [| now apply Stop].
  destruct (Json.getProp v "possibleCause"); cbn [fst snd]; [| now apply Stop].
  destruct (Json.getProp v "recommendation"); cbn [fst snd]; [| now apply Stop].
  match goal with
  | |- context [create env ?r w1] =>
      destruct (create_effect r w1) as [events [E C]];
      destruct (create env r w1) as [[row | e] w2]
  end; cbn [fst snd] in *; exists events;
    [unfold interpolate; destruct (Json.toStringThrows _) |];
    (split; [exact (effect_trans _ _ _ _ _ G E) | exact C]).
Qed.

(** [analyzeHighCurrent] returns, having called the oracle for its input
    and at most created a row. *)
Lemma analyzeHighCurrent_effect (data : TelemetryData) (w : World) :
  exists a events,
    fst (analyzeHighCurrent env data w) = Returned a /\
    effect w (snd (analyzeHighCurrent env data w)) (OracleCalled data :: events) /\
    Forall (fun ev => exists id, ev = RowCreated id) events.
Proof.
  rewrite analyzeHighCurrent_unfold.
  destruct (analyse_effect data (mkBreaker false 0) w) as [events [E C]].
  destruct (analyse env data (mkBreaker false 0, w)) as [[r | e] f];
    cbn [fst snd] in *; eauto.
Qed.

Lemma created_not_updated (events : list Event) :
  Forall (fun ev => exists id, ev = RowCreated id) events -> updatedIds events = [].
Proof.
  induction 1 as [| ev events [id ->] _ IH]; [reflexivity | exact IH].
Qed.


Lemma analyseRow_effect (row : Row) (w : World) :
  exists events,
    effect w (snd (analyseRow env row w)) events /\
    Forall (allowed row) events /\
    (returns (fst (analyseRow env row w)) = true ->
     attached env row w w (snd (analyseRow env row w)) events).
Proof.
  unfold analyseRow, attached.
  destruct (gt (rowCurrent row) CURRENT_THRESHOLD) eqn:X.
  - unfold bind.
    destruct (analyzeHighCurrent_effect (telemetryOf row) w)
      as [a [ev1 [R [E1 C1]]]].
    destruct (analyzeHighCurrent env (telemetryOf row) w) as [o w1] eqn:AH.
    cbn [fst snd] in *. subst o.
    destruct (update_effect (rowId row) a w1) as [ev2 [E2 [C2 U]]].
    exists ((OracleCalled (telemetryOf row) :: ev1) ++ ev2)%list.
    split; [exact (effect_trans _ _ _ _ _ E1 E2) |]. split.
    + apply Forall_app. split.
      * constructor; [left; auto |].
        eapply Forall_impl; [| exact C1]. intros ev H. right. now left.
      * eapply Forall_impl; [| exact C2]. intros ev H. right. now right.
    + intros Ret _. split; [now left |]. exists a. split; [reflexivity |].
      intros r H I. destruct E1 as [_ K1].
      destruct (K1 r H) as [r1 [H1 [R1 _]]].
      destruct (U Ret r1 H1) as [r' [H' [R' A']]].
      { rewrite (readings_rowId _ _ R1). exact I. }
      exists r'. split; [exact H' |]. split; [congruence | exact A'].
  - exists []. split; [now apply effect_refl |]. split; [constructor |].
    intros _ F. discriminate F.
Qed.


(** The rows that [bulkCreate] returns carry consecutive, hence distinct,
    keys. *)
Lemma numberRows_keys (batch : list TelemetryRecord) (next : nat) :
  map rowId (numberRows next batch) = seq next (List.length batch).
Proof.
  revert next. induction batch as [| d batch IH]; intros next; [reflexivity |].
  cbn. now rewrite IH.
Qed.


Lemma read_not_updated (events : list Event) :
  Forall (fun ev => ev = RowsRead) events -> updatedIds events = [].
Proof.
  induction 1 as [| ev events -> _ IH]; [reflexivity | exact IH].
Qed.


End Ingestion.


(* ================================================================== *)
(** * Further properties *)

(** ** How a call of [analyzeHighCurrent] ends *)

Section AnalysisOutcome.
Import JsString AgentAI.

Variable env : Env.
Variable data : TelemetryData.

(** The ways a call can end: with the fallback and the table as it was, or
    with a result built from the oracle's answer and saved as one new row;
    that result is returned unless its severity cannot be written into the
    closing log line, in which case the fallback is returned after all. *)
Lemma analyzeHighCurrent_cases (w : World) :
  exists r w',
    analyzeHighCurrent env data w = (Returned r, w') /\
    ((r = fallbackResult data (now w) /\ table w' = table w /\
      nextId w' = nextId w)
     \/
     (exists text v a,
        oracle env (oracleCalls w) = Responds text /\
        Json.parse (cleanResponse text) = Some v /\
        builtFrom data v (now w) a /\
        dbFault env (dbOps w) = None /\
        table w' = (table w ++ [savedRow data (nextId w) a])%list /\
        nextId w' = S (nextId w) /\
        r = if Json.toStringThrows (severity a)
            then fallbackResult data (now w) else a)).
Proof.
  rewrite analyzeHighCurrent_unfold.
  unfold analyse, bind, ret, throw, inWorld, dateNow, prop, JSON_parse,
         setIsApiBlocked, modify, generateContent. cbn [fst snd].
  destruct (oracle env (oracleCalls w)) as [text | e] eqn:O;
    [| eexists; eexists; split; [reflexivity | left; auto]].
  destruct (Json.parse (cleanResponse text)) as [v |] eqn:P;
    unfold ret, throw; cbn [fst snd];
    [| eexists; eexists; split; [reflexivity | left; auto]].
  destruct (Json.getProp v "severity") as [sev |] eqn:G1; cbn [fst snd];
    [| eexists; eexists; split; [reflexivity | left; auto]].
  destruct (Json.getProp v "possibleCause") as [cause |] eqn:G2; cbn [fst snd];
    [| eexists; eexists; split; [reflexivity | left; auto]].
  destruct (Json.getProp v "recommendation") as [rec |] eqn:G3; cbn [fst snd];
    [| eexists; eexists; split; [reflexivity | left; auto]].
  unfold create, dbOp. cbn [dbOps now nextId table trace oracleCalls].
  destruct (dbFault env (dbOps w)) as [e |] eqn:D; cbn [fst snd];
    [eexists; eexists; split; [reflexivity | left; auto] |].
  set (a := mkAnalysisResult (Json.orElse sev (Json.str "UNKNOWN"))
              (Json.orElse cause (Json.str "Analysis incomplete"))
              (Json.orElse rec (Json.str "Manual inspection required"))
              (currentExceeded data) (now w)).
  assert (B : builtFrom data v (now w) a) by (exists sev, cause, rec; auto).
  unfold interpolate.
  destruct (Json.toStringThrows (severity a)) eqn:TS;
    unfold ret, throw; cbn [fst snd now table nextId];
    (eexists; eexists; split; [reflexivity |]); right;
    exists text, v, a; rewrite TS; repeat split; assumption.
Qed.

Lemma orElse_truthy (x : option Json.json) (d : Json.json) :
  Json.truthy d = true -> Json.truthy (Json.orElse x d) = true.
Proof.
  intros D. destruct x as [v |]; [| exact D]. cbn.
  destruct (Json.truthy v) eqn:T; [exact T | exact D].
Qed.

(** Once the oracle's answer parses to a value other than [null] and the
    insertion is not rejected, the call saves a row. *)
Lemma analyzeHighCurrent_saves (w : World) (text : string) (v : Json.json) :
  oracle env (oracleCalls w) = Responds text ->
  Json.parse (cleanResponse text) = Some v -> v <> Json.JNull ->
  dbFault env (dbOps w) = None ->
  List.length (table (snd (analyzeHighCurrent env data w)))
  = S (List.length (table w)).
Proof.
  intros O P N D. rewrite analyzeHighCurrent_unfold.
  unfold analyse, bind, ret, throw, inWorld, dateNow, prop, JSON_parse,
         setIsApiBlocked, modify, generateContent. cbn [fst snd].
  rewrite O, P. unfold ret. cbn [fst snd].
  assert (G : forall key, exists x, Json.getProp v key = Returned x).
  { intros key. destruct v; try (eexists; reflexivity). congruence. }
  destruct (G "severity") as [x1 ->]. cbn [fst snd].
  destruct (G "possibleCause") as [x2 ->]. cbn [fst snd].
  destruct (G "recommendation") as [x3 ->]. cbn [fst snd].
  unfold create, dbOp. cbn [dbOps now nextId table trace oracleCalls].
  rewrite D. cbn [fst snd table]. unfold interpolate.
  destruct (Json.toStringThrows _); unfold ret, throw; cbn [fst snd table];
    rewrite length_app; cbn; lia.
Qed.

(** X1.  A call of [analyzeHighCurrent] ends in one of three ways.  Either
    it returns the threshold fallback for the clock reading of the call and
    the table is as it was.  Or it has appended exactly one row, under the
    next key, that holds the readings of the input and the result it
    returns, stamped with the clock reading of the call.  Or it has
    appended such a row for a result whose severity cannot be converted to
    a string, and returns the threshold fallback all the same: the log line
    after the insertion throws, and the row stays. *)
Theorem analysis_is_saved_or_falls_back (w : World) :
  exists r,
    fst (analyzeHighCurrent env data w) = Returned r /\
    let w' := snd (analyzeHighCurrent env data w) in
    (r = fallbackResult data (now w) /\ table w' = table w) \/
    (table w' = (table w ++ [savedRow data (nextId w) r])%list /\
     analysisTimestamp r = now w /\
     Json.toStringThrows (severity r) = false) \/
    (r = fallbackResult data (now w) /\
     exists a,
       table w' = (table w ++ [savedRow data (nextId w) a])%list /\
       analysisTimestamp a = now w /\
       Json.toStringThrows (severity a) = true).
Proof.
  destruct (analyzeHighCurrent_cases w) as [r [w' [E C]]].
  exists r. rewrite E. cbn [fst snd]. split; [reflexivity |].
  destruct C as [[F [T _]] | [text [v [a [_ [_ [B [_ [T [_ R]]]]]]]]]].
  - left. auto.
  - right.
    assert (At : analysisTimestamp a = now w).
    { destruct B as [sev [cause [rec [_ [_ [_ ->]]]]]]. reflexivity. }
    destruct (Json.toStringThrows (severity a)) eqn:TS; subst r.
    + right. split; [reflexivity |]. exists a. auto.
    + left. auto.
Qed.

(** X2.  The severity, the cause and the recommendation that a call
    returns are never falsy: an answer of the oracle that leaves one out,
    or gives it as an empty text, zero, false or null, gets the default
    text in its place. *)
Theorem analysis_texts_are_never_empty (w : World) :
  exists r,
    fst (analyzeHighCurrent env data w) = Returned r /\
    Json.truthy (severity r) = true /\
    Json.truthy (possibleCause r) = true /\
    Json.truthy (recommendation r) = true.
Proof.
  assert (F : Json.truthy (severity (fallbackResult data (now w))) = true /\
              Json.truthy (possibleCause (fallbackResult data (now w))) = true /\
              Json.truthy (recommendation (fallbackResult data (now w))) = true).
  { unfold fallbackResult, fallbackSeverity. cbn [severity possibleCause recommendation].
    destruct (currentExceeded data); [destruct (gt _ _) |]; repeat split. }
  destruct (analyzeHighCurrent_cases w) as [r [w' [E C]]].
  exists r. rewrite E. split; [reflexivity |].
  destruct C as [[-> _] | [text [v [a [_ [_ [B [_ [_ [_ ->]]]]]]]]]]; [exact F |].
  destruct (Json.toStringThrows (severity a)); [exact F |].
  destruct B as [sev [cause [rec [_ [_ [_ ->]]]]]].
  cbn [severity possibleCause recommendation].
  repeat split; apply orElse_truthy; reflexivity.
Qed.

End AnalysisOutcome.

(** The third ending is met: when the oracle answers
    [{"severity":{"toString":1}}] the row is saved with that severity, and
    the call returns the threshold fallback. *)
Lemma object_severity_is_saved_behind_the_fallback :
  let call := AgentAI.analyzeHighCurrent objectSeverityEnv reading120 freshWorld in
  fst call = Returned (AgentAI.fallbackResult reading120 1000) /\
  map rowSeverity (table (snd call))
  = [Some (Json.JObject [(Json.unitsOf "toString", Json.JNumber 1 0)])].
Proof. vm_compute. split; reflexivity. Qed.

(* ================================================================== *)
(** ** The threshold fallback at its edges *)

Section FallbackEdges.
Import AgentAI.
Local Open Scope Q_scope.

(** Over a negative threshold the ratio of an exceeding current is below
    one half. *)
Lemma ratio_over_negative_threshold (c T : Q) :
  T < 0 -> T < c -> (c - T) / T <= 1 # 2.
Proof.
  intros Neg Ex. apply Qnot_lt_le. intros H.
  assert (Pos : 0 < - T) by lra.
  apply (Qmult_lt_r _ _ (- T) Pos) in H.
  assert (E : (c - T) / T * - T == - (c - T)).
  { field. intros Z. rewrite Z in Neg. discriminate Neg. }
  rewrite E in H. lra.
Qed.

(** X3.  Two edges of the threshold fallback.  A reading or a threshold
    that is no number never exceeds: the severity is NORMAL.  Over a
    negative threshold an exceeding current is never CRITICAL, however
    large it is: the severity is WARNING. *)
Theorem fallback_severity_at_the_edges (data : TelemetryData) :
  (current data = NaN \/ CURRENT_THRESHOLD data = NaN ->
   fallbackSeverity data = "NORMAL"%string) /\
  (forall c T : Q,
     current data = Finite c -> CURRENT_THRESHOLD data = Finite T ->
     T < 0 -> T < c ->
     fallbackSeverity data = "WARNING"%string).
Proof.
  split.
  - unfold fallbackSeverity, currentExceeded. intros [-> | ->].
    + reflexivity.
    + destruct (current data); reflexivity.
  - intros c T Hc HT Neg Ex. unfold fallbackSeverity, currentExceeded.
    rewrite Hc, HT. cbn [gt sub div].
    apply Qgtb_true_iff in Ex. rewrite Ex.
    destruct (Qeq_bool T 0) eqn:Z.
    + apply Qeq_bool_iff in Z. rewrite Z in Neg. discriminate Neg.
    + cbn [gt]. apply Qgtb_true_iff in Ex.
      pose proof (ratio_over_negative_threshold c T Neg Ex) as R.
      apply Qgtb_false_iff in R. now rewrite R.
Qed.

End FallbackEdges.
(* ================================================================== *)
(** ** The telemetry route: what the oracle can and cannot do to it *)

Section RouteAndOracle.
Import AgentAI App.

Variable env : Env.

Lemma dbOp_returns {A : Type} (run : World -> A * nat * list Row * list Event)
  (w : World) :
  dbFault env (dbOps w) = None -> returns (fst (dbOp env run w)) = true.
Proof.
  intros H. unfold dbOp. rewrite H. destruct (run w) as [[[a n] rows] events].
  reflexivity.
Qed.

Lemma dbOp_oracleCalls {A : Type} (run : World -> A * nat * list Row * list Event)
  (w : World) :
  oracleCalls (snd (dbOp env run w)) = oracleCalls w.
Proof. apply dbOp_counts. Qed.

(** The loop body returns unless its update is rejected, and it calls the
    oracle once for a row above the threshold and not at all otherwise. *)
Lemma analyseRow_calls (row : Row) (w : World) :
  oracleCalls (snd (analyseRow env row w))
  = (oracleCalls w + if gt (rowCurrent row) CURRENT_THRESHOLD then 1 else 0)%nat /\
  ((forall n, dbFault env n = None) ->
   returns (fst (analyseRow env row w)) = true).
Proof.
  unfold analyseRow. destruct (gt (rowCurrent row) CURRENT_THRESHOLD).
  - unfold bind.
    destruct (analyzeHighCurrent_effect env (telemetryOf row) w) as [a [ev [R _]]].
    destruct (analyzeHighCurrent_calls_oracle env (telemetryOf row) w) as [C _].
    destruct (analyzeHighCurrent env (telemetryOf row) w) as [o w1].
    cbn [fst snd] in *. subst o. unfold update. split.
    + rewrite dbOp_oracleCalls. lia.
    + intros H. apply dbOp_returns, H.
  - split; [cbn; lia | reflexivity].
Qed.

Lemma forEach_calls (rows : list Row) :
  forall w,
    (returns (fst (forEach rows (analyseRow env) w)) = true ->
     oracleCalls (snd (forEach rows (analyseRow env) w))
     = (oracleCalls w + List.length (exceeding rows))%nat) /\
    ((forall n, dbFault env n = None) ->
     returns (fst (forEach rows (analyseRow env) w)) = true).
Proof.
  induction rows as [| x rows IH]; intros w.
  - split; [cbn; intros; lia | reflexivity].
  - cbn [forEach exceeding filter]. unfold bind.
    destruct (analyseRow_calls x w) as [C R].
    destruct (analyseRow env x w) as [[[] | e] w1]; cbn [fst snd] in *.
    + destruct (IH w1) as [C1 R1]. split.
      * intros H. rewrite (C1 H), C.
        fold (exceeding rows).
        destruct (gt (rowCurrent x) CURRENT_THRESHOLD); cbn [List.length]; lia.
      * exact R1.
    + split; [intros F; discriminate F |].
      intros H. specialize (R H). discriminate R.
Qed.

Lemma numberRows_exceeding (batch : list TelemetryRecord) (next : nat) :
  List.length (exceeding (numberRows next batch))
  = List.length (filter (fun d => gt (recCurrent d) CURRENT_THRESHOLD) batch).
Proof.
  revert next. induction batch as [| d batch IH]; intros next; [reflexivity |].
  cbn [numberRows exceeding filter]. cbn [rawRow rowCurrent].
  fold (exceeding (numberRows (S next) batch)).
  destruct (gt (recCurrent d) CURRENT_THRESHOLD); cbn [List.length];
    now rewrite IH.
Qed.

(** X4.  The oracle cannot fail an ingestion: when no database operation
    is rejected the route answers 200, whatever the oracle does. *)
Theorem ingest_succeeds_when_the_database_works
  (batch : list TelemetryRecord) (w : World) :
  (forall n, dbFault env n = None) ->
  fst (postTelemetry env batch w) = Status200 "Data stored successfully.".
Proof.
  intros H. unfold postTelemetry, bind.
  pose proof (dbOp_returns (A := list Row)) as B.
  unfold bulkCreate.
  match goal with |- context [dbOp env ?f w] =>
    specialize (B f w (H _)); destruct (dbOp env f w) as [[rows | e] w1] end;
    [| discriminate B].
  destruct (forEach_calls rows w1) as [_ R]. specialize (R H).
  destruct (forEach rows (analyseRow env) w1) as [[[] | e] w2]; [| discriminate R].
  pose proof (dbOp_returns (A := unit)) as F. unfold findAll.
  match goal with |- context [dbOp env ?f w2] =>
    specialize (F f w2 (H _)); destruct (dbOp env f w2) as [[[] | e] w3] end;
    [reflexivity | discriminate F].
Qed.

(** X5.  A request answered 200 has called the oracle exactly once for each
    record of the batch whose current is above the threshold, and for no
    other. *)
Theorem ingest_calls_oracle_once_per_exceeding_record
  (batch : list TelemetryRecord) (w : World) (m : string) :
  fst (postTelemetry env batch w) = Status200 m ->
  oracleCalls (snd (postTelemetry env batch w))
  = (oracleCalls w
     + List.length (filter (fun d => gt (recCurrent d) CURRENT_THRESHOLD) batch))%nat.
Proof.
  unfold postTelemetry, bind, bulkCreate.
  match goal with |- context [dbOp env ?f w] =>
    pose proof (dbOp_oracleCalls f w) as C0;
    pose proof (dbOp_spec env f w) as D;
    destruct (dbOp env f w) as [[rows | e] w1] end;
    cbn [fst snd] in *; [| discriminate].
  assert (Rows : rows = numberRows (nextId w) batch).
  { destruct (dbFault env (dbOps w)); destruct D as [D _]; [discriminate D |].
    cbn in D. now inversion D. }
  destruct (forEach_calls rows w1) as [C1 _].
  destruct (forEach rows (analyseRow env) w1) as [[[] | e] w2];
    cbn [fst snd] in *; [| discriminate].
  unfold findAll.
  match goal with |- context [dbOp env ?f w2] =>
    pose proof (dbOp_oracleCalls f w2) as C2;
    destruct (dbOp env f w2) as [[[] | e] w3] end;
    cbn [fst snd] in *; [| discriminate].
  intros _. rewrite C2, (C1 eq_refl), C0, Rows. f_equal.
  apply numberRows_exceeding.
Qed.






(** The loop body rewrites analysis columns only under the key of its row,
    and only when that row is above the threshold. *)
Lemma analyseRow_updates (row : Row) (w : World) :
  exists events,
    effect w (snd (analyseRow env row w)) events /\
    incl (updatedIds events)
         (if gt (rowCurrent row) CURRENT_THRESHOLD then [rowId row] else []).
Proof.
  destruct (gt (rowCurrent row) CURRENT_THRESHOLD) eqn:X.
  - destruct (analyseRow_effect env row w) as [ev [E [C _]]].
    exists ev. split; [exact E |]. clear E.
    induction C as [| e evs A _ IH]; [intros i [] |].
    destruct A as [[-> _] | [[id ->] | ->]]; cbn; try exact IH.
    intros i [<- | H]; [now left | now apply IH].
  - unfold analyseRow. rewrite X. exists [].
    split; [now apply effect_refl | intros i []].
Qed.

(** The loop rewrites analysis columns only under the keys of rows above
    the threshold, however it ends. *)
Lemma forEach_updates (rows : list Row) :
  forall w,
  exists events,
    effect w (snd (forEach rows (analyseRow env) w)) events /\
    incl (updatedIds events) (map rowId (exceeding rows)).
Proof.
  induction rows as [| x rows IH]; intros w.
  - exists []. split; [now apply effect_refl | intros i []].
  - cbn [forEach exceeding filter]. fold (exceeding rows). unfold bind.
    destruct (analyseRow_updates x w) as [ev1 [E1 U1]].
    destruct (analyseRow env x w) as [[[] | e] w1]; cbn [fst snd] in *.
    + destruct (IH w1) as [ev2 [E2 U2]].
      exists (ev1 ++ ev2)%list.
      split; [exact (effect_trans _ _ _ _ _ E1 E2) |].
      rewrite updatedIds_app. intros i H. apply in_app_or in H.
      destruct (gt (rowCurrent x) CURRENT_THRESHOLD); cbn [map];
        destruct H as [H | H].
      * apply U1 in H. destruct H as [<- | []]. now left.
      * right. now apply U2.
      * destruct (U1 i H).
      * now apply U2.
    + exists ev1. split; [exact E1 |]. intros i H. apply U1 in H.
      destruct (gt (rowCurrent x) CURRENT_THRESHOLD); [| destruct H].
      destruct H as [<- | []]. now left.
Qed.

Lemma exceeding_incl (rows : list Row) (r : Row) :
  In r (exceeding rows) ->
  In r rows /\ gt (rowCurrent r) CURRENT_THRESHOLD = true.
Proof. unfold exceeding. apply filter_In. Qed.

Lemma NoDup_rowId (rows : list Row) (r r' : Row) :
  NoDup (map rowId rows) -> In r rows -> In r' rows -> rowId r = rowId r' ->
  r = r'.
Proof.
  induction rows as [| x rows IH]; [intros _ [] |].
  cbn [map]. intros ND. inversion ND as [| ? ? Fresh ND']. subst.
  intros [-> | H] [-> | H'] E.
  - reflexivity.
  - exfalso. apply Fresh. rewrite E. now apply in_map.
  - exfalso. apply Fresh. rewrite <- E. now apply in_map.
  - now apply IH.
Qed.

(** X7.  A record whose current is not above the threshold, a missing
    current included, is never analysed: once the batch is inserted, the
    row stored for it keeps its analysis columns unset, whether the request
    ends with 200 or with 500. *)
Theorem records_within_threshold_stay_unanalysed
  (batch : list TelemetryRecord) (w : World) (r : Row) :
  dbFault env (dbOps w) = None ->
  In r (numberRows (nextId w) batch) ->
  gt (rowCurrent r) CURRENT_THRESHOLD = false ->
  exists r',
    In r' (table (snd (postTelemetry env batch w))) /\
    readings r' = readings r /\
    analysisColumns r' = (None, None, None, None).
Proof.
  intros D I X. unfold postTelemetry, bind, bulkCreate.
  match goal with |- context [dbOp env ?f w] =>
    pose proof (dbOp_spec env f w) as B end.
  rewrite D in B. destruct B as [F [_ R]]. cbn [fst snd] in F, R.
  destruct (dbOp env _ w) as [o w1]. cbn [fst snd] in F, R. subst o.
  set (rows := numberRows (nextId w) batch) in *.
  assert (ND : NoDup (map rowId rows)).
  { unfold rows. rewrite numberRows_keys. apply seq_NoDup. }
  assert (Raw : analysisColumns r = (None, None, None, None)).
  { clear - I. unfold rows in I. revert I. generalize (nextId w).
    induction batch as [| d ds IH]; intros n; [intros [] |].
    cbn [numberRows]. intros [<- | H]; [reflexivity | exact (IH _ H)]. }
  destruct (forEach_updates rows w1) as [ev2 [[_ K2] U2]].
  assert (Skip : ~ In (rowId r) (updatedIds ev2)).
  { intros H. apply U2 in H. apply in_map_iff in H.
    destruct H as [r0 [E H]]. apply exceeding_incl in H. destruct H as [H Y].
    assert (r0 = r) by (apply (NoDup_rowId rows); assumption).
    subst r0. congruence. }
  assert (In1 : In r (table w1)) by (rewrite R; apply in_or_app; now right).
  destruct (K2 r In1) as [r2 [H2 [R2 A2]]]. specialize (A2 Skip).
  destruct (forEach rows (analyseRow env) w1) as [[[] | e] w2]; cbn [fst snd] in *.
  - destruct (findAll_effect env w2) as [ev3 [[_ K3] C3]].
    rewrite (read_not_updated _ C3) in K3.
    destruct (K3 r2 H2) as [r3 [H3 [R3 A3]]].
    exists r3. split.
    + destruct (findAll env w2) as [[[] | e] w3]; exact H3.
    + split; [congruence |]. rewrite A3 by (intros []). congruence.
  - exists r2. split; [exact H2 |]. split; [exact R2 | congruence].
Qed.

(** With a database that works and an oracle whose answers parse to values
    other than [null], the loop adds one row for each row above the
    threshold. *)
Lemma forEach_grows (rows : list Row) :
  (forall n, dbFault env n = None) ->
  (forall n, exists text v,
     oracle env n = Responds text /\
     Json.parse (cleanResponse text) = Some v /\ v <> Json.JNull) ->
  forall w,
    List.length (table (snd (forEach rows (analyseRow env) w)))
    = (List.length (table w) + List.length (exceeding rows))%nat /\
    returns (fst (forEach rows (analyseRow env) w)) = true.
Proof.
  intros D O. induction rows as [| x rows IH]; intros w.
  - split; [cbn; lia | reflexivity].
  - cbn [forEach exceeding filter]. fold (exceeding rows). unfold bind.
    assert (A : List.length (table (snd (analyseRow env x w)))
                = (List.length (table w)
                   + if gt (rowCurrent x) CURRENT_THRESHOLD then 1 else 0)%nat /\
                returns (fst (analyseRow env x w)) = true).
    { unfold analyseRow. destruct (gt (rowCurrent x) CURRENT_THRESHOLD);
        [| split; [cbn; lia | reflexivity]].
      unfold bind. destruct (O (oracleCalls w)) as [text [v [O1 [P N]]]].
      pose proof (analyzeHighCurrent_saves env (telemetryOf x) w text v
                    O1 P N (D _)) as S.
      pose proof (analyzeHighCurrent_returns env (telemetryOf x) w) as R.
      destruct (analyzeHighCurrent env (telemetryOf x) w) as [[a | e] w1];
        [| discriminate R]. cbn [fst snd] in S.
      unfold update.
      match goal with |- context [dbOp env ?f w1] =>
        pose proof (dbOp_spec env f w1) as U end.
      rewrite (D (dbOps w1)) in U. destruct U as [U1 [_ U2]].
      cbn [fst snd] in U2. rewrite U2, U1, length_map, S. split; [lia | reflexivity]. }
    destruct A as [A R].
    destruct (analyseRow env x w) as [[[] | e] w1]; cbn [fst snd] in *;
      [| discriminate R].
    destruct (IH w1) as [L R1]. split; [| exact R1]. rewrite L, A.
    destruct (gt (rowCurrent x) CURRENT_THRESHOLD); cbn [List.length]; lia.
Qed.

Lemma numberRows_length (batch : list TelemetryRecord) (next : nat) :
  List.length (numberRows next batch) = List.length batch.
Proof.
  rewrite <- (length_map rowId), numberRows_keys. apply length_seq.
Qed.

(** X8.  When the database works and every answer of the oracle parses to
    a value other than [null], each record above the threshold is stored
    twice: once by the insertion of the batch and once more by
    [analyzeHighCurrent], so the table grows by the batch and by one more
    row for each such record. *)
Theorem analysed_records_are_stored_twice
  (batch : list TelemetryRecord) (w : World) :
  (forall n, dbFault env n = None) ->
  (forall n, exists text v,
     oracle env n = Responds text /\
     Json.parse (cleanResponse text) = Some v /\ v <> Json.JNull) ->
  List.length (table (snd (postTelemetry env batch w)))
  = (List.length (table w) + List.length batch
     + List.length (filter (fun d => gt (recCurrent d) CURRENT_THRESHOLD) batch))%nat.
Proof.
  intros D O. unfold postTelemetry, bind, bulkCreate.
  match goal with |- context [dbOp env ?f w] =>
    pose proof (dbOp_spec env f w) as B end.
  rewrite (D (dbOps w)) in B. destruct B as [F [_ R]]. cbn [fst snd] in F, R.
  destruct (dbOp env _ w) as [o w1]. cbn [fst snd] in F, R. subst o.
  destruct (forEach_grows (numberRows (nextId w) batch) D O w1) as [L Ret].
  destruct (forEach (numberRows (nextId w) batch) (analyseRow env) w1)
    as [[[] | e] w2]; cbn [fst snd] in *; [| discriminate Ret].
  unfold findAll.
  match goal with |- context [dbOp env ?f w2] =>
    pose proof (dbOp_spec env f w2) as C end.
  rewrite (D (dbOps w2)) in C. destruct C as [C1 [_ C2]]. cbn [fst snd] in C1, C2.
  destruct (dbOp env _ w2) as [o w3]. cbn [fst snd] in C1, C2. subst o.
  cbn [snd]. rewrite C2, L, R, length_app, numberRows_exceeding.
  rewrite numberRows_length. lia.
Qed.

End RouteAndOracle.

(** The route on the batch of two records with an oracle that rejects every
    call: the request is answered 200. *)
Lemma ingest_succeeds_when_the_database_works_witness :
  fst (App.postTelemetry rateLimitedEnv sampleBatch freshWorld)
  = App.Status200 "Data stored successfully.".
Proof.
  apply (ingest_succeeds_when_the_database_works rateLimitedEnv sampleBatch
           freshWorld).
  intros n. reflexivity.
Defined.

(** The batch of two records has one record above the threshold, and the
    request calls the oracle once. *)
Lemma ingest_calls_oracle_once_per_exceeding_record_witness :
  oracleCalls (snd (App.postTelemetry severityHighEnv sampleBatch freshWorld))
  = 1%nat.
Proof.
  apply (ingest_calls_oracle_once_per_exceeding_record severityHighEnv
           sampleBatch freshWorld "Data stored successfully.").
  vm_compute. reflexivity.
Defined.


(** The second record of the batch has no current; the row stored for it
    keeps its analysis columns unset. *)
Lemma records_within_threshold_stay_unanalysed_witness :
  exists r',
    In r' (table (snd (App.postTelemetry severityHighEnv sampleBatch freshWorld))) /\
    readings r' = readings (App.rawRow 2 (nth 1 sampleBatch
                              (App.mkTelemetryRecord "" "" NaN NaN NaN NaN))) /\
    analysisColumns r' = (None, None, None, None).
Proof.
  apply (records_within_threshold_stay_unanalysed severityHighEnv sampleBatch
           freshWorld).
  - reflexivity.
  - right. left. reflexivity.
  - reflexivity.
Defined.

(** The batch of two records, one of them above the threshold, leaves three
    rows in an empty table. *)
Lemma analysed_records_are_stored_twice_witness :
  List.length (table (snd (App.postTelemetry severityHighEnv sampleBatch
                             freshWorld))) = 3%nat.
Proof.
  apply (analysed_records_are_stored_twice severityHighEnv sampleBatch freshWorld).
  - intros n. reflexivity.
  - intros n. exists severityHighText.
    exists (Json.JObject [(Json.unitsOf "severity", Json.str "HIGH")]).
    split; [reflexivity |]. split; [vm_compute; reflexivity | discriminate].
Defined.
(* ================================================================== *)
(** ** Fence stripping, continued *)

Section Cleaning.
Import JsString JsonAgent.

Lemma trimEnd_head (y : string) (c : ascii) (r : string) :
  trimEnd y = String c r -> exists y', y = String c y'.
Proof.
  destruct y as [| a y]; [discriminate |]. cbn [trimEnd].
  destruct (trimEnd y); [destruct (isWhiteSpace a); [discriminate |] |];
    intros [= -> _]; eauto.
Qed.

Lemma trimEnd_idem (y : string) : trimEnd (trimEnd y) = trimEnd y.
Proof.
  induction y as [| a y IH]; [reflexivity |]. cbn [trimEnd].
  destruct (trimEnd y) as [| b d] eqn:D.
  - destruct (isWhiteSpace a) eqn:J; [reflexivity |]. cbn [trimEnd]. now rewrite J.
  - cbn [trimEnd] in *. now rewrite IH.
Qed.

Lemma trimStart_fixed (s : string) : trimStart (trimStart s) = trimStart s.
Proof.
  induction s as [| a s IH]; [reflexivity |]. cbn [trimStart].
  destruct (isWhiteSpace a) eqn:J; [exact IH |]. cbn [trimStart]. now rewrite J.
Qed.

Lemma trimStart_trimEnd (y : string) :
  trimStart y = y -> trimStart (trimEnd y) = trimEnd y.
Proof.
  intros H. destruct (trimEnd y) as [| c r] eqn:D; [reflexivity |].
  destruct (trimEnd_head y c r D) as [y' ->].
  cbn [trimStart]. rewrite (trimStart_head _ _ _ H). reflexivity.
Qed.

Lemma trim_idem (s : string) : trim (trim s) = trim s.
Proof.
  unfold trim. rewrite trimStart_trimEnd by apply trimStart_fixed.
  apply trimEnd_idem.
Qed.

Lemma trimEnd_is_prefix (s : string) : exists t, s = trimEnd s ++ t.
Proof.
  induction s as [| a s [t IH]]; [now exists "" |]. cbn [trimEnd].
  destruct (trimEnd s) as [| b d].
  - destruct (isWhiteSpace a).
    + exists (String a s). reflexivity.
    + exists t. cbn [append] in *. now rewrite <- IH.
  - exists t. cbn [append] in *. now rewrite <- IH.
Qed.

Lemma prefix_app (a b t : string) :
  prefix a b = true -> prefix a (b ++ t) = true.
Proof.
  revert b. induction a as [| x a IH]; intros b.
  - intros _. now destruct (b ++ t).
  - destruct b as [| y b]; [discriminate |]. cbn [prefix append].
    destruct (ascii_dec x y); [apply IH | discriminate].
Qed.

Lemma includes_app_false (a t sub : string) :
  includes (a ++ t) sub = false -> includes a sub = false.
Proof.
  induction a as [| x a IH].
  - cbn [append]. intros H. cbn [includes]. rewrite orb_false_r.
    destruct sub as [| y sub]; [| reflexivity].
    destruct t; discriminate H.
  - change (String x a ++ t) with (String x (a ++ t)). cbn [includes].
    intros H. apply orb_false_elim in H. destruct H as [P I].
    rewrite (IH I), orb_false_r.
    destruct (prefix sub (String x a)) eqn:Q; [| reflexivity].
    apply (prefix_app _ _ t) in Q. cbn [append] in Q. congruence.
Qed.

Lemma includes_trimEnd (s sub : string) :
  includes s sub = false -> includes (trimEnd s) sub = false.
Proof.
  destruct (trimEnd_is_prefix s) as [t E]. intros H. rewrite E in H.
  exact (includes_app_false _ _ _ H).
Qed.

Lemma includes_trim (s sub : string) :
  includes s sub = false -> includes (trim s) sub = false.
Proof. intros H. apply includes_trimEnd, includes_trimStart, H. Qed.

(** Text without a fence marker passes both [replace] calls unchanged. *)
Lemma stripAll_fence_free (m s : string) :
  prefix fence m = true -> includes s fence = false -> stripAll m 0 false s = s.
Proof.
  intros M. induction s as [| x s IH]; [reflexivity |].
  intros H. apply includes_tail in H. destruct H as [P I].
  cbn [stripAll andb].
  destruct (prefix m (String x s)) eqn:Q.
  - apply (prefix_trans _ _ _ M) in Q. congruence.
  - now rewrite (IH I).
Qed.

Lemma stripAllNl_fence_free (m s : string) :
  prefix fence m = true -> includes s fence = false -> stripAllNl m 0 false s = s.
Proof.
  intros M. induction s as [| x s IH]; [reflexivity |].
  intros H. apply includes_tail in H. destruct H as [P I].
  cbn [stripAllNl andb].
  destruct (prefix m (String x s)) eqn:Q.
  - apply (prefix_trans _ _ _ M) in Q. congruence.
  - now rewrite (IH I).
Qed.

Lemma dropFinalFence_fence_free (s : string) :
  includes s fence = false -> dropFinalFence s = s.
Proof.
  induction s as [| x s IH]; [reflexivity |].
  intros H. pose proof H as H0. apply includes_tail in H. destruct H as [P I].
  cbn [dropFinalFence].
  destruct (String.eqb (String x s) fence) eqn:E1.
  - apply String.eqb_eq in E1. rewrite E1 in P. discriminate P.
  - destruct (String.eqb (String x s) (fence ++ String "010"%char "")) eqn:E2.
    + apply String.eqb_eq in E2. rewrite E2 in P. discriminate P.
    + cbn [orb]. now rewrite (IH I).
Qed.

(** X9.  An answer that holds no fence marker is only trimmed, by the
    cleaning of [analyzeHighCurrent] and by that of the JSON-oriented agent
    alike. *)
Theorem fence_free_answer_is_only_trimmed (text : string) :
  includes text fence = false ->
  AgentAI.cleanResponse text = trim text /\ cleanContent text = trim text.
Proof.
  intros H. split.
  - unfold AgentAI.cleanResponse, replaceJsonFence, replaceFence. cbv zeta.
    pose proof (includes_trim text fence H) as T.
    rewrite (stripAll_fence_free fenceJson) by (reflexivity || exact T).
    rewrite (stripAll_fence_free fence) by (reflexivity || exact T).
    apply trim_idem.
  - unfold cleanContent.
    rewrite (stripAllNl_fence_free fenceJson) by (reflexivity || exact H).
    now rewrite dropFinalFence_fence_free.
Qed.

(** What [replace(/```\s*/g, '')] leaves never starts with a fence marker
    when its input does not. *)
Lemma replaceFence_head (s : string) :
  prefix fence s = false -> prefix fence (stripAll fence 0 false s) = false.
Proof.
  unfold fence.
  destruct s as [| a [| b [| c s]]]; cbn [stripAll andb prefix];
    repeat match goal with
           | |- context [ascii_dec ?x ?y] => destruct (ascii_dec x y); subst
           end; cbn [stripAll andb prefix String.length Nat.sub]; try reflexivity;
    try discriminate;
    repeat match goal with
           | |- context [ascii_dec ?x ?y] => destruct (ascii_dec x y); subst
           end; try reflexivity; try discriminate; try congruence.
  destruct s; discriminate.
Qed.

Lemma prefix_fence_inv (s : string) :
  prefix fence s = true -> exists r, s = fence ++ r.
Proof.
  unfold fence. destruct s as [| a [| b [| c s]]]; cbn [prefix];
    repeat match goal with
           | |- context [ascii_dec ?x ?y] => destruct (ascii_dec x y); subst
           end; try discriminate.
  intros _. exists s. reflexivity.
Qed.

Lemma trimStart_length (s : string) :
  (String.length (trimStart s) <= String.length s)%nat.
Proof.
  induction s as [| a s IH]; [cbn; lia |]. cbn [trimStart].
  destruct (isWhiteSpace a); cbn [String.length]; lia.
Qed.

(** What [replace(/```\s*/g, '')] returns holds no fence marker. *)
Lemma replaceFence_fence_free (s : string) :
  includes (replaceFence s) fence = false.
Proof.
  unfold replaceFence.
  assert (G : forall n s, (String.length s <= n)%nat ->
                includes (stripAll fence 0 false s) fence = false).
  { clear s. induction n as [| n IH]; intros s L.
    - destruct s; [reflexivity | cbn in L; lia].
    - destruct s as [| c s']; [reflexivity |].
      destruct (prefix fence (String c s')) eqn:P.
      + destruct (prefix_fence_inv _ P) as [r E].
        cbn [stripAll andb]. rewrite P.
        injection E as -> ->. cbn [stripAll String.length Nat.sub fence append].
        rewrite stripAll_after_match. apply IH.
        pose proof (trimStart_length r). cbn in L. lia.
      + pose proof (replaceFence_head _ P) as H.
        cbn [stripAll andb] in *. rewrite P in *.
        cbn [includes]. rewrite H. cbn [orb]. apply IH. cbn in L. lia. }
  apply (G (String.length s)). lia.
Qed.

(** X10.  Whatever the oracle answers, the text that [analyzeHighCurrent]
    hands to [JSON.parse] holds no fence marker. *)
Theorem cleaned_response_holds_no_fence (text : string) :
  includes (AgentAI.cleanResponse text) fence = false.
Proof.
  unfold AgentAI.cleanResponse. cbv zeta.
  apply includes_trim, replaceFence_fence_free.
Qed.

End Cleaning.

(** The answer [{"severity":"HIGH"}] with blanks around it holds no fence
    marker: both cleaners return it trimmed. *)
Lemma fence_free_answer_is_only_trimmed_witness :
  AgentAI.cleanResponse paddedHighText = JsString.trim paddedHighText /\
  JsonAgent.cleanContent paddedHighText = JsString.trim paddedHighText.
Proof.
  apply (fence_free_answer_is_only_trimmed paddedHighText).
  vm_compute. reflexivity.
Defined.
(* ================================================================== *)
(** ** The earlier analysis and the earlier route *)

Section EarlierVersions.
Import JsString.

Variable env : Env.

Lemma parseValue_backtick (fuel : nat) (r : string) :
  Json.parseValue fuel (String backtick r) = None.
Proof. destruct fuel; reflexivity. Qed.

(** A text that begins with a fence marker is no JSON text. *)
Lemma fence_is_no_json (text : string) :
  prefix fence text = true -> Json.parse text = None.
Proof.
  intros H. apply prefix_fence_inv in H. destruct H as [r ->].
  unfold Json.parse. cbv zeta. cbn [fence append Json.skipWs Json.isJsonWs backtick].
  destruct (Json.dropWsEnd _) as [| c d] eqn:D.
  - destruct (_ + _)%nat; reflexivity.
  - apply dropWsEnd_head in D. destruct D as [y [= <- _]].
    now rewrite (parseValue_backtick _ d).
Qed.

(** X11.  The earlier [analyzeHighCurrent] cannot read an answer that begins
    with a fence marker: whatever stands inside the fence, it returns the
    parse-error object. *)
Theorem earlier_version_cannot_read_fenced_answers
  (data : TelemetryData) (w : World) (text : string) :
  oracle env (oracleCalls w) = Responds text ->
  prefix fence text = true ->
  fst (Legacy.analyzeHighCurrent env data w) = Returned Legacy.parseErrorResult.
Proof.
  intros O F. unfold Legacy.analyzeHighCurrent, bind, generateContent.
  rewrite O. unfold tryCatch, AgentAI.JSON_parse.
  now rewrite (fence_is_no_json text F).
Qed.

Lemma legacy_analyze_spec (data : TelemetryData) (w : World) :
  table (snd (Legacy.analyzeHighCurrent env data w)) = table w /\
  dbOps (snd (Legacy.analyzeHighCurrent env data w)) = dbOps w /\
  oracleCalls (snd (Legacy.analyzeHighCurrent env data w)) = S (oracleCalls w) /\
  match oracle env (oracleCalls w) with
  | Responds _ => returns (fst (Legacy.analyzeHighCurrent env data w)) = true
  | Fails e => fst (Legacy.analyzeHighCurrent env data w) = Thrown e
  end.
Proof.
  unfold Legacy.analyzeHighCurrent, bind, generateContent, tryCatch,
    AgentAI.JSON_parse.
  destruct (oracle env (oracleCalls w)) as [text | e]; [| repeat split].
  destruct (Json.parse text); repeat split.
Qed.

(** One turn of the earlier loop. *)
Lemma legacy_turn (x : option App.TelemetryRecord) (w : World) :
  let r := Legacy.analyseRecord env x w in
  table (snd r) = table w /\ dbOps (snd r) = dbOps w /\
  (oracleCalls w <= oracleCalls (snd r))%nat /\
  (forall e, fst r = Thrown e ->
     (exists n, (oracleCalls w <= n < oracleCalls (snd r))%nat /\
                oracle env n = Fails e) \/
     (x = None /\ e = Legacy.nullElement /\ oracleCalls (snd r) = oracleCalls w)).
Proof.
  cbv zeta. unfold Legacy.analyseRecord.
  destruct x as [d |].
  - destruct (gt (App.recCurrent d) Legacy.CURRENT_THRESHOLD);
      [| repeat split; try apply Nat.le_refl; discriminate].
    unfold bind, ret.
    destruct (legacy_analyze_spec (Legacy.telemetryOf d) w) as [T [D [C O]]].
    destruct (Legacy.analyzeHighCurrent env (Legacy.telemetryOf d) w)
      as [[v | e0] w1]; cbn [fst snd] in *.
    + repeat split; try assumption; [lia | discriminate].
    + repeat split; try assumption; [lia |]. intros e [= <-]. left.
      destruct (oracle env (oracleCalls w)) as [text | e1] eqn:Q;
        [discriminate O |]. injection O as <-.
      exists (oracleCalls w). split; [lia | exact Q].
  - unfold throw. cbn [fst snd]. repeat split; try apply Nat.le_refl.
    intros e [= <-]. right. auto.
Qed.

Lemma legacy_loop (batch : list (option App.TelemetryRecord)) :
  forall w,
    let r := forEach batch (Legacy.analyseRecord env) w in
    table (snd r) = table w /\ dbOps (snd r) = dbOps w /\
    (oracleCalls w <= oracleCalls (snd r))%nat /\
    (forall e, fst r = Thrown e ->
       (exists n, (oracleCalls w <= n < oracleCalls (snd r))%nat /\
                  oracle env n = Fails e) \/
       (In None batch /\ e = Legacy.nullElement)).
Proof.
  induction batch as [| x batch IH]; intros w; cbv zeta.
  - repeat split; try apply Nat.le_refl. discriminate.
  - cbn [forEach]. unfold bind.
    destruct (legacy_turn x w) as [T [D [C E]]].
    destruct (Legacy.analyseRecord env x w) as [[[] | e0] w1]; cbn [fst snd] in *.
    + destruct (IH w1) as [T1 [D1 [C1 E1]]]. cbv zeta in *.
      repeat split; try congruence; [lia |].
      intros e H. destruct (E1 e H) as [[n [B O]] | [I ->]].
      * left. exists n. split; [lia | exact O].
      * right. split; [now right | reflexivity].
    + repeat split; try assumption.
      intros e [= <-]. destruct (E e0 eq_refl) as [A | [-> [-> _]]].
      * left. exact A.
      * right. split; [now left | reflexivity].
Qed.

(** Records that are not above the threshold pass without a trace. *)
Lemma legacy_skips (pre : list App.TelemetryRecord)
  (rest : list (option App.TelemetryRecord)) (w : World) :
  (forall d, In d pre -> gt (App.recCurrent d) Legacy.CURRENT_THRESHOLD = false) ->
  forEach (map Some pre ++ rest) (Legacy.analyseRecord env) w
  = forEach rest (Legacy.analyseRecord env) w.
Proof.
  induction pre as [| d pre IH]; intros H; [reflexivity |].
  cbn [map app forEach]. unfold bind at 1. unfold Legacy.analyseRecord at 1.
  rewrite (H d (or_introl eq_refl)). unfold ret at 1.
  apply IH. intros d0 I. apply H. now right.
Qed.

(** X12.  The earlier route, run with the earlier [analyzeHighCurrent],
    never touches the database.  A 500 that it answers carries a rejection
    of the oracle, or the [TypeError] of a body that is no array, raised
    before any call of the oracle, or the [TypeError] of a [null] element
    of the batch.  A rejection of the oracle for the first record above
    the threshold is a 500 with that rejection; a [null] element that no
    record above the threshold precedes is a 500 without any call of the
    oracle. *)
Theorem earlier_route_fails_with_the_oracle_or_the_body
  (body : Legacy.Body) (w : World) :
  let resp := fst (Legacy.postTelemetry env body w) in
  let w' := snd (Legacy.postTelemetry env body w) in
  table w' = table w /\
  dbOps w' = dbOps w /\
  (forall e, resp = App.Status500 e ->
     (exists n, (oracleCalls w <= n < oracleCalls w')%nat /\
                oracle env n = Fails e) \/
     (body = Legacy.NoArray /\ e = Legacy.notIterable /\
      oracleCalls w' = oracleCalls w) \/
     (exists elements, body = Legacy.Batch elements /\ In None elements /\
                       e = Legacy.nullElement)) /\
  (forall pre d post e,
     body = Legacy.Batch (map Some pre ++ Some d :: post) ->
     (forall d0, In d0 pre ->
        gt (App.recCurrent d0) Legacy.CURRENT_THRESHOLD = false) ->
     gt (App.recCurrent d) Legacy.CURRENT_THRESHOLD = true ->
     oracle env (oracleCalls w) = Fails e ->
     resp = App.Status500 e /\ oracleCalls w' = S (oracleCalls w)) /\
  (forall pre post,
     body = Legacy.Batch (map Some pre ++ None :: post) ->
     (forall d0, In d0 pre ->
        gt (App.recCurrent d0) Legacy.CURRENT_THRESHOLD = false) ->
     resp = App.Status500 Legacy.nullElement /\ oracleCalls w' = oracleCalls w).
Proof.
  cbv zeta. unfold Legacy.postTelemetry.
  destruct body as [| elements].
  - unfold throw. cbn [fst snd]. repeat split; try discriminate.
    intros e [= <-]. right. left. auto.
  - destruct (legacy_loop elements w) as [T [D [C E]]]. cbv zeta in *.
    split; [| split; [| split; [| split]]].
    + destruct (forEach elements (Legacy.analyseRecord env) w) as [[[] | e0] w1];
        exact T.
    + destruct (forEach elements (Legacy.analyseRecord env) w) as [[[] | e0] w1];
        exact D.
    + destruct (forEach elements (Legacy.analyseRecord env) w) as [[[] | e0] w1];
        cbn [fst snd] in *; intros e; [discriminate |].
      intros [= <-]. destruct (E e0 eq_refl) as [A | [I ->]].
      * left. exact A.
      * right. right. exists elements. auto.
    + intros pre d post e [= ->] Low High O.
      clear T D C E. rewrite (legacy_skips pre _ w Low). cbn [forEach].
      unfold bind.
      change (Legacy.analyseRecord env (Some d) w)
        with ((if gt (App.recCurrent d) Legacy.CURRENT_THRESHOLD
               then Legacy.analyzeHighCurrent env (Legacy.telemetryOf d) ;;; ret tt
               else ret tt) w).
      rewrite High. unfold bind.
      destruct (legacy_analyze_spec (Legacy.telemetryOf d) w) as [_ [_ [Calls F]]].
      rewrite O in F.
      destruct (Legacy.analyzeHighCurrent env (Legacy.telemetryOf d) w)
        as [[v | e0] w1]; cbn [fst snd] in *; [discriminate F |].
      injection F as ->. auto.
    + intros pre post [= ->] Low.
      clear T D C E. rewrite (legacy_skips pre _ w Low). cbn [forEach].
      unfold bind.
      change (Legacy.analyseRecord env None w)
        with (Thrown (A := unit) Legacy.nullElement, w).
      cbn [fst snd]. auto.
Qed.

End EarlierVersions.

(** The fenced answer that the present version reads gives the parse-error
    object in the earlier one. *)
Lemma earlier_version_cannot_read_fenced_answers_witness :
  fst (Legacy.analyzeHighCurrent fencedHighEnv reading120 freshWorld)
  = Returned Legacy.parseErrorResult.
Proof.
  apply (earlier_version_cannot_read_fenced_answers fencedHighEnv reading120
           freshWorld (fenced severityHighText)); reflexivity.
Defined.
(* ================================================================== *)
(** ** The two regular expressions *)

Section PatternProps.
Import JsString Patterns.

Lemma spanWord_word (s : string) : allChars isWordChar (fst (spanWord s)) = true.
Proof.
  induction s as [| c r IH]; [reflexivity |]. cbn [spanWord].
  destruct (isWordChar c) eqn:W; [| reflexivity].
  destruct (spanWord r) as [w rest]. cbn [fst allChars] in *. now rewrite W.
Qed.

Lemma word_spec (s w : string) :
  word s = Some w -> w <> "" /\ allChars isWordChar w = true.
Proof.
  unfold word. pose proof (spanWord_word s) as A.
  destruct (fst (spanWord s)) as [| c r]; [discriminate |].
  intros [= <-]. split; [discriminate | exact A].
Qed.

Lemma quotedWord_spec (s w : string) :
  quotedWord s = Some w -> w <> "" /\ allChars isWordChar w = true.
Proof.
  unfold quotedWord. destruct s as [| c r]; [discriminate |].
  destruct (isQuote c); apply word_spec.
Qed.

Lemma tableNameAt_spec (s w : string) :
  tableNameAt s = Some w -> w <> "" /\ allChars isWordChar w = true.
Proof.
  unfold tableNameAt. destruct (keyword s) as [r |]; [| discriminate].
  destruct (spaces r) as [r1 |]; [| discriminate].
  destruct (matchCI "of" r1) as [r2 |].
  - destruct (spaces r2) as [r3 |].
    + destruct (quotedWord r3) as [w' |] eqn:Q.
      * intros [= <-]. exact (quotedWord_spec _ _ Q).
      * apply quotedWord_spec.
    + apply quotedWord_spec.
  - apply quotedWord_spec.
Qed.

Lemma extractTableName_spec (s w : string) :
  extractTableName s = Some w -> w <> "" /\ allChars isWordChar w = true.
Proof.
  induction s as [| c r IH]; cbn [extractTableName].
  - destruct (tableNameAt "") eqn:T; [| discriminate].
    intros [= <-]. exact (tableNameAt_spec _ _ T).
  - destruct (tableNameAt (String c r)) eqn:T.
    + intros [= <-]. exact (tableNameAt_spec _ _ T).
    + exact IH.
Qed.

(** A literal matched under the [i] flag is a prefix of the lower-cased
    text. *)
Lemma matchCI_prefix (lit s r : string) :
  matchCI lit s = Some r -> prefix lit (toLowerCase s) = true.
Proof.
  revert s. induction lit as [| a lit IH]; intros s.
  - intros _. now destruct (toLowerCase s).
  - destruct s as [| b s]; [discriminate |]. cbn [matchCI toLowerCase prefix].
    destruct (Ascii.eqb (lowerChar b) a) eqn:E; [| discriminate].
    apply Ascii.eqb_eq in E. rewrite E.
    destruct (ascii_dec a a); [apply IH | congruence].
Qed.

Lemma includes_prefix (s sub : string) :
  prefix sub s = true -> includes s sub = true.
Proof. intros H. destruct s; cbn [includes]; now rewrite H. Qed.

Lemma includes_cons (c : ascii) (s sub : string) :
  includes s sub = true -> includes (String c s) sub = true.
Proof. intros H. cbn [includes]. rewrite H. apply orb_true_r. Qed.

Lemma tableNameAt_keyword (s w : string) :
  tableNameAt s = Some w ->
  prefix "table" (toLowerCase s) || prefix "schema" (toLowerCase s)
  || prefix "structure" (toLowerCase s) = true.
Proof.
  unfold tableNameAt, keyword.
  destruct (matchCI "table" s) eqn:A.
  { intros _. now rewrite (matchCI_prefix _ _ _ A). }
  destruct (matchCI "schema" s) eqn:B.
  { intros _. rewrite (matchCI_prefix _ _ _ B). now rewrite orb_true_r. }
  destruct (matchCI "structure" s) eqn:C; [| discriminate].
  intros _. rewrite (matchCI_prefix _ _ _ C). now rewrite !orb_true_r.
Qed.

(** The pattern finds a table name only in a text that holds one of its
    three words. *)
Lemma extractTableName_keyword (s w : string) :
  extractTableName s = Some w ->
  includes (toLowerCase s) "table" || includes (toLowerCase s) "schema"
  || includes (toLowerCase s) "structure" = true.
Proof.
  induction s as [| c r IH]; cbn [extractTableName].
  - destruct (tableNameAt "") eqn:T; [| discriminate]. discriminate T.
  - destruct (tableNameAt (String c r)) eqn:T.
    + intros _. apply tableNameAt_keyword in T.
      apply orb_true_iff in T. destruct T as [T | T];
        [apply orb_true_iff in T; destruct T as [T | T] |];
        rewrite (includes_prefix _ _ T); now rewrite ?orb_true_r.
    + intros H. specialize (IH H). cbn [toLowerCase].
      apply orb_true_iff in IH. destruct IH as [I | I];
        [apply orb_true_iff in I; destruct I as [I | I] |];
        rewrite (includes_cons _ _ _ I); now rewrite ?orb_true_r.
Qed.

Lemma toLowerCase_app (a b : string) :
  toLowerCase (a ++ b) = toLowerCase a ++ toLowerCase b.
Proof. induction a as [| x a IH]; [reflexivity |]. cbn. now rewrite IH. Qed.

Lemma trimStart_split (s : string) :
  exists g, s = g ++ trimStart s /\ allChars isWhiteSpace g = true.
Proof.
  induction s as [| c s [g [E A]]]; [now exists "" |]. cbn [trimStart].
  destruct (isWhiteSpace c) eqn:W; [| now exists ""].
  exists (String c g). cbn [append allChars]. rewrite W, A. now rewrite <- E.
Qed.

Lemma spaces_split (s r : string) :
  spaces s = Some r -> exists g, s = g ++ r /\ isSpace g.
Proof.
  unfold spaces. destruct s as [| c s]; [discriminate |].
  destruct (isWhiteSpace c) eqn:W; [| discriminate]. intros [= <-].
  cbn [trimStart]. rewrite W. destruct (trimStart_split s) as [g [E A]].
  exists (String c g). cbn [append]. rewrite <- E. split; [reflexivity |].
  split; [discriminate |]. cbn [allChars]. now rewrite W, A.
Qed.

Lemma spanWord_split (s : string) :
  s = fst (spanWord s) ++ snd (spanWord s) /\
  match snd (spanWord s) with
  | String c _ => isWordChar c = false
  | EmptyString => True
  end.
Proof.
  induction s as [| c s [E A]]; [now split |]. cbn [spanWord].
  destruct (isWordChar c) eqn:W.
  - destruct (spanWord s) as [w rest]. cbn [fst snd append] in *.
    split; [now rewrite <- E | exact A].
  - cbn [fst snd append]. now split.
Qed.

Lemma word_split (s w : string) :
  word s = Some w ->
  exists after, s = w ++ after /\ isWord w /\
    match after with
    | String c _ => isWordChar c = false
    | EmptyString => True
    end.
Proof.
  intros H. pose proof (word_spec _ _ H) as I. unfold word in H.
  destruct (spanWord_split s) as [E A].
  destruct (fst (spanWord s)) as [| c r]; [discriminate |]. injection H as <-.
  exists (snd (spanWord s)). auto.
Qed.

Lemma quotedWord_split (s w : string) :
  quotedWord s = Some w ->
  exists quote after,
    s = quote ++ w ++ after /\
    (quote = "" \/ exists c, quote = String c "" /\ isQuote c = true) /\
    isWord w /\
    match after with
    | String c _ => isWordChar c = false
    | EmptyString => True
    end.
Proof.
  unfold quotedWord. destruct s as [| c r]; [discriminate |].
  destruct (isQuote c) eqn:Q; intros H;
    destruct (word_split _ _ H) as [after [E [I A]]].
  - exists (String c ""), after. cbn [append]. rewrite <- E.
    split; [reflexivity |]. split; [right; exists c; auto | auto].
  - exists "", after. cbn [append]. auto.
Qed.


Lemma prefix_refl_app (a b : string) : prefix a (a ++ b) = true.
Proof.
  induction a as [| x a IH]; [now destruct b |]. cbn [append prefix].
  destruct (ascii_dec x x); [exact IH | congruence].
Qed.

(** What a literal matched under the [i] flag stands on: the literal in
    some mix of cases. *)
Lemma matchCI_split (lit s r : string) :
  matchCI lit s = Some r ->
  exists kw, s = kw ++ r /\ toLowerCase kw = lit /\
             substring 0 (String.length lit) s = kw.
Proof.
  revert s. induction lit as [| a lit IH]; intros s.
  - intros [= ->]. exists "". repeat split. now destruct r.
  - destruct s as [| b s]; [discriminate |]. cbn [matchCI].
    destruct (Ascii.eqb (lowerChar b) a) eqn:E; [| discriminate].
    apply Ascii.eqb_eq in E. intros H. destruct (IH s H) as [kw [-> [L S]]].
    exists (String b kw). cbn [append toLowerCase String.length substring].
    now rewrite L, E, S.
Qed.

Lemma keyword_split (s r : string) :
  keyword s = Some r ->
  exists kw, s = kw ++ r /\ In (toLowerCase kw) ["table"; "schema"; "structure"].
Proof.
  unfold keyword.
  destruct (matchCI "table" s) as [r1 |] eqn:A.
  { intros [= <-]. destruct (matchCI_split _ _ _ A) as [kw [E [L _]]].
    exists kw. rewrite L. cbn. auto. }
  destruct (matchCI "schema" s) as [r2 |] eqn:B.
  { intros [= <-]. destruct (matchCI_split _ _ _ B) as [kw [E [L _]]].
    exists kw. rewrite L. cbn. auto. }
  intros C. destruct (matchCI_split _ _ _ C) as [kw [E [L _]]].
  exists kw. rewrite L. cbn. auto.
Qed.

(** A match of the table pattern at the head of [s] or further on is a
    match in the sense of [namesTable]. *)
Lemma namesTable_built (kw gap preposition r w : string) :
  In (toLowerCase kw) ["table"; "schema"; "structure"] -> isSpace gap ->
  (preposition = "" \/
   exists o gap', preposition = o ++ gap' /\ toLowerCase o = "of" /\ isSpace gap') ->
  quotedWord r = Some w ->
  namesTable (kw ++ gap ++ preposition ++ r) w.
Proof.
  intros K G P Q. destruct (quotedWord_split _ _ Q) as [quote [after [-> [Qu [I A]]]]].
  exists "", kw, gap, preposition, quote, after. cbn [append]. auto 8.
Qed.

Lemma tableNameAt_names (s w : string) :
  tableNameAt s = Some w -> namesTable s w.
Proof.
  unfold tableNameAt.
  destruct (keyword s) as [r |] eqn:K; [| discriminate].
  destruct (keyword_split _ _ K) as [kw [-> Kw]].
  destruct (spaces r) as [r1 |] eqn:G; [| discriminate].
  destruct (spaces_split _ _ G) as [gap [-> Gap]].
  assert (Plain : quotedWord r1 = Some w -> namesTable (kw ++ gap ++ r1) w).
  { intros Q. apply (namesTable_built kw gap "" r1 w Kw Gap); auto. }
  destruct (matchCI "of" r1) as [r2 |] eqn:O; [| exact Plain].
  destruct (spaces r2) as [r3 |] eqn:G2; [| exact Plain].
  destruct (quotedWord r3) as [w' |] eqn:Q; [| exact Plain].
  intros [= <-].
  destruct (matchCI_split _ _ _ O) as [o [-> [Lo _]]].
  destruct (spaces_split _ _ G2) as [gap' [-> Gap']].
  rewrite <- (append_assoc o gap' r3).
  apply (namesTable_built kw gap (o ++ gap') r3 w' Kw Gap); [| exact Q].
  right. exists o, gap'. auto.
Qed.

Lemma extractTableName_names (s w : string) :
  extractTableName s = Some w -> namesTable s w.
Proof.
  assert (Later : forall c r, namesTable r w -> namesTable (String c r) w).
  { intros c r [before [kw [gap [p [q [after [-> H]]]]]]].
    exists (String c before), kw, gap, p, q, after. split; [reflexivity | exact H]. }
  induction s as [| c r IH]; cbn [extractTableName].
  - destruct (tableNameAt "") eqn:T; [| discriminate].
    intros [= <-]. exact (tableNameAt_names _ _ T).
  - destruct (tableNameAt (String c r)) eqn:T.
    + intros [= <-]. exact (tableNameAt_names _ _ T).
    + intros H. apply Later, IH, H.
Qed.

Lemma lazyToSemicolon_spec (s m : string) :
  lazyToSemicolon s = Some m ->
  exists body, m = body ++ ";" /\ allChars insideStatement body = true /\
               prefix m s = true.
Proof.
  revert m. induction s as [| c r IH]; intros m; [discriminate |].
  cbn [lazyToSemicolon]. destruct (Ascii.eqb c ";"%char) eqn:S.
  - intros [= <-]. exists "". apply Ascii.eqb_eq in S. subst c.
    repeat split. cbn [prefix]. destruct (ascii_dec ";" ";"); [| congruence].
    now destruct r.
  - destruct (isLineTerminator c) eqn:T; [discriminate |].
    destruct (lazyToSemicolon r) as [m' |]; [| discriminate].
    intros [= <-]. destruct (IH m' eq_refl) as [body [-> [A P]]].
    exists (String c body). cbn [append allChars prefix]. unfold insideStatement at 1.
    rewrite S, T, A. repeat split.
    destruct (ascii_dec c c); [exact P | congruence].
Qed.

Lemma prefix_app_both (a b s : string) :
  prefix b s = true -> prefix (a ++ b) (a ++ s) = true.
Proof.
  intros H. induction a as [| x a IH]; [exact H |]. cbn [append prefix].
  destruct (ascii_dec x x); [exact IH | congruence].
Qed.

Lemma selectAt_spec (s q : string) :
  selectAt s = Some q ->
  prefix q s = true /\
  exists kw body,
    q = kw ++ body ++ ";" /\ toLowerCase kw = "select" /\
    allChars insideStatement body = true.
Proof.
  unfold selectAt. destruct (matchCI "select" s) as [r |] eqn:K; [| discriminate].
  destruct (lazyToSemicolon r) as [m |] eqn:L; [| discriminate].
  intros [= <-]. destruct (matchCI_split _ _ _ K) as [kw [E [Lo Su]]].
  destruct (lazyToSemicolon_spec _ _ L) as [body [-> [A P]]].
  cbn [String.length] in Su. rewrite Su. split.
  - rewrite E. now apply prefix_app_both.
  - exists kw, body. auto.
Qed.

Lemma extractSelect_spec (s q : string) :
  extractSelect s = Some q ->
  includes s q = true /\
  exists kw body,
    q = kw ++ body ++ ";" /\ toLowerCase kw = "select" /\
    allChars insideStatement body = true.
Proof.
  induction s as [| c r IH]; cbn [extractSelect].
  - destruct (selectAt "") eqn:T; [| discriminate]. discriminate T.
  - destruct (selectAt (String c r)) eqn:T.
    + intros [= <-]. apply selectAt_spec in T. destruct T as [P R].
      split; [now apply includes_prefix | exact R].
    + intros H. destruct (IH H) as [I R]. split; [now apply includes_cons | exact R].
Qed.

Lemma toLowerCase_length (s : string) :
  String.length (toLowerCase s) = String.length s.
Proof. induction s as [| c s IH]; [reflexivity |]. cbn. now rewrite IH. Qed.

(** A statement that the pattern extracted is its own trimmed form and
    begins with [select] once lower-cased. *)
Lemma extracted_is_select (kw body : string) :
  toLowerCase kw = "select" ->
  trim (kw ++ body ++ ";") = kw ++ body ++ ";" /\
  startsWith (toLowerCase (kw ++ body ++ ";")) "select" = true.
Proof.
  intros L. split.
  - unfold trim.
    assert (S : trimStart (kw ++ body ++ ";") = kw ++ body ++ ";").
    { destruct kw as [| k kw]; [discriminate L |]. cbn [append trimStart].
      cbn [toLowerCase] in L. injection L as L _.
      assert (W : isWhiteSpace k = false).
      { destruct (isWhiteSpace k) eqn:W; [| reflexivity]. exfalso.
        revert L. clear - W. unfold isWhiteSpace in W.
        destruct k as [[] [] [] [] [] [] [] []]; try discriminate W;
          vm_compute; discriminate. }
      now rewrite W. }
    rewrite S, <- append_assoc. now apply trimEnd_nonws_end.
  - unfold startsWith. rewrite toLowerCase_app, L. apply prefix_refl_app.
Qed.

End PatternProps.

Section ExtractedStatement.
Import JsString Patterns.

(** X13.  The statement that the hybrid agent takes from the follow-up answer
    of the oracle stands in that answer, begins with SELECT in some mix of
    cases, ends at its only semicolon and holds no line break; the guard of
    the SQL tool lets it pass, and it reaches the store as written. *)
Theorem extracted_statement_passes_the_guard
  (run : string -> Outcome string) (followUp q : string) (st : Store) :
  extractSelect followUp = Some q ->
  includes followUp q = true /\
  (exists kw body,
     q = kw ++ body ++ ";" /\ toLowerCase kw = "select" /\
     allChars insideStatement body = true) /\
  executed (snd (GuardedToolkit._call run q st)) = (executed st ++ [q])%list.
Proof.
  intros H. destruct (extractSelect_spec _ _ H) as [I [kw [body [E [L A]]]]].
  split; [exact I |]. split; [eauto |].
  destruct (extracted_is_select kw body L) as [T S]. rewrite <- E in T, S.
  unfold GuardedToolkit._call. cbv zeta. rewrite T, S. cbn [negb].
  unfold sequelize_query. destruct (run q); reflexivity.
Qed.

End ExtractedStatement.

(** From a follow-up answer with two statements the agent takes the first,
    which reaches the store; the second, a DROP TABLE, is left behind. *)
Lemma extracted_statement_passes_the_guard_witness :
  JsString.includes followUpText "select id from Device;" = true /\
  (exists kw body,
     "select id from Device;" = kw ++ body ++ ";" /\
     JsString.toLowerCase kw = "select" /\
     Patterns.allChars Patterns.insideStatement body = true) /\
  executed (snd (GuardedToolkit._call (fun _ => Returned "[]")
                   "select id from Device;" (mkStore [])))
  = ["select id from Device;"].
Proof.
  apply (extracted_statement_passes_the_guard (fun _ => Returned "[]")
           followUpText "select id from Device;" (mkStore [])).
  vm_compute. reflexivity.
Defined.
(* ================================================================== *)
(** ** The hybrid agent *)

Section Bounds.
Import JsString Template.

Lemma within_refl (s : Session) : within 0 0 s s.
Proof.
  split; [| lia]. exists [], []. rewrite !app_nil_r. repeat split; auto.
Qed.

Lemma within_trans (q1 i1 q2 i2 : nat) (s1 s2 s3 : Session) :
  within q1 i1 s1 s2 -> within q2 i2 s2 s3 -> within (q1 + q2) (i1 + i2) s1 s3.
Proof.
  intros [[st1 [c1 [E1 [F1 [O1 L1]]]]] I1] [[st2 [c2 [E2 [F2 [O2 L2]]]]] I2].
  split; [| lia]. exists (st1 ++ st2)%list, (c1 ++ c2)%list.
  rewrite E2, E1, O2, O1, !app_assoc, !length_app.
  repeat split; [now apply Forall_app | lia].
Qed.

Lemma within_weaken (q i q' i' : nat) (s s' : Session) :
  within q i s s' -> (q <= q')%nat -> (i <= i')%nat -> within q' i' s s'.
Proof.
  intros [[st [c [E [F [O L]]]]] I] Q J. split; [| lia].
  exists st, c. repeat split; auto; lia.
Qed.

Lemma bounded_weaken {A : Type} (q i q' i' : nat) (c : M Session A) :
  bounded q i c -> (q <= q')%nat -> (i <= i')%nat -> bounded q' i' c.
Proof. intros B Q I s. eapply within_weaken; [apply B | |]; assumption. Qed.

Lemma bounded_ret {A : Type} (a : A) : bounded 0 0 (ret (S := Session) a).
Proof. intros s. apply within_refl. Qed.

Lemma bounded_throw {A : Type} (e : JsError) :
  bounded 0 0 (throw (S := Session) (A := A) e).
Proof. intros s. apply within_refl. Qed.

Lemma bounded_bind {A B : Type} (q1 i1 q2 i2 : nat)
  (c : M Session A) (k : A -> M Session B) :
  bounded q1 i1 c -> (forall a, bounded q2 i2 (k a)) ->
  bounded (q1 + q2) (i1 + i2) (bind c k).
Proof.
  intros C K s. unfold bind. specialize (C s).
  destruct (c s) as [[a | e] s1]; cbn [snd] in *.
  - eapply within_trans; [exact C | apply K].
  - eapply within_weaken; [exact C | lia | lia].
Qed.

Lemma bounded_tryCatch {A : Type} (q1 i1 q2 i2 : nat)
  (body : M Session A) (handler : JsError -> M Session A) :
  bounded q1 i1 body -> (forall e, bounded q2 i2 (handler e)) ->
  bounded (q1 + q2) (i1 + i2) (tryCatch body handler).
Proof.
  intros C K s. unfold tryCatch. specialize (C s).
  destruct (body s) as [[a | e] s1]; cbn [snd] in *.
  - eapply within_weaken; [exact C | lia | lia].
  - eapply within_trans; [exact C | apply K].
Qed.

Lemma bounded_sequelizeQuery (env : ChatEnv) (sql : string) :
  selectOnly sql -> bounded 1 0 (sequelizeQuery env sql).
Proof.
  intros H s. unfold sequelizeQuery, sequelize_query. cbn [snd store ormCalls invocations].
  split; [| cbn; lia]. exists [sql], []. cbn [executed store ormCalls].
  rewrite app_nil_r. repeat split; [now constructor | cbn; lia].
Qed.

Lemma bounded_ormCall (env : ChatEnv) (op : OrmCall) : bounded 1 0 (ormCall env op).
Proof.
  intros s. unfold ormCall. cbn [snd]. split; [| cbn; lia].
  exists [], [op]. cbn [executed store ormCalls]. rewrite app_nil_r.
  repeat split; [constructor | cbn; lia].
Qed.

Lemma bounded_modelInvoke (env : ChatEnv) : bounded 0 1 (modelInvoke env).
Proof.
  intros s. unfold modelInvoke. cbn [snd]. split; [| cbn; lia].
  exists [], []. cbn [executed store ormCalls]. rewrite !app_nil_r.
  repeat split; [constructor | cbn; lia].
Qed.

(** The quick-query tool reaches the database at most once, through a
    model, and never rejects. *)
Lemma quickTool_bounded (env : ChatEnv) (input : string) :
  bounded 1 0 (AdvancedToolkit.SmartWeldCustomQueryTool._call env input).
Proof.
  unfold AdvancedToolkit.SmartWeldCustomQueryTool._call. cbv zeta.
  apply (bounded_tryCatch 1 0 0 0); [| intros e; apply bounded_ret].
  repeat match goal with
         | |- bounded _ _ (if ?b then _ else _) => destruct b
         end;
    try (apply (bounded_bind 1 0 0 0); [apply bounded_ormCall |
                                        intros a; apply bounded_ret]).
  eapply bounded_weaken; [apply bounded_ret | lia | lia].
Qed.

(** The guarded SQL tool gives the store at most one statement, and that
    statement begins with [select]. *)
Lemma guardedTool_bounded (env : ChatEnv) (input : string) :
  bounded 1 0 (AdvancedToolkit.SmartWeldSQLTool._call env input).
Proof.
  intros s. unfold AdvancedToolkit.SmartWeldSQLTool._call, GuardedToolkit._call.
  cbv zeta.
  destruct (startsWith (toLowerCase (trim input)) "select") eqn:G; cbn [negb].
  - unfold sequelize_query. destruct (query env (trim input)); cbn [snd];
      (split; [| cbn; lia]); exists [trim input], [];
      cbn [executed store ormCalls]; rewrite app_nil_r;
      (repeat split; [now constructor | cbn; lia]).
  - cbn [snd]. eapply within_weaken; [| apply Nat.le_0_l | apply Nat.le_refl].
    split; [| cbn; lia]. exists [], []. cbn [executed store ormCalls].
    rewrite !app_nil_r. repeat split; auto.
Qed.

Lemma infoTool_schema (env : ChatEnv) :
  AdvancedToolkit.SmartWeldDatabaseInfoTool._call env "schema"
  = ret ("Database Schema:" ++ nl
         ++ AdvancedToolkit.SmartWeldDatabaseInfoTool.schemaInfo).
Proof. reflexivity. Qed.

Lemma infoTool_bounded (env : ChatEnv) :
  bounded 0 0 (AdvancedToolkit.SmartWeldDatabaseInfoTool._call env "schema") /\
  bounded 1 0 (AdvancedToolkit.SmartWeldDatabaseInfoTool._call env "tables").
Proof.
  split.
  - rewrite infoTool_schema. apply bounded_ret.
  - change (AdvancedToolkit.SmartWeldDatabaseInfoTool._call env "tables")
      with (tryCatch
              (tableCount <- sequelizeQuery env
                 AdvancedToolkit.SmartWeldDatabaseInfoTool.listTablesStatement ;;
               ret ("Available tables:" ++ nl ++ tableCount))
              (fun error => ret (S := Session)
                 ("Error getting database info: " ++ errorText error))).
    apply (bounded_tryCatch 1 0 0 0); [| intros e; apply bounded_ret].
    apply (bounded_bind 1 0 0 0); [| intros a; apply bounded_ret].
    apply bounded_sequelizeQuery. reflexivity.
Qed.

(** The SQL tool of [services/sql-toolkit.ts] gives the store what it is
    given. *)
Lemma dataSourceTool_bounded (env : ChatEnv) (sql : string) :
  selectOnly sql -> bounded 1 0 (DataSourceTools.SmartWeldSQLTool._call env sql).
Proof.
  intros H s. unfold DataSourceTools.SmartWeldSQLTool._call,
    DataSourceToolkit._call, sequelize_query.
  destruct (query env sql); cbn [snd]; (split; [| cbn; lia]);
    exists [sql], []; cbn [executed store ormCalls]; rewrite app_nil_r;
    (repeat split; [now constructor | cbn; lia]).
Qed.

Lemma advancedTools_behave (env : ChatEnv) :
  toolsBehave (AdvancedToolkit.getTools env).
Proof.
  split; [| split].
  - intros t [= <-] action. apply quickTool_bounded.
  - intros t [= <-] sql _ _. apply guardedTool_bounded.
  - intros t [= <-]. apply infoTool_bounded.
Qed.

Lemma dataSourceTools_behave (env : ChatEnv) :
  toolsBehave (DataSourceTools.getTools env).
Proof.
  split; [| split].
  - intros t H. discriminate H.
  - intros t [= <-] sql H E. apply dataSourceTool_bounded. now rewrite <- E.
  - intros t H. discriminate H.
Qed.

Ltac within_bounds q i := eapply (bounded_weaken q i); [| lia | lia].

Section HybridBounds.
Import JsString Template HybridAgent.

Variable env : ChatEnv.
Variable tools : list Tool.
Hypothesis behave : toolsBehave tools.

Lemma handleSimpleQuery_bounded (input action : string) :
  bounded 1 0 (handleSimpleQuery tools input action).
Proof.
  unfold handleSimpleQuery. destruct behave as [Q _].
  destruct (findTool "smartweld_quick_query" tools) as [t |] eqn:F.
  - exact (Q _ eq_refl _).
  - within_bounds 0 0. apply bounded_ret.
Qed.

Lemma countOrRephrase_bounded (input reasoning : string) :
  bounded 1 0 (countOrRephrase tools input reasoning).
Proof.
  unfold countOrRephrase. destruct behave as [Q _].
  destruct (_ || _); [| within_bounds 0 0; apply bounded_ret].
  destruct (findTool "smartweld_quick_query" tools) as [t |] eqn:F;
    [| within_bounds 0 0; apply bounded_ret].
  apply (bounded_bind 1 0 0 0); [exact (Q _ eq_refl _) | intros a; apply bounded_ret].
Qed.

Lemma selectOnly_countStatement :
  selectOnly (trim countStatement) /\ trim countStatement = countStatement.
Proof. split; reflexivity. Qed.

Lemma selectOnly_latestStatement :
  selectOnly (trim latestStatement) /\ trim latestStatement = latestStatement.
Proof. split; reflexivity. Qed.

Lemma reason_bounded (input : string) : bounded 1 2 (reason env tools input).
Proof.
  unfold reason. destruct behave as [_ [S I]].
  apply (bounded_bind 0 1 1 1); [apply bounded_modelInvoke |].
  intros reasoning. cbv zeta.
  pose proof (countOrRephrase_bounded input reasoning) as N.
  destruct (_ || _); [| within_bounds 1 0; exact N].
  destruct (findTool "smartweld_database_info" tools) as [dbInfoTool |] eqn:FI;
    [| within_bounds 1 0; exact N].
  destruct (I _ eq_refl) as [I0 _].
  apply (bounded_bind 0 0 1 1); [exact I0 |]. intros schemaInfo.
  apply (bounded_bind 0 1 1 0); [apply bounded_modelInvoke |]. intros followUp.
  destruct (_ || _); [| exact N].
  destruct (findTool "smartweld_sql_query" tools) as [sqlTool |] eqn:FS;
    [| exact N].
  destruct (Patterns.extractSelect followUp) as [sqlQuery |] eqn:X; [| exact N].
  apply (bounded_bind 1 0 0 0); [| intros a; apply bounded_ret].
  destruct (extractSelect_spec _ _ X) as [_ [kw [body [E [L _]]]]].
  destruct (extracted_is_select kw body L) as [T P]. rewrite <- E in T, P.
  apply (S _ eq_refl); [unfold selectOnly; now rewrite T | exact T].
Qed.

Lemma sqlOrReason_bounded (input : string) :
  bounded 1 2 (sqlOrReason env tools input).
Proof.
  unfold sqlOrReason. cbv zeta. destruct behave as [_ [S _]].
  pose proof (reason_bounded input) as N.
  destruct (_ || _); [| exact N].
  destruct (findTool "smartweld_sql_query" tools) as [sqlTool |] eqn:FS;
    [| exact N].
  destruct (includes (toLowerCase input) "count").
  { within_bounds 1 0.
    apply (bounded_bind 1 0 0 0); [| intros a; apply bounded_ret].
    apply (S _ eq_refl); apply selectOnly_countStatement. }
  destruct (_ || _); [| exact N].
  within_bounds 1 0.
  apply (bounded_bind 1 0 0 0); [| intros a; apply bounded_ret].
  apply (S _ eq_refl); apply selectOnly_latestStatement.
Qed.

Lemma handleComplexQuery_bounded (input : string) :
  bounded 1 2 (handleComplexQuery env tools input).
Proof.
  unfold handleComplexQuery. cbv zeta. destruct behave as [_ [_ I]].
  pose proof (sqlOrReason_bounded input) as N.
  destruct (_ || _); [| exact N].
  destruct (findTool "smartweld_database_info" tools) as [dbInfoTool |] eqn:FI;
    [| exact N].
  destruct (I _ eq_refl) as [I0 I1].
  destruct (_ || _).
  - within_bounds 1 0.
    apply (bounded_bind 1 0 0 0); [exact I1 | intros a; apply bounded_ret].
  - within_bounds 0 0.
    apply (bounded_bind 0 0 0 0); [exact I0 | intros a; apply bounded_ret].
Qed.

Lemma classifyQuery_bounded (input : string) :
  bounded 0 1 (HybridAgent.classifyQuery env input).
Proof.
  intros s. unfold HybridAgent.classifyQuery, HybridCore.classifyWith.
  destruct (SchemaFirst.matchedRule input);
    try destruct (model_invoke env (invocations s)); cbn [snd];
    (split; [| cbn; lia]); exists [], [];
    cbn [executed store ormCalls]; rewrite !app_nil_r;
    (repeat split; [constructor | cbn; lia]).
Qed.

Lemma getConversationalResponse_bounded (input : string) :
  bounded 1 3 (getConversationalResponse env tools input).
Proof.
  unfold getConversationalResponse.
  apply (bounded_tryCatch 1 3 0 0); [| intros e; apply bounded_ret].
  apply (bounded_bind 0 1 1 2); [apply classifyQuery_bounded |].
  intros [action |].
  - destruct (String.eqb action ""); [apply handleComplexQuery_bounded |].
    within_bounds 1 0. apply handleSimpleQuery_bounded.
  - apply handleComplexQuery_bounded.
Qed.

Lemma getConversationalResponse_returns (input : string) (s : Session) :
  returns (fst (getConversationalResponse env tools input s)) = true.
Proof.
  unfold getConversationalResponse, tryCatch.
  match goal with |- context [bind ?c ?k s] => destruct (bind c k s) as [[r | e] s1] end;
    reflexivity.
Qed.

End HybridBounds.

End Bounds.

Section Substrings.
Import JsString.

Lemma prefix_iff (p s : string) :
  prefix p s = true <-> exists b, s = p ++ b.
Proof.
  split.
  - revert s. induction p as [| x p IH]; intros s H; [now exists s |].
    destruct s as [| y s]; [discriminate |]. cbn [prefix] in H.
    destruct (ascii_dec x y) as [-> |]; [| discriminate].
    destruct (IH s H) as [b ->]. now exists b.
  - intros [b ->]. apply prefix_refl_app.
Qed.

Lemma includes_iff (s sub : string) :
  includes s sub = true <-> exists a b, s = a ++ sub ++ b.
Proof.
  split.
  - induction s as [| c s IH]; cbn [includes]; intros H.
    + rewrite orb_false_r in H. apply prefix_iff in H. destruct H as [b E].
      now exists "", b.
    + apply orb_true_iff in H. destruct H as [H | H].
      * apply prefix_iff in H. destruct H as [b E]. now exists "", b.
      * destruct (IH H) as [a [b ->]]. now exists (String c a), b.
  - intros [a [b ->]]. induction a as [| c a IH].
    + cbn [append]. apply includes_prefix, prefix_refl_app.
    + cbn [append]. now apply includes_cons.
Qed.

(** A text that holds [big] holds every part of [big]. *)
Lemma includes_trans (s big small : string) :
  includes big small = true -> includes s big = true -> includes s small = true.
Proof.
  intros H1 H2. apply includes_iff in H1, H2. apply includes_iff.
  destruct H1 as [c [d ->]]. destruct H2 as [a [b ->]].
  exists (a ++ c), (d ++ b). now rewrite !append_assoc.
Qed.

Lemma includes_none (s big small : string) :
  includes big small = true -> includes s small = false -> includes s big = false.
Proof.
  intros H N. destruct (includes s big) eqn:E; [| reflexivity].
  now rewrite (includes_trans _ _ _ H E) in N.
Qed.

End Substrings.

Section HybridBudget.
Import JsString Template HybridAgent.

Variable env : ChatEnv.

(** X14.  Whichever of the two toolkits it is given, the hybrid agent always
    resolves, and a request reaches the database at most once and the
    oracle at most three times; a statement it gives to [sequelize.query]
    begins with SELECT. *)
Theorem chat_request_reads_once_and_asks_thrice (input : string) (s : Session) :
  (returns (fst (getConversationalResponse env (AdvancedToolkit.getTools env)
                   input s)) = true /\
   within 1 3 s (snd (getConversationalResponse env (AdvancedToolkit.getTools env)
                        input s))) /\
  (returns (fst (getConversationalResponse env (DataSourceTools.getTools env)
                   input s)) = true /\
   within 1 3 s (snd (getConversationalResponse env (DataSourceTools.getTools env)
                        input s))).
Proof.
  split; (split; [apply getConversationalResponse_returns |]).
  - apply getConversationalResponse_bounded, advancedTools_behave.
  - apply getConversationalResponse_bounded, dataSourceTools_behave.
Qed.

Lemma classifyQuery_keyword (input : string) (s : Session) :
  SchemaFirst.matchedRule input <> HybridCore.OracleRule ->
  HybridAgent.classifyQuery env input s = (Returned HybridCore.complex, s).
Proof.
  intros H. unfold HybridAgent.classifyQuery, HybridCore.classifyWith.
  destruct s as [st o d i n]. cbn [store ormCalls described invocations openSources].
  destruct (SchemaFirst.matchedRule input); try congruence;
    now rewrite Nat.add_0_r.
Qed.

End HybridBudget.

Section OracleDown.
Import JsString Template HybridAgent.

Variable env : ChatEnv.
Variable tools : list Tool.
Hypothesis behave : toolsBehave tools.

(** [sqlOrReason] and [handleComplexQuery] either answer from a tool
    without the oracle, or are their part from the reasoning call on. *)
Lemma sqlOrReason_cases (input : string) (s : Session) :
  within 1 0 s (snd (sqlOrReason env tools input s)) \/
  sqlOrReason env tools input s = reason env tools input s.
Proof.
  unfold sqlOrReason. cbv zeta. destruct behave as [_ [S _]].
  destruct (_ || _); [| now right].
  destruct (findTool "smartweld_sql_query" tools) as [sqlTool |] eqn:FS;
    [| now right].
  destruct (includes (toLowerCase input) "count").
  { left. apply (bounded_bind 1 0 0 0); [| intros a; apply bounded_ret].
    apply (S _ eq_refl); apply selectOnly_countStatement. }
  destruct (_ || _); [| now right].
  left. apply (bounded_bind 1 0 0 0); [| intros a; apply bounded_ret].
  apply (S _ eq_refl); apply selectOnly_latestStatement.
Qed.

Lemma handleComplexQuery_cases (input : string) (s : Session) :
  within 1 0 s (snd (handleComplexQuery env tools input s)) \/
  handleComplexQuery env tools input s = reason env tools input s.
Proof.
  pose proof (sqlOrReason_cases input s) as Sql.
  unfold handleComplexQuery. cbv zeta. destruct behave as [_ [_ I]].
  destruct (_ || _); [| exact Sql].
  destruct (findTool "smartweld_database_info" tools) as [dbInfoTool |] eqn:FI;
    [| exact Sql].
  destruct (I _ eq_refl) as [I0 I1]. left.
  destruct (_ || _).
  - apply (bounded_bind 1 0 0 0); [exact I1 | intros a; apply bounded_ret].
  - eapply within_weaken; [| apply Nat.le_0_l | apply Nat.le_refl].
    apply (bounded_bind 0 0 0 0); [exact I0 | intros a; apply bounded_ret].
Qed.

Lemma reason_oracle_down (input : string) (s : Session) (e : JsError) :
  model_invoke env (invocations s) = Fails e ->
  reason env tools input s
  = (Thrown e, mkSession (store s) (ormCalls s) (described s)
                         (S (invocations s)) (openSources s)).
Proof.
  intros H. unfold reason, bind, modelInvoke. now rewrite H.
Qed.

(** With an oracle that rejects the first call a request would make, the
    request either does without the oracle or ends with the apology, the
    database untouched. *)
Lemma oracle_down (input : string) (s : Session) (e : JsError) :
  model_invoke env (invocations s) = Fails e ->
  invocations (snd (getConversationalResponse env tools input s)) = invocations s \/
  (fst (getConversationalResponse env tools input s) = Returned (rescue e) /\
   store (snd (getConversationalResponse env tools input s)) = store s /\
   ormCalls (snd (getConversationalResponse env tools input s)) = ormCalls s).
Proof.
  intros H. unfold getConversationalResponse, tryCatch, bind.
  assert (Complex :
    invocations (snd (let (o, s') := handleComplexQuery env tools input s in
                      match o with
                      | Returned a => (Returned a, s')
                      | Thrown e0 => ret (rescue e0) s'
                      end)) = invocations s \/
    (fst (let (o, s') := handleComplexQuery env tools input s in
          match o with
          | Returned a => (Returned a, s')
          | Thrown e0 => ret (rescue e0) s'
          end) = Returned (rescue e) /\
     store (snd (let (o, s') := handleComplexQuery env tools input s in
                 match o with
                 | Returned a => (Returned a, s')
                 | Thrown e0 => ret (rescue e0) s'
                 end)) = store s /\
     ormCalls (snd (let (o, s') := handleComplexQuery env tools input s in
                    match o with
                    | Returned a => (Returned a, s')
                    | Thrown e0 => ret (rescue e0) s'
                    end)) = ormCalls s)).
  { destruct (handleComplexQuery_cases input s) as [[_ W] | R].
    - left. destruct (handleComplexQuery env tools input s) as [[a | e0] s'];
        cbn [snd ret] in *; lia.
    - right. rewrite R, (reason_oracle_down input s e H). cbn. auto. }
  destruct (SchemaFirst.matchedRule input) eqn:Rule;
    try (rewrite (classifyQuery_keyword env input s) by congruence; exact Complex).
  right. unfold HybridAgent.classifyQuery, HybridCore.classifyWith.
  rewrite Rule, H. cbn. auto.
Qed.

End OracleDown.

Section HybridAnswers.
Import JsString Template HybridAgent.

Variable env : ChatEnv.

(** X15.  When the first call of the oracle that a request makes is
    rejected, the request ends with the apology that quotes the error, and
    it has reached the database neither through [sequelize.query] nor
    through a model; the only other requests are those that never call the
    oracle.  This holds with either toolkit. *)
Theorem rejected_oracle_call_ends_in_the_apology
  (input : string) (s : Session) (e : JsError) :
  model_invoke env (invocations s) = Fails e ->
  forall tools, In tools [AdvancedToolkit.getTools env; DataSourceTools.getTools env] ->
    invocations (snd (getConversationalResponse env tools input s))
    = invocations s \/
    (fst (getConversationalResponse env tools input s) = Returned (rescue e) /\
     store (snd (getConversationalResponse env tools input s)) = store s /\
     ormCalls (snd (getConversationalResponse env tools input s)) = ormCalls s).
Proof.
  intros H tools [<- | [<- | []]]; apply oracle_down; try exact H.
  - apply advancedTools_behave.
  - apply dataSourceTools_behave.
Qed.

Lemma schema_words_match_the_schema_rule (input : string) :
  includes (toLowerCase input) "schema" || includes (toLowerCase input) "tables"
  || includes (toLowerCase input) "structure"
  || includes (toLowerCase input) "columns" = true ->
  SchemaFirst.matchedRule input = HybridCore.SchemaRule.
Proof.
  intros H. unfold SchemaFirst.matchedRule. cbv zeta.
  assert (T : includes (toLowerCase input) "table"
              || includes (toLowerCase input) "schema"
              || includes (toLowerCase input) "structure"
              || includes (toLowerCase input) "column" = true).
  { repeat (apply orb_true_iff in H; destruct H as [H | H]).
    - now rewrite H, !orb_true_r.
    - rewrite (includes_trans _ "tables" "table" eq_refl H). reflexivity.
    - now rewrite H, !orb_true_r.
    - rewrite (includes_trans _ "columns" "column" eq_refl H).
      now rewrite !orb_true_r. }
  rewrite T. reflexivity.
Qed.

(** X16.  With the toolkit that has the database-info tool, a question that
    mentions the schema, the tables, the structure or the columns never
    reaches the oracle.  If it asks how many tables there are, the agent
    gives [sequelize.query] the one statement that lists the tables and
    answers with its rows, or with its error; otherwise it answers with the
    fixed text of the schema and touches nothing. *)
Theorem schema_question_is_answered_without_the_oracle
  (input : string) (s : Session) :
  let l := toLowerCase input in
  includes l "schema" || includes l "tables" || includes l "structure"
  || includes l "columns" = true ->
  let statement := AdvancedToolkit.SmartWeldDatabaseInfoTool.listTablesStatement in
  getConversationalResponse env (AdvancedToolkit.getTools env) input s
  = if includes l "how many tables" || includes l "number of tables"
       || includes l "count of tables"
    then
      (Returned
         ("Here are the tables in the SmartWeld database:" ++ nl ++ nl
          ++ match query env statement with
             | Returned rows => "Available tables:" ++ nl ++ rows
             | Thrown e => "Error getting database info: " ++ errorText e
             end),
       mkSession (mkStore (executed (store s) ++ [statement])) (ormCalls s)
                 (described s) (invocations s) (openSources s))
    else
      (Returned
         ("Here's the SmartWeld database schema:" ++ nl ++ nl
          ++ "Database Schema:" ++ nl
          ++ AdvancedToolkit.SmartWeldDatabaseInfoTool.schemaInfo),
       s).
Proof.
  cbv zeta. intros H.
  unfold getConversationalResponse, tryCatch, bind.
  rewrite (classifyQuery_keyword env input s)
    by (rewrite (schema_words_match_the_schema_rule input H); discriminate).
  unfold handleComplexQuery. cbv zeta. rewrite H.
  change (findTool "smartweld_database_info" (AdvancedToolkit.getTools env))
    with (Some (mkTool "smartweld_database_info"
                  (AdvancedToolkit.SmartWeldDatabaseInfoTool._call env))).
  cbn [_call]. clear H.
  destruct (includes (toLowerCase input) "how many tables" || _ || _).
  - unfold bind.
    change (AdvancedToolkit.SmartWeldDatabaseInfoTool._call env "tables" s)
      with (tryCatch
              (tableCount <- sequelizeQuery env
                 AdvancedToolkit.SmartWeldDatabaseInfoTool.listTablesStatement ;;
               ret ("Available tables:" ++ nl ++ tableCount))
              (fun error => ret (S := Session)
                 ("Error getting database info: " ++ errorText error)) s).
    unfold tryCatch, bind, sequelizeQuery, sequelize_query.
    destruct (query env _); reflexivity.
  - unfold bind. rewrite infoTool_schema. reflexivity.
Qed.

(** X17.  The toolkit of [services/sql-toolkit.ts] has no tool named
    [smartweld_quick_query]: with it, [handleSimpleQuery] of the hybrid
    agent and of the enhanced agent answer every action with the same
    error text and touch nothing. *)
Theorem simple_questions_find_no_quick_tool_in_the_data_source_toolkit
  (input action : string) (s : Session) :
  HybridAgent.handleSimpleQuery (DataSourceTools.getTools env) input action s
  = (Returned "Error: Quick query tool not available", s) /\
  EnhancedAgent.handleSimpleQuery (DataSourceTools.getTools env) input action s
  = (Returned "Error: Quick query tool not available", s).
Proof. split; reflexivity. Qed.

End HybridAnswers.

(** A greeting is classified by the oracle; with the oracle down the
    request ends in the apology. *)
Lemma rejected_oracle_call_ends_in_the_apology_witness :
  invocations (snd (HybridAgent.getConversationalResponse downChatEnv
                      (AdvancedToolkit.getTools downChatEnv) "hello" freshSession))
  = invocations freshSession \/
  (fst (HybridAgent.getConversationalResponse downChatEnv
          (AdvancedToolkit.getTools downChatEnv) "hello" freshSession)
   = Returned (HybridAgent.rescue rateLimited) /\
   store (snd (HybridAgent.getConversationalResponse downChatEnv
                 (AdvancedToolkit.getTools downChatEnv) "hello" freshSession))
   = store freshSession /\
   ormCalls (snd (HybridAgent.getConversationalResponse downChatEnv
                    (AdvancedToolkit.getTools downChatEnv) "hello" freshSession))
   = ormCalls freshSession).
Proof.
  apply (rejected_oracle_call_ends_in_the_apology downChatEnv "hello"
           freshSession rateLimited).
  - reflexivity.
  - left. reflexivity.
Defined.

(** The question "How many tables are there?" is answered by the one
    statement that lists the tables, with the oracle down. *)
Lemma schema_question_is_answered_without_the_oracle_witness :
  HybridAgent.getConversationalResponse downChatEnv
    (AdvancedToolkit.getTools downChatEnv) "How many tables are there?"
    freshSession
  = (Returned ("Here are the tables in the SmartWeld database:"
               ++ Template.nl ++ Template.nl ++ "Available tables:"
               ++ Template.nl ++ "[]"),
     mkSession
       (mkStore [AdvancedToolkit.SmartWeldDatabaseInfoTool.listTablesStatement])
       [] [] 0 0).
Proof.
  apply (schema_question_is_answered_without_the_oracle downChatEnv
           "How many tables are there?" freshSession).
  vm_compute. reflexivity.
Defined.
(* ================================================================== *)
(** ** The enhanced agent and the table tools *)

Section EnhancedAnswers.
Import JsString Template.

Variable env : ChatEnv.

(** X18.  A question about the columns of a table that uses none of the words
    table, schema and structure is routed to the schema tool, which finds
    no table name in it: the agent asks for one and touches nothing. *)
Theorem columns_question_gets_no_schema
  (tools : list Tool) (input : string) (s : Session) :
  let l := toLowerCase input in
  includes l "columns" = true ->
  includes l "table" = false -> includes l "schema" = false ->
  includes l "structure" = false ->
  EnhancedAgent.getConversationalResponse env tools input s
  = (Returned "Please specify a table name. Example: 'Show me the schema of users table'",
     s).
Proof.
  cbv zeta. intros C T Sc St.
  unfold EnhancedAgent.getConversationalResponse, Enhanced.classifyQuery.
  cbv zeta.
  rewrite (includes_none _ "list tables" "table" eq_refl T).
  rewrite (includes_none _ "show tables" "table" eq_refl T).
  rewrite (includes_none _ "what tables" "table" eq_refl T).
  rewrite C, Sc, St. cbn [orb].
  change (String.eqb "getSchema" "") with false. cbv iota.
  unfold EnhancedAgent.handleToolSpecificQuery.
  change (String.eqb "getSchema" "listTables") with false.
  change (String.eqb "getSchema" "getSchema") with true. cbv iota.
  destruct (Patterns.extractTableName input) as [w |] eqn:X.
  - apply extractTableName_keyword in X. rewrite T, Sc, St in X. discriminate X.
  - reflexivity.
Qed.

Lemma langchainTool_described (input : string) (s : Session) :
  described (snd (Langchain.langchainTool env input s)) = described s.
Proof.
  unfold Langchain.langchainTool, Langchain.converse, tryCatch, bind,
    Langchain.attempt, Langchain.setOpenSources, modify, ret, throw.
  cbv zeta.
  destruct (initialize (sqlAgent env input)); [reflexivity |].
  destruct (prepare (sqlAgent env input));
    destruct (destroy (sqlAgent env input)); try reflexivity;
    destruct (stream (sqlAgent env input)); try reflexivity;
    destruct (interrupted (sqlAgent env input)); reflexivity.
Qed.

(** X19.  Whatever the user writes, the schema tool and the handler of the
    tool-specific questions ask [describeTable] about the table that the
    group of the pattern names in the input, and about no other: about
    nothing when the pattern finds no match, or when the handler is asked
    for another tool than [getSchema].  The name is a word that stands in
    the input behind one of the three keywords. *)
Theorem described_table_is_the_group_of_the_pattern
  (input tool : string) (s : Session) :
  let named := match Patterns.extractTableName input with
               | Some w => [w]
               | None => []
               end in
  described (snd (TableTools.GetTableSchemaTool_call env input s))
  = (described s ++ named)%list /\
  described (snd (EnhancedAgent.handleToolSpecificQuery env input tool s))
  = (described s ++ if String.eqb tool "getSchema" then named else [])%list /\
  (forall w, In w named -> isWord w /\ namesTable input w).
Proof.
  cbv zeta. split; [| split].
  - unfold TableTools.GetTableSchemaTool_call, tryCatch.
    destruct (Patterns.extractTableName input) as [w |] eqn:X;
      [| cbn; now rewrite app_nil_r].
    unfold bind, TableTools.describe.
    destruct (describeTable env w); reflexivity.
  - unfold EnhancedAgent.handleToolSpecificQuery, tryCatch.
    destruct (String.eqb tool "getSchema") eqn:G.
    + apply String.eqb_eq in G. subst tool.
      change (String.eqb "getSchema" "listTables") with false. cbv iota.
      destruct (Patterns.extractTableName input) as [w |] eqn:X;
        [| cbn; now rewrite app_nil_r].
      unfold TableTools.getTableSchema, tryCatch, bind, TableTools.describe.
      destruct (describeTable env w); reflexivity.
    + rewrite app_nil_r.
      destruct (String.eqb tool "listTables"); [reflexivity |].
      destruct (String.eqb tool "langchain"); [| reflexivity].
      pose proof (langchainTool_described input s) as D.
      destruct (Langchain.langchainTool env input s) as [[a | e] s1]; exact D.
  - intros w H.
    destruct (Patterns.extractTableName input) as [w' |] eqn:X; [| destruct H].
    destruct H as [<- | []].
    split; [exact (extractTableName_spec _ _ X) | exact (extractTableName_names _ _ X)].
Qed.

(** X20.  A question that the keyword classifier calls simple, one that asks
    for the latest records included, is answered with the number of
    telemetry records. *)
Theorem simple_question_is_answered_with_the_count
  (input action : string) (s : Session) :
  Enhanced.classifyQuery input = Enhanced.simple action ->
  EnhancedAgent.getConversationalResponse env (AdvancedToolkit.getTools env) input s
  = (Returned match orm env TelemetryCount with
              | Returned count => "Total telemetry records in the database: " ++ count
              | Thrown e => "Error executing quick query: " ++ errorText e
              end,
     mkSession (store s) (ormCalls s ++ [TelemetryCount]) (described s)
               (invocations s) (openSources s)).
Proof.
  intros H. unfold EnhancedAgent.getConversationalResponse. rewrite H.
  assert (A : action = "count_records").
  { revert H. unfold Enhanced.classifyQuery. cbv zeta.
    repeat match goal with
           | |- context [if ?b then _ else _] => destruct b
           end; congruence. }
  subst action.
  change (String.eqb "count_records" "") with false. cbv iota.
  unfold EnhancedAgent.handleSimpleQuery.
  change (findTool "smartweld_quick_query" (AdvancedToolkit.getTools env))
    with (Some (mkTool "smartweld_quick_query"
                  (AdvancedToolkit.SmartWeldCustomQueryTool._call env))).
  cbn [_call].
  change (AdvancedToolkit.SmartWeldCustomQueryTool._call env "count_records")
    with (tryCatch
            (count <- ormCall env TelemetryCount ;;
             ret ("Total telemetry records in the database: " ++ count))
            (fun error => ret (S := Session)
               ("Error executing quick query: " ++ errorText error))).
  unfold tryCatch, bind, ormCall.
  destruct (orm env TelemetryCount); reflexivity.
Qed.

End EnhancedAnswers.

(** "Which columns does Device have?" names a table and yet gets the
    request for a table name. *)
Lemma columns_question_gets_no_schema_witness :
  EnhancedAgent.getConversationalResponse downChatEnv
    (AdvancedToolkit.getTools downChatEnv) "Which columns does Device have?"
    freshSession
  = (Returned "Please specify a table name. Example: 'Show me the schema of users table'",
     freshSession).
Proof.
  apply (columns_question_gets_no_schema downChatEnv
           (AdvancedToolkit.getTools downChatEnv)
           "Which columns does Device have?" freshSession);
    vm_compute; reflexivity.
Defined.

(** "Show the latest readings" is answered with the number of records. *)
Lemma simple_question_is_answered_with_the_count_witness :
  EnhancedAgent.getConversationalResponse downChatEnv
    (AdvancedToolkit.getTools downChatEnv) "Show the latest readings"
    freshSession
  = (Returned "Total telemetry records in the database: 0",
     mkSession (mkStore []) [TelemetryCount] [] 0 0).
Proof.
  apply (simple_question_is_answered_with_the_count downChatEnv
           "Show the latest readings" "count_records" freshSession).
  vm_compute. reflexivity.
Defined.
(* ================================================================== *)
(** ** The tools of [services/sql-toolkit.ts] and of [tools/] *)

Section DataSourceSchemaTool.
Import JsString Template DataSourceTools.SmartWeldSchemaToolDataSource.

Variable env : ChatEnv.

(** X21.  The schema tool of [services/sql-toolkit.ts] lists the tables
    exactly when the input, trimmed and lower-cased, mentions neither
    telemetry nor device.  Otherwise it reads sample rows once, from the
    telemetry table if the input mentions telemetry and from the device
    table if not, and a rejection of that read leaves the tool as it
    is. *)
Theorem schema_tool_reads_samples_or_lists_tables (input : string) (s : Session) :
  let tableName := toLowerCase (trim input) in
  let read op := mkSession (store s) (ormCalls s ++ [op]) (described s)
                           (invocations s) (openSources s) in
  _call env input s
  = if includes tableName "telemetry" then
      (match orm env TelemetrySamples with
       | Returned samples =>
           Returned ("Table: DeviceTelemetries" ++ nl ++ telemetrySchema ++ nl
                     ++ "Sample rows: " ++ samples)
       | Thrown e => Thrown e
       end, read TelemetrySamples)
    else if includes tableName "device" then
      (match orm env (if includes tableName "devicetelemetries"
                      then TelemetrySamples else DeviceSamples) with
       | Returned samples =>
           Returned (if includes tableName "devicetelemetries"
                     then "Table: DeviceTelemetries" ++ nl ++ telemetrySchema ++ nl
                          ++ "Sample rows: " ++ samples
                     else "Table: Device" ++ nl ++ deviceSchema ++ nl
                          ++ "Sample rows: " ++ samples)
       | Thrown e => Thrown e
       end,
       read (if includes tableName "devicetelemetries"
             then TelemetrySamples else DeviceSamples))
    else (Returned "Available tables: DeviceTelemetries, Device", s).
Proof.
  cbv zeta. unfold _call. cbv zeta.
  destruct (includes (toLowerCase (trim input)) "telemetry") eqn:T.
  - rewrite orb_true_r. unfold bind, ormCall.
    destruct (orm env TelemetrySamples); reflexivity.
  - rewrite orb_false_r.
    destruct (includes (toLowerCase (trim input)) "devicetelemetries") eqn:D.
    + rewrite (includes_trans _ "devicetelemetries" "device" eq_refl D).
      unfold bind, ormCall. destruct (orm env TelemetrySamples); reflexivity.
    + destruct (includes (toLowerCase (trim input)) "device"); [| reflexivity].
      unfold bind, ormCall. destruct (orm env DeviceSamples); reflexivity.
Qed.

End DataSourceSchemaTool.

Section LangchainTool.
Import JsString Template Langchain.

Variable env : ChatEnv.

(** X22.  [langchainTool] rejects only when [destroy] does, and then with the
    error of [destroy], whatever the agent had answered.  When it resolves
    it has destroyed the data source it initialised, if any; its content is
    the last text of the agent when no step of the [try] block rejected,
    and otherwise [Error: ] followed by the first rejection as a string. *)
Theorem langchainTool_releases_its_data_source (question : string) (s : Session) :
  let run := sqlAgent env question in
  match langchainTool env question s with
  | (Returned content, s') =>
      openSources s' = openSources s /\
      (initialize run = None -> destroy run = None) /\
      content = match firstFailure run with
                | Some e => "Error: " ++ errorString run e
                | None => fold_left nextFinalText (events run) ""
                end
  | (Thrown e, s') =>
      initialize run = None /\ destroy run = Some e /\
      openSources s' = S (openSources s)
  end.
Proof.
  cbv zeta.
  unfold langchainTool, converse, firstFailure, tryCatch, bind, attempt,
    setOpenSources, modify, ret, throw. cbv zeta.
  destruct (initialize (sqlAgent env question)) as [e0 |].
  { cbn. split; [reflexivity |]. split; [discriminate | reflexivity]. }
  destruct (prepare (sqlAgent env question));
    destruct (destroy (sqlAgent env question)); cbn;
    try (repeat split; reflexivity);
    try (split; [reflexivity |]; split; [discriminate | reflexivity]);
    destruct (stream (sqlAgent env question)); cbn;
    try (repeat split; reflexivity);
    try (split; [reflexivity |]; split; [discriminate | reflexivity]);
    destruct (interrupted (sqlAgent env question)); cbn;
    try (repeat split; reflexivity);
    try (split; [reflexivity |]; split; [discriminate | reflexivity]).
Qed.

(** X23.  The SQL analysis tool never rejects and never answers with the
    empty text. *)
Theorem sql_analysis_tool_always_says_something (message : string) (s : Session) :
  exists answer,
    fst (sqlAnalysisTool env message s) = Returned answer /\ answer <> "".
Proof.
  unfold sqlAnalysisTool, tryCatch, bind, ret.
  destruct (langchainTool env message s) as [[content | e] s1].
  - destruct content as [| c r]; eexists; (split; [reflexivity | discriminate]).
  - eexists. split; [reflexivity | discriminate].
Qed.

End LangchainTool.

Section ListTables.
Import JsString Template.

Lemma includes_app_left (a b sub : string) :
  includes a sub = true -> includes (a ++ b) sub = true.
Proof.
  intros H. apply includes_iff in H. destruct H as [x [y ->]].
  apply includes_iff. exists x, (y ++ b). now rewrite !append_assoc.
Qed.

Lemma includes_app_right (a b sub : string) :
  includes b sub = true -> includes (a ++ b) sub = true.
Proof.
  intros H. apply includes_iff in H. destruct H as [x [y ->]].
  apply includes_iff. exists (a ++ x), y. now rewrite !append_assoc.
Qed.

Lemma includes_refl (s : string) : includes s s = true.
Proof.
  apply includes_iff. exists "", "". cbn [append].
  induction s as [| c s IH]; [reflexivity |]. cbn [append]. now rewrite <- IH.
Qed.

Lemma join_includes (sep t : string) (xs : list string) :
  In t xs -> includes (join sep xs) t = true.
Proof.
  induction xs as [| x xs IH]; [intros [] |].
  intros [-> | H].
  - destruct xs; cbn [join]; [apply includes_refl |].
    apply includes_app_left, includes_refl.
  - destruct xs as [| y ys]; [destruct H |].
    change (join sep (x :: y :: ys)) with (x ++ sep ++ join sep (y :: ys)).
    apply includes_app_right, includes_app_right, IH, H.
Qed.

(** X24.  When [showAllTables] answers, the text of [listDatabaseTables]
    names every table of the answer. *)
Theorem every_table_is_listed (env : ChatEnv) (tables : list string) (t : string) :
  showAllTables env = Returned tables -> In t tables ->
  includes (TableTools.listDatabaseTables env) t = true.
Proof.
  intros H I. unfold TableTools.listDatabaseTables. rewrite H.
  destruct tables as [| x xs]; [destruct I |].
  apply includes_app_right, join_includes, I.
Qed.

End ListTables.

(** Both tables of the database stand in the listing. *)
Lemma every_table_is_listed_witness :
  JsString.includes (TableTools.listDatabaseTables downChatEnv)
                    "DeviceTelemetries" = true.
Proof.
  apply (every_table_is_listed downChatEnv ["Device"; "DeviceTelemetries"]
           "DeviceTelemetries").
  - reflexivity.
  - right. left. reflexivity.
Defined.

(* ================================================================== *)
(** ** The answer of the classifying oracle *)

Section ClassifierAnswer.
Import JsString Patterns HybridCore.

Lemma allChars_app (p : ascii -> bool) (a b : string) :
  allChars p (a ++ b) = allChars p a && allChars p b.
Proof.
  induction a as [| x a IH]; [reflexivity |]. cbn [append allChars].
  now rewrite IH, andb_assoc.
Qed.

Lemma splitAux_pieces (sep : ascii) (s cur : string) :
  allChars (fun c => negb (Ascii.eqb c sep)) cur = true ->
  Forall (fun piece => allChars (fun c => negb (Ascii.eqb c sep)) piece = true)
         (splitAux sep cur s).
Proof.
  revert cur. induction s as [| c s IH]; intros cur H; cbn [splitAux].
  - now constructor.
  - destruct (Ascii.eqb c sep) eqn:E.
    + constructor; [exact H | now apply IH].
    + apply IH. rewrite allChars_app, H. cbn [allChars]. now rewrite E.
Qed.

Lemma splitAux_run (sep : ascii) (a rest cur : string) :
  allChars (fun c => negb (Ascii.eqb c sep)) a = true ->
  splitAux sep cur (a ++ rest) = splitAux sep (cur ++ a) rest.
Proof.
  revert cur. induction a as [| x a IH]; intros cur H.
  - cbn [append]. f_equal. clear. induction cur; cbn; congruence.
  - cbn [allChars] in H. apply andb_true_iff in H. destruct H as [X A].
    cbn [append splitAux]. apply negb_true_iff in X. rewrite X.
    rewrite (IH _ A), append_assoc. reflexivity.
Qed.

Lemma splitAux_last (sep : ascii) (a cur : string) :
  allChars (fun c => negb (Ascii.eqb c sep)) a = true ->
  splitAux sep cur a = [cur ++ a].
Proof.
  revert cur. induction a as [| x a IH]; intros cur H.
  - cbn [splitAux]. f_equal. clear. induction cur; cbn; congruence.
  - cbn [allChars] in H. apply andb_true_iff in H. destruct H as [X A].
    cbn [splitAux]. apply negb_true_iff in X. rewrite X.
    rewrite (IH _ A), append_assoc. reflexivity.
Qed.

Lemma nth_pieces (pieces : list string) (p : string -> Prop) :
  Forall p pieces -> p "" -> p (nth 1 pieces "").
Proof.
  intros F D. destruct F as [| x xs _ F]; [exact D |].
  destruct F as [| y ys Y _]; [exact D | exact Y].
Qed.

(** X25.  The action that the hybrid classifiers read from the answer of the
    oracle is the text between its first and its second colon: it holds no
    colon, and whatever follows a second colon is dropped. *)
Theorem classifier_action_ends_at_the_second_colon (content : string) :
  (forall action,
     parseClassifierResponse content = simple action ->
     allChars notColon action = true) /\
  (forall a,
     allChars notColon a = true ->
     (toLowerCase (trim content) = "simple:" ++ a ->
      parseClassifierResponse content = simple a) /\
     (forall rest,
        toLowerCase (trim content) = "simple:" ++ a ++ ":" ++ rest ->
        parseClassifierResponse content = simple a)).
Proof.
  unfold parseClassifierResponse. cbv zeta. split.
  - intros action. destruct (startsWith _ _); [| discriminate].
    intros [= <-]. apply (nth_pieces _ (fun p => allChars notColon p = true));
      [| reflexivity].
    apply (splitAux_pieces ":"%char). reflexivity.
  - intros a A. split.
    + intros ->. unfold startsWith. rewrite (prefix_refl_app "simple:" a).
      f_equal. unfold split.
      change ("simple:" ++ a) with ("simple" ++ String ":"%char a).
      rewrite (splitAux_run ":"%char "simple" _ "") by reflexivity.
      cbn [append splitAux Ascii.eqb Bool.eqb].
      rewrite (splitAux_last ":"%char a "") by exact A. reflexivity.
    + intros rest ->. unfold startsWith.
      rewrite (prefix_refl_app "simple:" (a ++ ":" ++ rest)).
      f_equal. unfold split.
      change ("simple:" ++ a ++ ":" ++ rest)
        with ("simple" ++ String ":"%char (a ++ String ":"%char rest)).
      rewrite (splitAux_run ":"%char "simple" _ "") by reflexivity.
      cbn [append splitAux Ascii.eqb Bool.eqb].
      rewrite (splitAux_run ":"%char a _ "") by exact A.
      cbn [append splitAux Ascii.eqb Bool.eqb]. reflexivity.
Qed.

End ClassifierAnswer.

(* ================================================================== *)
(** ** The later hybrid agent *)

Section LaterAgent.
Import JsString Template.

Variable env : ChatEnv.
Variable tools : list Tool.
Hypothesis noTelemetryTool : findTool "smartweld_telemetry_analysis" tools = None.
Hypothesis noDeviceTool : findTool "smartweld_device_info" tools = None.

Lemma agree_refl (input : string) (a : Outcome string * Session) :
  agree input a a.
Proof. split; [reflexivity | now left]. Qed.

Lemma countOrRephrase_agree (input reasoning : string) (s : Session) :
  agree input (LaterHybridAgent.countOrRephrase tools input reasoning s)
              (HybridAgent.countOrRephrase tools input reasoning s).
Proof.
  unfold LaterHybridAgent.countOrRephrase, HybridAgent.countOrRephrase.
  destruct (_ || _).
  - destruct (findTool "smartweld_quick_query" tools); [apply agree_refl |].
    split; [reflexivity | right; split; reflexivity].
  - split; [reflexivity | right; split; reflexivity].
Qed.

Lemma reason_agree (input : string) (s : Session) :
  agree input (LaterHybridAgent.reason env tools input s)
              (HybridAgent.reason env tools input s).
Proof.
  unfold LaterHybridAgent.reason, HybridAgent.reason, bind.
  destruct (modelInvoke env s) as [[reasoning | e] s1]; [| apply agree_refl].
  cbv zeta.
  destruct (_ || _); [| apply countOrRephrase_agree].
  destruct (findTool "smartweld_database_info" tools) as [dbInfoTool |];
    [| apply countOrRephrase_agree].
  destruct (_call dbInfoTool "schema" s1) as [[schemaInfo | e] s2];
    [| apply agree_refl].
  destruct (modelInvoke env s2) as [[followUp | e] s3]; [| apply agree_refl].
  destruct (_ || _); [| apply countOrRephrase_agree].
  destruct (findTool "smartweld_sql_query" tools) as [sqlTool |];
    [| apply countOrRephrase_agree].
  destruct (Patterns.extractSelect followUp); [| apply countOrRephrase_agree].
  apply agree_refl.
Qed.

(** Without the two tools the telemetry branch and the device branch fall
    through. *)
Lemma telemetryOrDevice_falls_through (input : string) :
  LaterHybridAgent.telemetryOrDevice env tools input
  = LaterHybridAgent.reason env tools input.
Proof.
  unfold LaterHybridAgent.telemetryOrDevice, LaterHybridAgent.deviceOrReason.
  cbv zeta. rewrite noTelemetryTool, noDeviceTool.
  destruct (_ || _ || _ || _ || _ || _);
    destruct (_ && _ && _ && _ && _ && _ && _); reflexivity.
Qed.

Lemma handleComplexQuery_agree (input : string) (s : Session) :
  agree input (LaterHybridAgent.handleComplexQuery env tools input s)
              (HybridAgent.handleComplexQuery env tools input s).
Proof.
  unfold LaterHybridAgent.handleComplexQuery, HybridAgent.handleComplexQuery.
  cbv zeta.
  assert (Sql : agree input (LaterHybridAgent.sqlOrTelemetry env tools input s)
                            (HybridAgent.sqlOrReason env tools input s)).
  { unfold LaterHybridAgent.sqlOrTelemetry, HybridAgent.sqlOrReason. cbv zeta.
    rewrite telemetryOrDevice_falls_through.
    destruct (_ || _); [| apply reason_agree].
    destruct (findTool "smartweld_sql_query" tools); [| apply reason_agree].
    destruct (includes (toLowerCase input) "count"); [apply agree_refl |].
    destruct (_ || _); [apply agree_refl | apply reason_agree]. }
  destruct (_ || _); [| exact Sql].
  destruct (findTool "smartweld_database_info" tools); [| exact Sql].
  apply agree_refl.
Qed.

End LaterAgent.

Section LaterAgentTheorem.
Import JsString.

(** X26.  Neither toolkit of the repository has a tool named
    [smartweld_telemetry_analysis] or [smartweld_device_info].  With either
    of them the telemetry branch and the device branch of the later
    [handleComplexQuery] find no tool and fall through, a question about
    the current of a device included: the function does what the earlier
    [handleComplexQuery] does, up to the layout of the answer of last
    resort. *)
Theorem telemetry_and_device_branches_find_no_tool
  (env : ChatEnv) (input : string) (s : Session) :
  agree input
    (LaterHybridAgent.handleComplexQuery env (AdvancedToolkit.getTools env) input s)
    (HybridAgent.handleComplexQuery env (AdvancedToolkit.getTools env) input s) /\
  agree input
    (LaterHybridAgent.handleComplexQuery env (DataSourceTools.getTools env) input s)
    (HybridAgent.handleComplexQuery env (DataSourceTools.getTools env) input s).
Proof. split; apply handleComplexQuery_agree; reflexivity. Qed.

End LaterAgentTheorem.

Section LaterAgentBounds.
Import JsString.

Variable env : ChatEnv.
Variable tools : list Tool.
Hypothesis behave : toolsBehave tools.
Hypothesis noTelemetryTool : findTool "smartweld_telemetry_analysis" tools = None.
Hypothesis noDeviceTool : findTool "smartweld_device_info" tools = None.

Lemma later_handleComplexQuery_bounded (input : string) :
  bounded 1 2 (LaterHybridAgent.handleComplexQuery env tools input).
Proof.
  intros s.
  destruct (handleComplexQuery_agree env tools noTelemetryTool noDeviceTool
              input s) as [E _].
  rewrite E. apply handleComplexQuery_bounded, behave.
Qed.

Lemma later_classifyQuery_bounded (input : string) :
  bounded 0 1 (LaterHybridAgent.classifyQuery env input).
Proof.
  intros s. unfold LaterHybridAgent.classifyQuery, HybridCore.classifyWith.
  destruct (Hybrid.matchedRule input);
    try destruct (model_invoke env (invocations s)); cbn [snd];
    (split; [| cbn; lia]); exists [], [];
    cbn [executed store ormCalls]; rewrite !app_nil_r;
    (repeat split; [constructor | cbn; lia]).
Qed.

Lemma later_getConversationalResponse_bounded (input : string) (s : Session) :
  returns (fst (LaterHybridAgent.getConversationalResponse env tools input s))
  = true /\
  within 1 3 s (snd (LaterHybridAgent.getConversationalResponse env tools input s)).
Proof.
  split.
  - unfold LaterHybridAgent.getConversationalResponse, tryCatch.
    match goal with
    | |- context [bind ?c ?k s] => destruct (bind c k s) as [[r | e] s1]
    end; reflexivity.
  - revert s. change (bounded 1 3
      (LaterHybridAgent.getConversationalResponse env tools input)).
    unfold LaterHybridAgent.getConversationalResponse.
    apply (bounded_tryCatch 1 3 0 0); [| intros e; apply bounded_ret].
    apply (bounded_bind 0 1 1 2); [apply later_classifyQuery_bounded |].
    intros [action |].
    + destruct (String.eqb action ""); [apply later_handleComplexQuery_bounded |].
      eapply (bounded_weaken 1 0); [| lia | lia].
      apply handleSimpleQuery_bounded, behave.
    + apply later_handleComplexQuery_bounded.
Qed.

End LaterAgentBounds.

Section LaterAgentBudget.

(** X27.  The later hybrid agent keeps the bounds of the earlier one with
    either toolkit: [getConversationalResponse] always resolves, and a
    request reaches the database at most once and the oracle at most three
    times; a statement it gives to [sequelize.query] begins with SELECT. *)
Theorem later_chat_request_reads_once_and_asks_thrice
  (env : ChatEnv) (input : string) (s : Session) :
  (returns (fst (LaterHybridAgent.getConversationalResponse env
                   (AdvancedToolkit.getTools env) input s)) = true /\
   within 1 3 s (snd (LaterHybridAgent.getConversationalResponse env
                        (AdvancedToolkit.getTools env) input s))) /\
  (returns (fst (LaterHybridAgent.getConversationalResponse env
                   (DataSourceTools.getTools env) input s)) = true /\
   within 1 3 s (snd (LaterHybridAgent.getConversationalResponse env
                        (DataSourceTools.getTools env) input s))).
Proof.
  split; apply later_getConversationalResponse_bounded;
    try reflexivity; [apply advancedTools_behave | apply dataSourceTools_behave].
Qed.

End LaterAgentBudget.

(* ================================================================== *)
(** ** The chat endpoint and the function-calling agent *)

Section ChatEndpointProps.
Import ChatEndpoint.





End ChatEndpointProps.

Section MockAgentProps.
Import MockAgent.

(** The reading that the agent sends back for the device [id]. *)
Lemma getTemperature_default (id : Json.json) :
  getTemperature id None = mkReading id (Finite (159 # 2)) "Celcius" "High".
Proof. reflexivity. Qed.

Lemma answerCall_sends (model : Gemini) (fc : FunctionCall) (sent : list Message) :
  snd (answerCall model fc sent) = sent \/
  snd (answerCall model fc sent)
  = (sent ++ [FunctionResponse "getTemperature"
                (mkReading (callDeviceID fc) (Finite (159 # 2)) "Celcius" "High")])%list.
Proof.
  unfold answerCall. destruct (String.eqb (callName fc) "getTemperature");
    [right | left]; reflexivity.
Qed.

Lemma forEach_answerCall (model : Gemini) (calls : list FunctionCall) :
  forall sent,
  exists new,
    snd (forEach calls (answerCall model) sent) = (sent ++ new)%list /\
    (List.length new <= List.length calls)%nat /\
    Forall (fun m => exists id,
              m = FunctionResponse "getTemperature"
                    (mkReading id (Finite (159 # 2)) "Celcius" "High")) new.
Proof.
  induction calls as [| fc calls IH]; intros sent.
  - exists []. cbn. rewrite app_nil_r. repeat split; [lia | constructor].
  - cbn [forEach]. unfold bind.
    destruct (answerCall_sends model fc sent) as [E | E];
      destruct (answerCall model fc sent) as [[[] | e] sent1]; cbn [snd] in E;
      subst sent1.
    + destruct (IH sent) as [new [N [L F]]]. exists new.
      repeat split; [exact N | cbn; lia | exact F].
    + exists []. cbn. rewrite app_nil_r. repeat split; [lia | constructor].
    + destruct (IH (sent ++ [FunctionResponse "getTemperature"
                     (mkReading (callDeviceID fc) (Finite (159 # 2)) "Celcius"
                        "High")])%list) as [new [N [L F]]].
      eexists (_ :: new). rewrite N, <- app_assoc. cbn [app].
      repeat split; [cbn; lia | constructor; [eauto | exact F]].
    + eexists [_]. cbn [snd]. repeat split; [cbn; lia | constructor; [eauto | constructor]].
Qed.

(** X29.  The temperature that [getTemperature] reports is 79.5 whatever it
    is given, and its status is High exactly when its second argument is
    above 80.  [myAgent] calls it without that argument, so the default of
    99 decides: after the request, the agent sends at most one function
    response for each function call, and every one of them reports 79.5
    degrees with the status High, though 79.5 is not above 80. *)
Theorem mock_reading_is_high_at_79_5
  (model : Gemini) (userRequest : string) (sent : list Message) :
  (forall id given,
     readingTemperature (getTemperature id given) = Finite (159 # 2)) /\
  (forall id t,
     readingStatus (getTemperature id (Some t)) = "High"
     <-> gt t (Finite 80) = true) /\
  gt (Finite (159 # 2)) (Finite 80) = false /\
  exists new,
    snd (myAgent model userRequest sent)
    = (sent ++ UserRequest userRequest :: new)%list /\
    (List.length new <= List.length (functionCalls model))%nat /\
    Forall (fun m => exists id,
              m = FunctionResponse "getTemperature"
                    (mkReading id (Finite (159 # 2)) "Celcius" "High")) new.
Proof.
  split; [| split; [| split]].
  - intros id given. reflexivity.
  - intros id t. cbn [getTemperature readingStatus].
    destruct (gt t (Finite 80)); split; intros H; (reflexivity || discriminate H).
  - reflexivity.
  - unfold myAgent, bind, sendMessage.
    destruct (rejects model (List.length sent)) as [e |].
    + exists []. cbn [snd]. repeat split; [cbn; lia | constructor].
    + destruct (functionCalls model) as [| fc calls] eqn:C.
      * exists []. cbn [snd ret]. repeat split; [cbn; lia | constructor].
      * destruct (forEach_answerCall model (fc :: calls)
                    (sent ++ [UserRequest userRequest])%list) as [new [N [L F]]].
        exists new. rewrite N, <- app_assoc. repeat split; assumption.
Qed.

End MockAgentProps.
